(** * belajar-db-sqlite: the data-access layer and the authentication
      provider

    A shallow embedding of the SQLite data-access module [utils/database.ts]
    (connection guard, schema creation, CRUD/search functions,
    authentication helper) and of [AuthProvider], together with the part
    of the storage engine the module relies on: parameterised
    INSERT / UPDATE / DELETE / SELECT over four tables, the LIKE operator and
    ORDER BY.

    Conventions.
    - A JavaScript string is a [string], the UTF-8 text the engine stores;
      an optional string ([string | null], [field?: string]) is an
      [option string] where [None] stands for the nullish values
      [undefined] and [null].
    - [String.prototype.toLowerCase] is a parameter ([Runtime]): what
      depends on it is proved for every such function.
    - A JavaScript number used as row id or semester is a [Z].
    - A row returned by the driver is an object keyed by column name: an
      association list from column names to SQL values.
    - Every [async] function is a computation in the monad [M] over the
      [World] (guard variables, tables, the environment's script of driver
      outcomes, the trace of driver calls and the console).
    - The interleaving of several callers of [initDatabase] is modelled by
      the labelled transition system [step] on [Machine]. *)

From Stdlib Require Import ZArith List String Ascii Bool Lia.
From Stdlib Require Import Sorted Permutation DecimalString.
From stdpp Require Import list.
Import ListNotations.

Local Open Scope string_scope.
Local Open Scope list_scope.

Infix "+:+" := String.append (at level 60, right associativity).

(* ================================================================== *)
(** * 1. JavaScript values *)
(* ================================================================== *)

(** A value that can be thrown: an [Error] object ([new Error(message)]),
    an [Error] object on which an [originalError] property was set, or any
    other value, of which only its string conversion is observable. *)
Inductive JsError : Type :=
| ErrorObj (message : string)
| ErrorWith (message : string) (originalError : JsError)
| ThrownValue (text : string).

(** [error?.message] *)
Definition message_of (error : JsError) : option string :=
  match error with
  | ErrorObj message => Some message
  | ErrorWith message _ => Some message
  | ThrownValue _ => None
  end.

(** [String(error)] and [error.toString()] *)
Definition to_String (error : JsError) : string :=
  match error with
  | ErrorObj message | ErrorWith message _ =>
      if (message =? "")%string then "Error" else "Error: " +:+ message
  | ThrownValue text => text
  end.

(** [a || b] on strings: [a] unless it is undefined or empty. *)
Definition or_else (a : option string) (b : string) : string :=
  match a with
  | Some s => if (s =? "")%string then b else s
  | None => b
  end.

(** Result of an awaited call: a value or a thrown error. *)
Inductive Res (A : Type) : Type :=
| Ok (a : A)
| Throw (error : JsError).
Arguments Ok {A} a.
Arguments Throw {A} error.

(** ** Strings *)

Definition lower_ascii (c : ascii) : ascii :=
  let n := nat_of_ascii c in
  if (65 <=? n)%nat && (n <=? 90)%nat then ascii_of_nat (n + 32) else c.

(** [String.prototype.toLowerCase] belongs to the JavaScript runtime and
    follows the Unicode case mapping. The development is parametric in
    it: definitions and theorems that depend on it hold for every
    [Runtime]. *)
Class Runtime : Type := {
  toLowerCase : string -> string
}.

(** The runtime of the examples. Their texts are ASCII, and on an ASCII
    text lowering the letters A to Z is what [toLowerCase] does. *)
Fixpoint ascii_toLowerCase (s : string) : string :=
  match s with
  | EmptyString => EmptyString
  | String c s' => String (lower_ascii c) (ascii_toLowerCase s')
  end.

#[export] Instance example_runtime : Runtime := {|
  toLowerCase := ascii_toLowerCase
|}.

Fixpoint starts_with (sub s : list ascii) : bool :=
  match sub, s with
  | [], _ => true
  | _ :: _, [] => false
  | a :: sub', b :: s' => Ascii.eqb a b && starts_with sub' s'
  end.

Fixpoint includes_list (sub s : list ascii) : bool :=
  starts_with sub s ||
  match s with
  | [] => false
  | _ :: s' => includes_list sub s'
  end.

(** [s.includes(sub)] *)
Definition includes (s sub : string) : bool :=
  includes_list (list_ascii_of_string sub) (list_ascii_of_string s).

(* ================================================================== *)
(** * 2. The storage engine *)
(* ================================================================== *)

(** ** Values and rows *)

Inductive SqlValue : Type :=
| SNull
| SInt (z : Z)
| SText (s : string).

Definition Row : Type := list (string * SqlValue).

Fixpoint field (c : string) (r : Row) : SqlValue :=
  match r with
  | [] => SNull
  | (k, v) :: r' => if (k =? c)%string then v else field c r'
  end.

Fixpoint set_field (c : string) (v : SqlValue) (r : Row) : Row :=
  match r with
  | [] => []
  | (k, old) :: r' =>
      if (k =? c)%string then (k, v) :: r' else (k, old) :: set_field c v r'
  end.

(** The [=] operator of a WHERE clause: never true on NULL. *)
Definition sql_eqb (a b : SqlValue) : bool :=
  match a, b with
  | SInt x, SInt y => (x =? y)%Z
  | SText x, SText y => (x =? y)%string
  | _, _ => false
  end.

Definition is_null (v : SqlValue) : bool :=
  match v with SNull => true | _ => false end.

(** Ordering of values under ORDER BY with the BINARY collation: NULL first,
    then integers, then text compared byte by byte. *)
Definition sql_leb (a b : SqlValue) : bool :=
  match a, b with
  | SNull, _ => true
  | SInt _, SNull => false
  | SInt x, SInt y => (x <=? y)%Z
  | SInt _, SText _ => true
  | SText _, SNull => false
  | SText _, SInt _ => false
  | SText x, SText y => String.leb x y
  end.

(** Text of a value as the LIKE operator sees it; NULL has none. *)
Definition value_text (v : SqlValue) : option string :=
  match v with
  | SNull => None
  | SInt z => Some (NilZero.string_of_int (Z.to_int z))
  | SText s => Some s
  end.

(** ** LIKE *)

(** Texts are stored in UTF-8. A byte from 0x80 to 0xBF continues the
    character begun before it. *)
Definition is_continuation (c : ascii) : bool :=
  (128 <=? nat_of_ascii c)%nat && (nat_of_ascii c <=? 191)%nat.

Fixpoint drop_continuation (s : list ascii) : list ascii :=
  match s with
  | c :: s' => if is_continuation c then drop_continuation s' else s
  | [] => []
  end.

(** What follows the first character of [s]: a byte of value 0xC0 or more
    takes with it the continuation bytes after it, any other byte is a
    character by itself. A text that starts inside a character, or is
    empty, has no first character. *)
Definition after_char (s : list ascii) : option (list ascii) :=
  match s with
  | [] => None
  | d :: s' =>
      if is_continuation d then None
      else if (192 <=? nat_of_ascii d)%nat then Some (drop_continuation s')
      else Some s'
  end.

(** [like p s]: the text [s] matches the pattern [p]. ["%"] matches any run
    of characters, ["_"] exactly one character, any other character matches
    itself up to ASCII case. No ESCAPE character is in force. *)
Fixpoint like (p s : list ascii) : bool :=
  match p with
  | [] => match s with [] => true | _ :: _ => false end
  | c :: p' =>
      if Ascii.eqb c "%" then
        (fix skip (t : list ascii) : bool :=
           like p' t || match t with [] => false | _ :: t' => skip t' end) s
      else if Ascii.eqb c "_" then
        match after_char s with
        | Some t => like p' t
        | None => false
        end
      else
        match s with
        | [] => false
        | d :: s' => Ascii.eqb (lower_ascii c) (lower_ascii d) && like p' s'
        end
  end.

(** [v LIKE pattern] *)
Definition sql_like (v : SqlValue) (pattern : SqlValue) : bool :=
  match value_text v, value_text pattern with
  | Some s, Some p => like (list_ascii_of_string p) (list_ascii_of_string s)
  | _, _ => false
  end.

(** ** ORDER BY *)

(** Rows are ordered by a stable insertion sort: rows with equal keys keep
    the order of the table scan. *)
Fixpoint insert_row (leb : Row -> Row -> bool) (x : Row) (l : list Row)
  : list Row :=
  match l with
  | [] => [x]
  | y :: l' => if leb x y then x :: y :: l' else y :: insert_row leb x l'
  end.

Definition sort_rows (leb : Row -> Row -> bool) (l : list Row) : list Row :=
  fold_right (insert_row leb) [] l.

Definition asc (c : string) (x y : Row) : bool :=
  sql_leb (field c x) (field c y).

Definition desc (c : string) (x y : Row) : bool :=
  sql_leb (field c y) (field c x).

(** ** Tables and their schema *)

Inductive TableName : Type := T_mahasiswa | T_users | T_prodi | T_fakultas.

Definition table_name (t : TableName) : string :=
  match t with
  | T_mahasiswa => "mahasiswa"
  | T_users => "users"
  | T_prodi => "prodi"
  | T_fakultas => "fakultas"
  end.

Inductive ColDefault : Type := NoDefault | AutoIncrement | CurrentTimestamp.

Record Column : Type := mkColumn {
  col_name : string;
  col_notnull : bool;
  col_unique : bool;
  col_default : ColDefault
}.

(** The four CREATE TABLE statements of [initDatabase]. *)
Definition schema (t : TableName) : list Column :=
  match t with
  | T_mahasiswa =>
      [ mkColumn "id" false false AutoIncrement;
        mkColumn "nim" true true NoDefault;
        mkColumn "nama" true false NoDefault;
        mkColumn "jurusan" true false NoDefault;
        mkColumn "fakultas" false false NoDefault;
        mkColumn "semester" true false NoDefault;
        mkColumn "email" true false NoDefault;
        mkColumn "created_at" false false CurrentTimestamp ]
  | T_users =>
      [ mkColumn "id" false false AutoIncrement;
        mkColumn "name" true false NoDefault;
        mkColumn "email" true true NoDefault;
        mkColumn "password" true false NoDefault;
        mkColumn "created_at" false false CurrentTimestamp ]
  | T_prodi =>
      [ mkColumn "id" false false AutoIncrement;
        mkColumn "kode_prodi" true true NoDefault;
        mkColumn "nama_prodi" true false NoDefault;
        mkColumn "fakultas" true false NoDefault;
        mkColumn "akreditasi" false false NoDefault;
        mkColumn "deskripsi" false false NoDefault;
        mkColumn "created_at" false false CurrentTimestamp ]
  | T_fakultas =>
      [ mkColumn "id" false false AutoIncrement;
        mkColumn "kode_fakultas" true true NoDefault;
        mkColumn "nama_fakultas" true false NoDefault;
        mkColumn "deskripsi" false false NoDefault;
        mkColumn "created_at" false false CurrentTimestamp ]
  end.

(** A table: its rows in rowid (scan) order and the AUTOINCREMENT
    sequence, the largest rowid ever handed out. *)
Record Table : Type := mkTable {
  rows : list Row;
  seq : Z
}.

Record Store : Type := mkStore {
  st_mahasiswa : Table;
  st_users : Table;
  st_prodi : Table;
  st_fakultas : Table
}.

Definition get_table (t : TableName) (st : Store) : Table :=
  match t with
  | T_mahasiswa => st_mahasiswa st
  | T_users => st_users st
  | T_prodi => st_prodi st
  | T_fakultas => st_fakultas st
  end.

Definition set_table (t : TableName) (tb : Table) (st : Store) : Store :=
  match t with
  | T_mahasiswa => mkStore tb (st_users st) (st_prodi st) (st_fakultas st)
  | T_users => mkStore (st_mahasiswa st) tb (st_prodi st) (st_fakultas st)
  | T_prodi => mkStore (st_mahasiswa st) (st_users st) tb (st_fakultas st)
  | T_fakultas => mkStore (st_mahasiswa st) (st_users st) (st_prodi st) tb
  end.

(** ** Statements *)

(** The SQL texts the module sends, by shape. The [?] placeholders are
    filled from the parameter list passed along with the statement. *)
Inductive Sql : Type :=
| InsertInto (t : TableName) (cols : list string)
    (* INSERT INTO t (cols) VALUES (?, ..., ?) *)
| UpdateById (t : TableName) (cols : list string)
    (* UPDATE t SET c1 = ?, ..., cn = ? WHERE id = ? *)
| DeleteById (t : TableName)
    (* DELETE FROM t WHERE id = ? *)
| SelectById (t : TableName)
    (* SELECT * FROM t WHERE id = ? *)
| SelectByColumn (t : TableName) (c : string)
    (* SELECT * FROM t WHERE c = ? *)
| SelectAll (t : TableName) (order : string)
    (* SELECT * FROM t ORDER BY order ASC *)
| SelectLike (t : TableName) (cols : list string) (order : string)
    (* SELECT * FROM t WHERE c1 LIKE ? OR ... OR cn LIKE ? ORDER BY order ASC *)
| SelectRecent (t : TableName).
    (* SELECT * FROM t ORDER BY datetime(created_at) DESC LIMIT ?
       -- a CURRENT_TIMESTAMP value is already in the form datetime()
       returns, so the rows are ordered by the stored text *)

(** The value bound to column [c] by a column list and a parameter list. *)
Fixpoint bound (cols : list string) (params : list SqlValue) (c : string)
  : option SqlValue :=
  match cols, params with
  | k :: cols', v :: params' =>
      if (k =? c)%string then Some v else bound cols' params' c
  | _, _ => None
  end.

Definition max_rowid (l : list Row) : Z :=
  fold_right
    (fun r m => match field "id" r with SInt z => Z.max z m | _ => m end)
    0%Z l.

(** The rowid AUTOINCREMENT hands out next. *)
Definition next_rowid (tb : Table) : Z :=
  (Z.max (seq tb) (max_rowid (rows tb)) + 1)%Z.

Definition new_row (sch : list Column) (cols : list string)
  (params : list SqlValue) (newid : Z) (now : string) : Row :=
  map (fun c =>
         (col_name c,
          match col_default c with
          | AutoIncrement => SInt newid
          | CurrentTimestamp =>
              match bound cols params (col_name c) with
              | Some v => v
              | None => SText now
              end
          | NoDefault =>
              match bound cols params (col_name c) with
              | Some v => v
              | None => SNull
              end
          end)) sch.

(** UPDATE's SET list applied to one row. *)
Fixpoint assign (cols : list string) (params : list SqlValue) (r : Row) : Row :=
  match cols, params with
  | k :: cols', v :: params' => assign cols' params' (set_field k v r)
  | _, _ => r
  end.

(** First NOT NULL column of the schema left NULL in [r]. *)
Definition notnull_violation (sch : list Column) (r : Row) : option string :=
  option_map col_name
    (List.find (fun c => col_notnull c && is_null (field (col_name c) r)) sch).

(** Number of rows of [l] holding [v] in column [c]. *)
Definition occurrences (c : string) (v : SqlValue) (l : list Row) : nat :=
  length (List.filter (fun r => sql_eqb (field c r) v) l).

(** First UNIQUE column whose value in [r] occurs more than [allowed]
    times among [l]. *)
Definition unique_violation (sch : list Column) (r : Row) (l : list Row)
  (allowed : nat) : option string :=
  option_map col_name
    (List.find
       (fun c => col_unique c &&
                 (allowed <? occurrences (col_name c) (field (col_name c) r) l)%nat)
       sch).

(** The error of a refused row. Its message is SQLite's own text for the
    constraint; the driver may put words of its own around it, so the
    properties of the module are stated on whether a call throws and on
    what the module's own code does with the error it catches, and the
    exact text appears only in worked examples. *)
Definition constraint_failed (kind : string) (t : TableName) (c : string)
  : JsError :=
  ErrorObj (kind +:+ " constraint failed: " +:+ table_name t +:+ "." +:+ c).

Definition has_id (id : SqlValue) (r : Row) : bool :=
  sql_eqb (field "id" r) id.

(** Outcome of [runAsync]. *)
Record RunResult : Type := mkRunResult {
  lastInsertRowId : Z;
  changes : Z
}.

(** INSERT: the new row gets the next rowid and the current timestamp; it is
    refused when it leaves a NOT NULL column empty or repeats a UNIQUE
    value. *)
Definition sql_insert (t : TableName) (cols : list string)
  (params : list SqlValue) (now : string) (tb : Table)
  : Res (RunResult * Table) :=
  if negb (length cols =? length params)%nat then
    Throw (ErrorObj "sqlite3_bind: column index out of range")
  else
    let newid := next_rowid tb in
    let r := new_row (schema t) cols params newid now in
    match notnull_violation (schema t) r with
    | Some c => Throw (constraint_failed "NOT NULL" t c)
    | None =>
        match unique_violation (schema t) r (rows tb) 0 with
        | Some c => Throw (constraint_failed "UNIQUE" t c)
        | None => Ok (mkRunResult newid 1, mkTable (rows tb ++ [r]) newid)
        end
    end.

(** First constraint broken by a row of [l] once it is rewritten, [after]
    being the table after the rewrite. *)
Fixpoint update_violation (t : TableName) (cols : list string)
  (params : list SqlValue) (id : SqlValue) (l after : list Row)
  : option JsError :=
  match l with
  | [] => None
  | r :: l' =>
      if has_id id r then
        let r' := assign cols params r in
        match notnull_violation (schema t) r' with
        | Some c => Some (constraint_failed "NOT NULL" t c)
        | None =>
            match unique_violation (schema t) r' after 1 with
            | Some c => Some (constraint_failed "UNIQUE" t c)
            | None => update_violation t cols params id l' after
            end
        end
      else update_violation t cols params id l' after
  end.

(** UPDATE ... WHERE id = ?: every row with that id is rewritten; no row
    with that id is not an error. *)
Definition sql_update (t : TableName) (cols : list string)
  (params : list SqlValue) (tb : Table) : Res (RunResult * Table) :=
  if negb (S (length cols) =? length params)%nat then
    Throw (ErrorObj "sqlite3_bind: column index out of range")
  else
    let id := List.last params SNull in
    let after :=
      map (fun r => if has_id id r then assign cols params r else r) (rows tb) in
    match update_violation t cols params id (rows tb) after with
    | Some e => Throw e
    | None =>
        Ok (mkRunResult 0
              (Z.of_nat (length (List.filter (has_id id) (rows tb)))),
            mkTable after (seq tb))
    end.

(** DELETE ... WHERE id = ? *)
Definition sql_delete (id : SqlValue) (tb : Table) : RunResult * Table :=
  (mkRunResult 0 (Z.of_nat (length (List.filter (has_id id) (rows tb)))),
   mkTable (List.filter (fun r => negb (has_id id r)) (rows tb)) (seq tb)).

(** WHERE c1 LIKE ?1 OR ... OR cn LIKE ?n *)
Fixpoint any_like (cols : list string) (params : list SqlValue) (r : Row)
  : bool :=
  match cols, params with
  | c :: cols', p :: params' =>
      sql_like (field c r) p || any_like cols' params' r
  | _, _ => false
  end.

(** LIMIT n: a negative limit is no limit. *)
Definition limit (n : SqlValue) (l : list Row) : list Row :=
  match n with
  | SInt z => if (z <? 0)%Z then l else firstn (Z.to_nat z) l
  | _ => l
  end.

(** Rows selected by a query. *)
Definition sql_select (q : Sql) (params : list SqlValue) (st : Store)
  : list Row :=
  match q with
  | SelectById t =>
      List.filter (has_id (hd SNull params)) (rows (get_table t st))
  | SelectByColumn t c =>
      List.filter (fun r => sql_eqb (field c r) (hd SNull params))
                  (rows (get_table t st))
  | SelectAll t order =>
      sort_rows (asc order) (rows (get_table t st))
  | SelectLike t cols order =>
      sort_rows (asc order)
        (List.filter (any_like cols params) (rows (get_table t st)))
  | SelectRecent t =>
      limit (hd SNull params)
        (sort_rows (desc "created_at") (rows (get_table t st)))
  | InsertInto _ _ | UpdateById _ _ | DeleteById _ => []
  end.

(** Effect of a data-changing statement. *)
Definition sql_run (q : Sql) (params : list SqlValue) (now : string)
  (st : Store) : Res (RunResult * Store) :=
  match q with
  | InsertInto t cols =>
      match sql_insert t cols params now (get_table t st) with
      | Ok (res, tb) => Ok (res, set_table t tb st)
      | Throw e => Throw e
      end
  | UpdateById t cols =>
      match sql_update t cols params (get_table t st) with
      | Ok (res, tb) => Ok (res, set_table t tb st)
      | Throw e => Throw e
      end
  | DeleteById t =>
      let '(res, tb) := sql_delete (hd SNull params) (get_table t st) in
      Ok (res, set_table t tb st)
  | _ => Ok (mkRunResult 0 0, st)
  end.

(* ================================================================== *)
(** * 3. The world of the module *)
(* ================================================================== *)

(** A connection handle returned by [SQLite.openDatabaseAsync]. *)
Definition Handle : Type := nat.

(** What the environment answers to a driver call: the call resolves (the
    value matters for [openDatabaseAsync] only, [None] being a null
    database object) or rejects with an error. *)
Inductive Outcome : Type :=
| Resolve (value : option Handle)
| Reject (error : JsError).

(** The statements [initDatabase] passes to [execAsync]. *)
Inductive InitStmt : Type :=
| CreateMahasiswa       (* CREATE TABLE IF NOT EXISTS mahasiswa (...) *)
| CreateUsers           (* CREATE TABLE IF NOT EXISTS users (...) *)
| AlterAddFakultas      (* ALTER TABLE mahasiswa ADD COLUMN fakultas TEXT *)
| CreateProdi           (* CREATE TABLE IF NOT EXISTS prodi (...) *)
| CreateFakultas.       (* CREATE TABLE IF NOT EXISTS fakultas (...) *)

Inductive DriverCall : Type :=
| OpenDatabaseAsync (name : string)
| ExecAsync (database : Handle) (stmt : InitStmt)
| CloseAsync (database : Handle)
| RunAsync (database : Handle) (q : Sql) (params : list SqlValue)
| GetAllAsync (database : Handle) (q : Sql) (params : list SqlValue)
| GetFirstAsync (database : Handle) (q : Sql) (params : list SqlValue).

(** What [console.error] prints of an error besides the error itself. *)
Inductive ErrorDetail : Type :=
| TypeOf       (* typeof error *)
| MessageOf    (* error?.message *)
| StackOf.     (* error?.stack *)

Inductive ConsoleEntry : Type :=
| ConsoleLog (text : string)
| ConsoleError (text : string) (value : JsError)
| ConsoleErrorDetail (text : string) (detail : ErrorDetail) (error : JsError).

(** The two module-level variables [db] and [initPromise]. [P] is what a
    promise is to the observer. *)
Record Guard (P : Type) : Type := mkGuard {
  db : option Handle;
  initPromise : option P
}.
Arguments mkGuard {P} db initPromise.
Arguments db {P} g.
Arguments initPromise {P} g.

(** A promise is seen as the outcome it settles with: the handle it is
    fulfilled with or the error it is rejected with. Between two calls that
    each run to completion no promise is pending.
    [script] is what the environment will answer to the next driver calls
    (an exhausted script resolves every call); [now] is CURRENT_TIMESTAMP. *)
Record World : Type := mkWorld {
  guard : Guard (Res Handle);
  store : Store;
  now : string;
  script : list Outcome;
  calls : list DriverCall;
  console : list ConsoleEntry
}.

Definition M (A : Type) : Type := World -> Res A * World.

Definition ret {A : Type} (a : A) : M A := fun w => (Ok a, w).

Definition throw {A : Type} (error : JsError) : M A := fun w => (Throw error, w).

Definition bind {A B : Type} (m : M A) (k : A -> M B) : M B :=
  fun w =>
    match m w with
    | (Ok a, w') => k a w'
    | (Throw e, w') => (Throw e, w')
    end.

(** [try { m } catch (error) { handler }] *)
Definition try_catch {A : Type} (m : M A) (handler : JsError -> M A) : M A :=
  fun w =>
    match m w with
    | (Ok a, w') => (Ok a, w')
    | (Throw e, w') => handler e w'
    end.

Notation "x <- m ;; k" := (bind m (fun x => k))
  (at level 100, m at next level, right associativity).
Notation "m ;; k" := (bind m (fun _ => k))
  (at level 100, right associativity).

Definition console_log (text : string) : M unit :=
  fun w =>
    (Ok tt, mkWorld (guard w) (store w) (now w) (script w) (calls w)
                    (console w ++ [ConsoleLog text])).

Definition console_error (text : string) (value : JsError) : M unit :=
  fun w =>
    (Ok tt, mkWorld (guard w) (store w) (now w) (script w) (calls w)
                    (console w ++ [ConsoleError text value])).

(** [console.error(text, typeof error)] and the like *)
Definition console_error_detail (text : string) (detail : ErrorDetail)
  (error : JsError) : M unit :=
  fun w =>
    (Ok tt, mkWorld (guard w) (store w) (now w) (script w) (calls w)
                    (console w ++ [ConsoleErrorDetail text detail error])).

Definition set_guard (g : Guard (Res Handle)) : M unit :=
  fun w => (Ok tt, mkWorld g (store w) (now w) (script w) (calls w) (console w)).

Definition get_guard : M (Guard (Res Handle)) := fun w => (Ok (guard w), w).

(** [await promise] for a promise that has settled *)
Definition await {A : Type} (promise : Res A) : M A := fun w => (promise, w).

(** ** The driver *)

Definition default_outcome : Outcome := Resolve (Some 0%nat).

(** A driver call is recorded and answered by the environment. *)
Definition driver (c : DriverCall) : M (option Handle) :=
  fun w =>
    let o := hd default_outcome (script w) in
    let w' := mkWorld (guard w) (store w) (now w) (tl (script w))
                      (calls w ++ [c]) (console w) in
    match o with
    | Resolve v => (Ok v, w')
    | Reject e => (Throw e, w')
    end.

Definition openDatabaseAsync (name : string) : M (option Handle) :=
  driver (OpenDatabaseAsync name).

Definition execAsync (database : Handle) (stmt : InitStmt) : M unit :=
  driver (ExecAsync database stmt) ;; ret tt.

Definition closeAsync (database : Handle) : M unit :=
  driver (CloseAsync database) ;; ret tt.

Definition runAsync (database : Handle) (q : Sql) (params : list SqlValue)
  : M RunResult :=
  driver (RunAsync database q params) ;;
  fun w =>
    match sql_run q params (now w) (store w) with
    | Ok (res, st) =>
        (Ok res, mkWorld (guard w) st (now w) (script w) (calls w) (console w))
    | Throw e => (Throw e, w)
    end.

Definition getAllAsync (database : Handle) (q : Sql) (params : list SqlValue)
  : M (list Row) :=
  driver (GetAllAsync database q params) ;;
  fun w => (Ok (sql_select q params (store w)), w).

Definition getFirstAsync (database : Handle) (q : Sql) (params : list SqlValue)
  : M (option Row) :=
  driver (GetFirstAsync database q params) ;;
  fun w => (Ok (head (sql_select q params (store w))), w).

(* ================================================================== *)
(** * 4. initDatabase and getDatabase, one call run to completion *)
(* ================================================================== *)

(** The statements of the [try] block once the database is open. *)
Definition init_statements (database : Handle) : M Handle :=
  console_log "Creating mahasiswa table..." ;;
  execAsync database CreateMahasiswa ;;
  console_log "Mahasiswa table created" ;;
  console_log "Creating users table..." ;;
  execAsync database CreateUsers ;;
  console_log "Users table created" ;;
  try_catch
    (console_log "Ensuring fakultas column exists in mahasiswa table..." ;;
     execAsync database AlterAddFakultas ;;
     console_log "Fakultas column added to mahasiswa table")
    (fun alterError =>
       let message := or_else (message_of alterError) "" in
       if includes message "duplicate column name"
          || includes message "already exists"
       then console_log "Fakultas column already exists in mahasiswa table"
       else console_error
              "Error ensuring fakultas column on mahasiswa table:" alterError) ;;
  console_log "Creating prodi table..." ;;
  execAsync database CreateProdi ;;
  console_log "Prodi table created" ;;
  console_log "Creating fakultas table..." ;;
  execAsync database CreateFakultas ;;
  console_log "Fakultas table created" ;;
  g <- get_guard ;;
  set_guard (mkGuard (Some database) (initPromise g)) ;;
  console_log "Database initialized successfully" ;;
  ret database.

(** The [catch] block; [database] is the local variable of that name. *)
Definition init_catch (database : option Handle) (error : JsError) : M Handle :=
  console_error "Error initializing database:" error ;;
  console_error_detail "Error type:" TypeOf error ;;
  console_error_detail "Error message:" MessageOf error ;;
  console_error_detail "Error stack:" StackOf error ;;
  (* initPromise = null; db = null *)
  set_guard (mkGuard None None) ;;
  match database with
  | Some h =>
      try_catch
        (closeAsync h ;; console_log "Database closed after error")
        (fun closeError => console_error "Error closing database:" closeError)
  | None => ret tt
  end ;;
  let errorMsg := or_else (message_of error) (to_String error) in
  throw (ErrorObj ("Database initialization failed: " +:+ errorMsg)).

(** The async function whose promise is stored in [initPromise]. *)
Definition init_attempt : M Handle :=
  fun w =>
    match (console_log "Opening database..." ;;
           openDatabaseAsync "mahasiswa.db") w with
    | (Throw error, w1) => init_catch None error w1
    | (Ok None, w1) =>
        (console_log "Database opened successfully" ;;
         init_catch None
           (ErrorObj "Failed to open database: database object is null")) w1
    | (Ok (Some database), w1) =>
        try_catch
          (console_log "Database opened successfully" ;;
           init_statements database)
          (init_catch (Some database)) w1
    end.

(** [initDatabase]. The promise of the async function is assigned to
    [initPromise] when the function is suspended at its first await, so
    that the rest of the function, its [catch] block included, runs with
    the variable set; [return await initPromise] then gives the caller the
    outcome of the function. The promise assigned is the one that settles
    with that outcome. *)
Definition initDatabase : M Handle :=
  fun w =>
    match initPromise (guard w) with
    | Some promise =>
        (console_log "Database initialization already in progress, waiting..." ;;
         await promise) w
    | None =>
        match db (guard w) with
        | Some h => (console_log "Database already initialized" ;; ret h) w
        | None =>
            let promise := fst (init_attempt w) in
            (set_guard (mkGuard (db (guard w)) (Some promise)) ;;
             init_attempt) w
        end
    end.

Definition getDatabase : M Handle :=
  fun w =>
    match db (guard w) with
    | None =>
        (console_log "Database not initialized, initializing now..." ;;
         database <- initDatabase ;;
         ret database) w
    | Some h => (Ok h, w)
    end.

(* ================================================================== *)
(** * 5. The data-access functions *)
(* ================================================================== *)

(** The input objects ([Omit<..., 'id'>]); one name space per interface. *)
Module Mahasiswa.
Record t : Type := make {
  nim : string;
  nama : string;
  jurusan : string;
  fakultas : option string;
  semester : Z;
  email : string
}.
End Mahasiswa.

Module User.
Record t : Type := make {
  name : string;
  email : string;
  password : string
}.
End User.

Module Prodi.
Record t : Type := make {
  kode_prodi : string;
  nama_prodi : string;
  fakultas : string;
  akreditasi : option string;
  deskripsi : option string
}.
End Prodi.

Module Fakultas.
Record t : Type := make {
  kode_fakultas : string;
  nama_fakultas : string;
  deskripsi : option string
}.
End Fakultas.

(** [x ?? null] as a bound parameter *)
Definition nullish_null (x : option string) : SqlValue :=
  match x with
  | Some s => SText s
  | None => SNull
  end.

(** [x || null] as a bound parameter *)
Definition or_null (x : option string) : SqlValue :=
  match x with
  | Some s => if (s =? "")%string then SNull else SText s
  | None => SNull
  end.

(** [`%${keyword}%`] *)
Definition like_pattern (keyword : string) : SqlValue :=
  SText ("%" +:+ keyword +:+ "%").

(** [v === s] for a column value and a JavaScript string *)
Definition strict_eq (v : SqlValue) (s : string) : bool :=
  match v with
  | SText x => (x =? s)%string
  | _ => false
  end.

(** [catch (error) { console.error(label, error); throw error; }] *)
Definition log_and_rethrow {A : Type} (label : string) (error : JsError) : M A :=
  console_error label error ;; throw error.

(** ** Mahasiswa *)

Definition mahasiswa_columns : list string :=
  ["nim"; "nama"; "jurusan"; "fakultas"; "semester"; "email"].

Definition mahasiswa_params (mahasiswa : Mahasiswa.t) : list SqlValue :=
  [ SText (Mahasiswa.nim mahasiswa);
    SText (Mahasiswa.nama mahasiswa);
    SText (Mahasiswa.jurusan mahasiswa);
    nullish_null (Mahasiswa.fakultas mahasiswa);
    SInt (Mahasiswa.semester mahasiswa);
    SText (Mahasiswa.email mahasiswa) ].

Definition addMahasiswa (mahasiswa : Mahasiswa.t) : M Z :=
  try_catch
    (database <- getDatabase ;;
     result <- runAsync database (InsertInto T_mahasiswa mahasiswa_columns)
                 (mahasiswa_params mahasiswa) ;;
     ret (lastInsertRowId result))
    (log_and_rethrow "Error adding mahasiswa:").

Definition getAllMahasiswa : M (list Row) :=
  try_catch
    (database <- getDatabase ;;
     result <- getAllAsync database (SelectAll T_mahasiswa "nama") [] ;;
     ret result)
    (log_and_rethrow "Error getting all mahasiswa:").

Definition getMahasiswaById (id : Z) : M (option Row) :=
  try_catch
    (database <- getDatabase ;;
     result <- getFirstAsync database (SelectById T_mahasiswa) [SInt id] ;;
     ret result)
    (log_and_rethrow "Error getting mahasiswa by id:").

Definition updateMahasiswa (id : Z) (mahasiswa : Mahasiswa.t) : M unit :=
  try_catch
    (database <- getDatabase ;;
     runAsync database (UpdateById T_mahasiswa mahasiswa_columns)
       (mahasiswa_params mahasiswa ++ [SInt id]) ;;
     ret tt)
    (log_and_rethrow "Error updating mahasiswa:").

Definition deleteMahasiswa (id : Z) : M unit :=
  try_catch
    (database <- getDatabase ;;
     runAsync database (DeleteById T_mahasiswa) [SInt id] ;;
     ret tt)
    (log_and_rethrow "Error deleting mahasiswa:").

Definition mahasiswa_search_columns : list string :=
  ["nama"; "nim"; "jurusan"; "fakultas"; "email"].

Definition searchMahasiswa (keyword : string) : M (list Row) :=
  try_catch
    (database <- getDatabase ;;
     result <- getAllAsync database
                 (SelectLike T_mahasiswa mahasiswa_search_columns "nama")
                 [ like_pattern keyword; like_pattern keyword;
                   like_pattern keyword; like_pattern keyword;
                   like_pattern keyword ] ;;
     ret result)
    (log_and_rethrow "Error searching mahasiswa:").

Definition getRecentMahasiswa (limit : Z) : M (list Row) :=
  try_catch
    (database <- getDatabase ;;
     result <- getAllAsync database (SelectRecent T_mahasiswa) [SInt limit] ;;
     ret result)
    (log_and_rethrow "Error getting recent mahasiswa:").

(** ** Users *)

Definition addUser {rt : Runtime} (user : User.t) : M Z :=
  try_catch
    (database <- getDatabase ;;
     result <- runAsync database
                 (InsertInto T_users ["name"; "email"; "password"])
                 [ SText (User.name user);
                   SText (toLowerCase (User.email user));
                   SText (User.password user) ] ;;
     ret (lastInsertRowId result))
    (log_and_rethrow "Error adding user:").

Definition getUserByEmail {rt : Runtime} (email : string) : M (option Row) :=
  try_catch
    (database <- getDatabase ;;
     result <- getFirstAsync database (SelectByColumn T_users "email")
                 [SText (toLowerCase email)] ;;
     ret result)
    (log_and_rethrow "Error getting user by email:").

Definition authenticateUser {rt : Runtime} (email password : string)
  : M (option Row) :=
  try_catch
    (user <- getUserByEmail email ;;
     match user with
     | None => ret None
     | Some u =>
         ret (if strict_eq (field "password" u) password then Some u else None)
     end)
    (log_and_rethrow "Error authenticating user:").

Definition deleteUser (id : Z) : M unit :=
  try_catch
    (database <- getDatabase ;;
     runAsync database (DeleteById T_users) [SInt id] ;;
     ret tt)
    (log_and_rethrow "Error deleting user:").

(** ** Prodi *)

Definition prodi_columns : list string :=
  ["kode_prodi"; "nama_prodi"; "fakultas"; "akreditasi"; "deskripsi"].

Definition prodi_params (prodi : Prodi.t) : list SqlValue :=
  [ SText (Prodi.kode_prodi prodi);
    SText (Prodi.nama_prodi prodi);
    SText (Prodi.fakultas prodi);
    or_null (Prodi.akreditasi prodi);
    or_null (Prodi.deskripsi prodi) ].

(** [error?.message || error?.toString() || 'Unknown error'] *)
Definition describe (error : JsError) : string :=
  or_else (message_of error) (or_else (Some (to_String error)) "Unknown error").

(** The [catch] block of [addProdi] and [addFakultas]. *)
Definition format_and_throw {A : Type} (label what : string) (error : JsError)
  : M A :=
  console_error label error ;;
  let errorMsg := describe error in
  throw (ErrorWith ("Failed to add " +:+ what +:+ ": " +:+ errorMsg) error).

Definition addProdi (prodi : Prodi.t) : M Z :=
  try_catch
    (console_log "Getting database in addProdi..." ;;
     database <- getDatabase ;;
     console_log "Database object retrieved, inserting prodi data..." ;;
     console_log "Prodi data:" ;;
     result <- runAsync database (InsertInto T_prodi prodi_columns)
                 (prodi_params prodi) ;;
     console_log "Prodi added successfully with ID:" ;;
     ret (lastInsertRowId result))
    (format_and_throw "Error adding prodi:" "prodi").

Definition getAllProdi : M (list Row) :=
  try_catch
    (database <- getDatabase ;;
     result <- getAllAsync database (SelectAll T_prodi "nama_prodi") [] ;;
     ret result)
    (log_and_rethrow "Error getting all prodi:").

Definition getProdiById (id : Z) : M (option Row) :=
  try_catch
    (database <- getDatabase ;;
     result <- getFirstAsync database (SelectById T_prodi) [SInt id] ;;
     ret result)
    (log_and_rethrow "Error getting prodi by id:").

Definition updateProdi (id : Z) (prodi : Prodi.t) : M unit :=
  try_catch
    (database <- getDatabase ;;
     runAsync database (UpdateById T_prodi prodi_columns)
       (prodi_params prodi ++ [SInt id]) ;;
     ret tt)
    (log_and_rethrow "Error updating prodi:").

Definition deleteProdi (id : Z) : M unit :=
  try_catch
    (database <- getDatabase ;;
     runAsync database (DeleteById T_prodi) [SInt id] ;;
     ret tt)
    (log_and_rethrow "Error deleting prodi:").

Definition prodi_search_columns : list string :=
  ["nama_prodi"; "kode_prodi"; "fakultas"; "akreditasi"].

Definition searchProdi (keyword : string) : M (list Row) :=
  try_catch
    (database <- getDatabase ;;
     result <- getAllAsync database
                 (SelectLike T_prodi prodi_search_columns "nama_prodi")
                 [ like_pattern keyword; like_pattern keyword;
                   like_pattern keyword; like_pattern keyword ] ;;
     ret result)
    (log_and_rethrow "Error searching prodi:").

(** ** Fakultas *)

Definition fakultas_columns : list string :=
  ["kode_fakultas"; "nama_fakultas"; "deskripsi"].

Definition fakultas_params (fakultas : Fakultas.t) : list SqlValue :=
  [ SText (Fakultas.kode_fakultas fakultas);
    SText (Fakultas.nama_fakultas fakultas);
    or_null (Fakultas.deskripsi fakultas) ].

Definition addFakultas (fakultas : Fakultas.t) : M Z :=
  try_catch
    (console_log "Getting database in addFakultas..." ;;
     database <- getDatabase ;;
     console_log "Database object retrieved, inserting fakultas data..." ;;
     console_log "Fakultas data:" ;;
     result <- runAsync database (InsertInto T_fakultas fakultas_columns)
                 (fakultas_params fakultas) ;;
     console_log "Fakultas added successfully with ID:" ;;
     ret (lastInsertRowId result))
    (format_and_throw "Error adding fakultas:" "fakultas").

Definition getAllFakultas : M (list Row) :=
  try_catch
    (database <- getDatabase ;;
     result <- getAllAsync database (SelectAll T_fakultas "nama_fakultas") [] ;;
     ret result)
    (log_and_rethrow "Error getting all fakultas:").

Definition getFakultasById (id : Z) : M (option Row) :=
  try_catch
    (database <- getDatabase ;;
     result <- getFirstAsync database (SelectById T_fakultas) [SInt id] ;;
     ret result)
    (log_and_rethrow "Error getting fakultas by id:").

Definition updateFakultas (id : Z) (fakultas : Fakultas.t) : M unit :=
  try_catch
    (database <- getDatabase ;;
     runAsync database (UpdateById T_fakultas fakultas_columns)
       (fakultas_params fakultas ++ [SInt id]) ;;
     ret tt)
    (log_and_rethrow "Error updating fakultas:").

Definition deleteFakultas (id : Z) : M unit :=
  try_catch
    (database <- getDatabase ;;
     runAsync database (DeleteById T_fakultas) [SInt id] ;;
     ret tt)
    (log_and_rethrow "Error deleting fakultas:").

Definition fakultas_search_columns : list string :=
  ["nama_fakultas"; "kode_fakultas"; "deskripsi"].

Definition searchFakultas (keyword : string) : M (list Row) :=
  try_catch
    (database <- getDatabase ;;
     result <- getAllAsync database
                 (SelectLike T_fakultas fakultas_search_columns "nama_fakultas")
                 [ like_pattern keyword; like_pattern keyword;
                   like_pattern keyword ] ;;
     ret result)
    (log_and_rethrow "Error searching fakultas:").

(* ================================================================== *)
(** * 6. Interleaved callers of the guard *)
(* ================================================================== *)

(** Every [await] is a point where other callers may run. An attempt is one
    activation of the async function stored in [initPromise]; its promise is
    named by its position in the list of attempts. *)
Abbreviation PromiseId := nat.

(** Where an attempt is suspended, or how its promise settled. *)
Inductive InitPc : Type :=
| AwaitOpen
| AwaitExec (database : Handle) (stmt : InitStmt)
| AwaitClose (database : Handle) (error : JsError)
| Fulfilled (database : Handle)
| Rejected (error : JsError).

(** A caller has not called yet, is suspended on a promise, or has returned
    [r]; [awaited] remembers the promise the result came from, if any. *)
Inductive Caller : Type :=
| NotCalled
| Waiting (p : PromiseId)
| Returned (awaited : option PromiseId) (r : Res Handle).

Record Machine : Type := mkMachine {
  m_guard : Guard PromiseId;
  m_attempts : list InitPc;
  m_callers : list Caller;
  m_calls : list DriverCall
}.

Definition init_failure (error : JsError) : JsError :=
  ErrorObj ("Database initialization failed: "
            +:+ or_else (message_of error) (to_String error)).

(** Entering the [catch] block: the guard is reset, then the handle, if
    any, is closed. *)
Definition enter_catch {P : Type} (database : option Handle) (error : JsError)
  : InitPc * Guard P * list DriverCall :=
  match database with
  | Some h => (AwaitClose h error, mkGuard None None, [CloseAsync h])
  | None => (Rejected (init_failure error), mkGuard None None, [])
  end.

Definition next_stmt (s : InitStmt) : option InitStmt :=
  match s with
  | CreateMahasiswa => Some CreateUsers
  | CreateUsers => Some AlterAddFakultas
  | AlterAddFakultas => Some CreateProdi
  | CreateProdi => Some CreateFakultas
  | CreateFakultas => None
  end.

Definition after_stmt {P : Type} (h : Handle) (s : InitStmt) (g : Guard P)
  : InitPc * Guard P * list DriverCall :=
  match next_stmt s with
  | Some s' => (AwaitExec h s', g, [ExecAsync h s'])
  | None => (Fulfilled h, mkGuard (Some h) (initPromise g), [])
  end.

(** The attempt runs from the await that just settled with [o] to its next
    await (or to its end): the new position, the guard it leaves and the
    driver call it issues. *)
Definition resume {P : Type} (pc : InitPc) (o : Outcome) (g : Guard P)
  : InitPc * Guard P * list DriverCall :=
  match pc with
  | AwaitOpen =>
      match o with
      | Reject e => enter_catch None e
      | Resolve None =>
          enter_catch None
            (ErrorObj "Failed to open database: database object is null")
      | Resolve (Some h) =>
          (AwaitExec h CreateMahasiswa, g, [ExecAsync h CreateMahasiswa])
      end
  | AwaitExec h s =>
      match o with
      | Resolve _ => after_stmt h s g
      | Reject e =>
          match s with
          | AlterAddFakultas => after_stmt h s g
          | _ => enter_catch (Some h) e
          end
      end
  | AwaitClose _ error => (Rejected (init_failure error), g, [])
  | Fulfilled _ | Rejected _ => (pc, g, [])
  end.

Definition pending (pc : InitPc) : bool :=
  match pc with
  | AwaitOpen | AwaitExec _ _ | AwaitClose _ _ => true
  | Fulfilled _ | Rejected _ => false
  end.








(** A fresh process with [n] callers that have not called yet. *)
Definition fresh (n : nat) : Machine :=
  mkMachine (mkGuard None None) [] (replicate n NotCalled) [].




(** The settled state of a promise that gives [r] to whoever awaits it. *)
Definition settled_as (r : Res Handle) : InitPc :=
  match r with
  | Ok h => Fulfilled h
  | Throw e => Rejected e
  end.


(** ** Two concrete schedules *)






(** ** The answers of the environment to one attempt *)

(** The answer to the [k]-th driver call from now. *)
Fixpoint answer_at (k : nat) (os : list Outcome) : Outcome :=
  match k with
  | O => hd default_outcome os
  | S k' => answer_at k' (tl os)
  end.

Definition rejects (o : Outcome) : option JsError :=
  match o with
  | Reject e => Some e
  | Resolve _ => None
  end.

(** The step at which an attempt started under the answers [os] fails, the
    ALTER TABLE step (call 3) excepted: the handle open at that point and
    the error raised. [None] when no such step fails. *)
Definition failing_step (os : list Outcome) : option (option Handle * JsError) :=
  match answer_at 0 os with
  | Reject e => Some (None, e)
  | Resolve None =>
      Some (None, ErrorObj "Failed to open database: database object is null")
  | Resolve (Some h) =>
      match rejects (answer_at 1 os) with
      | Some e => Some (Some h, e)
      | None =>
          match rejects (answer_at 2 os) with
          | Some e => Some (Some h, e)
          | None =>
              match rejects (answer_at 4 os) with
              | Some e => Some (Some h, e)
              | None =>
                  match rejects (answer_at 5 os) with
                  | Some e => Some (Some h, e)
                  | None => None
                  end
              end
          end
      end
  end.

Definition uninitialized {P : Type} : Guard P := mkGuard None None.

(** One attempt followed from await to await with the answers [os], as the
    interleaved machine does it when nothing else runs in between: final
    position, guard, driver calls issued after the opening call, remaining
    answers. *)
Fixpoint run_attempt {P : Type} (fuel : nat) (pc : InitPc) (g : Guard P)
  (os : list Outcome) : InitPc * Guard P * list DriverCall * list Outcome :=
  match fuel with
  | O => (pc, g, [], os)
  | S fuel' =>
      if pending pc then
        let '(pc', g', cs) := resume pc (hd default_outcome os) g in
        let '(pcf, gf, csf, osf) := run_attempt fuel' pc' g' (tl os) in
        (pcf, gf, cs ++ csf, osf)
      else (pc, g, [], os)
  end.

(** ** Concrete worlds *)

Definition empty_table : Table := mkTable [] 0.

Definition empty_store : Store :=
  mkStore empty_table empty_table empty_table empty_table.

(** A process that has just started, the environment answering [os]. *)
Definition boot (os : list Outcome) : World :=
  mkWorld uninitialized empty_store "2024-01-01 00:00:00" os [] [].

(** A process whose database is open on handle [h], with tables [st]. *)
Definition ready_world (h : Handle) (st : Store) (os : list Outcome) : World :=
  mkWorld (mkGuard (Some h) (Some (Ok h))) st "2024-01-01 00:00:00" os [] [].


(** A first start on an installation whose student table already has the
    faculty column: the ALTER TABLE statement is refused. *)
Definition duplicate_column_answers : list Outcome :=
  [ Resolve (Some 7); Resolve None; Resolve None;
    Reject (ErrorObj "duplicate column name: fakultas");
    Resolve None; Resolve None ].

(* ================================================================== *)
(** * 7. The uniform operation set *)
(* ================================================================== *)

(** The three entities share one operation set: create, getAll, getById,
    update, delete, search. The dispatchers below only select the function
    of the entity. *)
Inductive Entity : Type := MahasiswaE | ProdiE | FakultasE.

Inductive Input : Type :=
| OfMahasiswa (mahasiswa : Mahasiswa.t)
| OfProdi (prodi : Prodi.t)
| OfFakultas (fakultas : Fakultas.t).

Definition entity_of (i : Input) : Entity :=
  match i with
  | OfMahasiswa _ => MahasiswaE
  | OfProdi _ => ProdiE
  | OfFakultas _ => FakultasE
  end.

Definition entity_table (e : Entity) : TableName :=
  match e with
  | MahasiswaE => T_mahasiswa
  | ProdiE => T_prodi
  | FakultasE => T_fakultas
  end.

(** The display-name column of the entity. *)
Definition name_column (e : Entity) : string :=
  match e with
  | MahasiswaE => "nama"
  | ProdiE => "nama_prodi"
  | FakultasE => "nama_fakultas"
  end.


Definition optional_columns (e : Entity) : list string :=
  match e with
  | MahasiswaE => ["fakultas"]
  | ProdiE => ["akreditasi"; "deskripsi"]
  | FakultasE => ["deskripsi"]
  end.

Definition create (i : Input) : M Z :=
  match i with
  | OfMahasiswa m => addMahasiswa m
  | OfProdi p => addProdi p
  | OfFakultas f => addFakultas f
  end.

Definition update (id : Z) (i : Input) : M unit :=
  match i with
  | OfMahasiswa m => updateMahasiswa id m
  | OfProdi p => updateProdi id p
  | OfFakultas f => updateFakultas id f
  end.

Definition getAll (e : Entity) : M (list Row) :=
  match e with
  | MahasiswaE => getAllMahasiswa
  | ProdiE => getAllProdi
  | FakultasE => getAllFakultas
  end.

Definition getById (e : Entity) (id : Z) : M (option Row) :=
  match e with
  | MahasiswaE => getMahasiswaById id
  | ProdiE => getProdiById id
  | FakultasE => getFakultasById id
  end.

Definition delete (e : Entity) (id : Z) : M unit :=
  match e with
  | MahasiswaE => deleteMahasiswa id
  | ProdiE => deleteProdi id
  | FakultasE => deleteFakultas id
  end.


(** ** Inputs and what is read back *)

Definition columns (i : Input) : list string :=
  match i with
  | OfMahasiswa _ => mahasiswa_columns
  | OfProdi _ => prodi_columns
  | OfFakultas _ => fakultas_columns
  end.

Definition params (i : Input) : list SqlValue :=
  match i with
  | OfMahasiswa m => mahasiswa_params m
  | OfProdi p => prodi_params p
  | OfFakultas f => fakultas_params f
  end.

(** The columns of a row written from the input [i], as the functions bind
    them. *)
Definition persisted (i : Input) : Row := combine (columns i) (params i).

(** The row read back after [i] was written under the id [id], with the
    creation timestamp [created_at]. *)
Definition stored_row (id : Z) (i : Input) (created_at : SqlValue) : Row :=
  ("id", SInt id) :: persisted i ++ [("created_at", created_at)].

(** The fields of the input taken as they are: a string as that string, a
    nullish optional field as NULL. *)
Definition as_given (x : option string) : SqlValue :=
  match x with
  | Some s => SText s
  | None => SNull
  end.

Definition fields_of_input (i : Input) : Row :=
  match i with
  | OfMahasiswa m =>
      [ ("nim", SText (Mahasiswa.nim m));
        ("nama", SText (Mahasiswa.nama m));
        ("jurusan", SText (Mahasiswa.jurusan m));
        ("fakultas", as_given (Mahasiswa.fakultas m));
        ("semester", SInt (Mahasiswa.semester m));
        ("email", SText (Mahasiswa.email m)) ]
  | OfProdi p =>
      [ ("kode_prodi", SText (Prodi.kode_prodi p));
        ("nama_prodi", SText (Prodi.nama_prodi p));
        ("fakultas", SText (Prodi.fakultas p));
        ("akreditasi", as_given (Prodi.akreditasi p));
        ("deskripsi", as_given (Prodi.deskripsi p)) ]
  | OfFakultas f =>
      [ ("kode_fakultas", SText (Fakultas.kode_fakultas f));
        ("nama_fakultas", SText (Fakultas.nama_fakultas f));
        ("deskripsi", as_given (Fakultas.deskripsi f)) ]
  end.

(** The optional field of the input behind an optional column. *)
Definition supplied (i : Input) (c : string) : option string :=
  match i with
  | OfMahasiswa m =>
      if (c =? "fakultas")%string then Mahasiswa.fakultas m else None
  | OfProdi p =>
      if (c =? "akreditasi")%string then Prodi.akreditasi p
      else if (c =? "deskripsi")%string then Prodi.deskripsi p
      else None
  | OfFakultas f =>
      if (c =? "deskripsi")%string then Fakultas.deskripsi f else None
  end.

(** No optional field of a program or faculty is the empty string. *)
Definition no_empty_optional (i : Input) : Prop :=
  match i with
  | OfMahasiswa _ => True
  | OfProdi p =>
      Prodi.akreditasi p <> Some "" /\ Prodi.deskripsi p <> Some ""
  | OfFakultas f => Fakultas.deskripsi f <> Some ""
  end.

(** ** Well-formed tables *)

(** A row of table [t] has exactly the columns of the schema and respects
    its NOT NULL constraints. *)
Definition row_ok (t : TableName) (r : Row) : Prop :=
  map fst r = map col_name (schema t)
  /\ notnull_violation (schema t) r = None.

Definition store_ok (st : Store) : Prop :=
  forall t, Forall (row_ok t) (rows (get_table t st)).

(** ** Keywords *)









(** ** A sample database *)

Definition budi : Mahasiswa.t :=
  Mahasiswa.make "2201" "Budi" "Informatika" (Some "Teknik") 3 "budi@kampus.id".

Definition ani : Mahasiswa.t :=
  Mahasiswa.make "2202" "Ani" "Sistem Informasi" None 1 "ani@kampus.id".

Definition citra : Mahasiswa.t :=
  Mahasiswa.make "2203" "Citra" "Informatika" (Some "") 5 "citra@kampus.id".

Definition informatika : Prodi.t :=
  Prodi.make "TI" "Informatika" "Teknik" (Some "A") None.

Definition akuntansi : Prodi.t :=
  Prodi.make "AK" "Akuntansi" "Ekonomi" (Some "") (Some "").

Definition teknik : Fakultas.t := Fakultas.make "FT" "Teknik" None.

Definition ekonomi : Fakultas.t :=
  Fakultas.make "FE" "Ekonomi" (Some "Fakultas Ekonomi").


Definition sample_time : SqlValue := SText "2024-01-01 00:00:00".

Definition sample_store : Store :=
  mkStore
    (mkTable [ stored_row 1 (OfMahasiswa budi) sample_time;
               stored_row 2 (OfMahasiswa ani) sample_time ] 2)
    (mkTable [ [ ("id", SInt 1); ("name", SText "A");
                 ("email", SText "a@x.com"); ("password", SText "p");
                 ("created_at", sample_time) ] ] 1)
    (mkTable [ stored_row 1 (OfProdi informatika) sample_time;
               stored_row 2 (OfProdi akuntansi) sample_time ] 2)
    (mkTable [ stored_row 1 (OfFakultas teknik) sample_time;
               stored_row 2 (OfFakultas ekonomi) sample_time ] 2).

Definition sample_world : World := ready_world 7 sample_store [].


(** The row [r] is what [getById] reads after [create] or [update] wrote
    the input [i] under [id] in the world [w]. *)
Definition written_then_read (i : Input) (id : Z) (w : World) (r : Row) : Prop :=
  (exists w1 w2,
      create i w = (Ok id, w1)
      /\ getById (entity_of i) id w1 = (Ok (Some r), w2))
  \/ (exists r0 u w1 w2,
        store_ok (store w)
        /\ head (List.filter (has_id (SInt id))
                   (rows (get_table (entity_table (entity_of i)) (store w))))
           = Some r0
        /\ update id i w = (Ok u, w1)
        /\ getById (entity_of i) id w1 = (Ok (Some r), w2)).

(* ================================================================== *)
(** * 8. Every exported call *)
(* ================================================================== *)

Inductive Call : Type :=
| AddMahasiswa (mahasiswa : Mahasiswa.t)
| GetAllMahasiswa
| GetMahasiswaById (id : Z)
| UpdateMahasiswa (id : Z) (mahasiswa : Mahasiswa.t)
| DeleteMahasiswa (id : Z)
| SearchMahasiswa (keyword : string)
| GetRecentMahasiswa (limit : Z)
| AddUser (user : User.t)
| GetUserByEmail (email : string)
| AuthenticateUser (email password : string)
| DeleteUser (id : Z)
| AddProdi (prodi : Prodi.t)
| GetAllProdi
| GetProdiById (id : Z)
| UpdateProdi (id : Z) (prodi : Prodi.t)
| DeleteProdi (id : Z)
| SearchProdi (keyword : string)
| AddFakultas (fakultas : Fakultas.t)
| GetAllFakultas
| GetFakultasById (id : Z)
| UpdateFakultas (id : Z) (fakultas : Fakultas.t)
| DeleteFakultas (id : Z)
| SearchFakultas (keyword : string).

Inductive Reply : Type :=
| RId (id : Z)
| RRows (l : list Row)
| RRow (r : option Row)
| RVoid.

Definition reply {A : Type} (f : A -> Reply) (m : M A) : M Reply :=
  x <- m ;; ret (f x).

Definition perform {rt : Runtime} (c : Call) : M Reply :=
  match c with
  | AddMahasiswa m => reply RId (addMahasiswa m)
  | GetAllMahasiswa => reply RRows getAllMahasiswa
  | GetMahasiswaById id => reply RRow (getMahasiswaById id)
  | UpdateMahasiswa id m => reply (fun _ => RVoid) (updateMahasiswa id m)
  | DeleteMahasiswa id => reply (fun _ => RVoid) (deleteMahasiswa id)
  | SearchMahasiswa k => reply RRows (searchMahasiswa k)
  | GetRecentMahasiswa n => reply RRows (getRecentMahasiswa n)
  | AddUser u => reply RId (addUser u)
  | GetUserByEmail e => reply RRow (getUserByEmail e)
  | AuthenticateUser e p => reply RRow (authenticateUser e p)
  | DeleteUser id => reply (fun _ => RVoid) (deleteUser id)
  | AddProdi p => reply RId (addProdi p)
  | GetAllProdi => reply RRows getAllProdi
  | GetProdiById id => reply RRow (getProdiById id)
  | UpdateProdi id p => reply (fun _ => RVoid) (updateProdi id p)
  | DeleteProdi id => reply (fun _ => RVoid) (deleteProdi id)
  | SearchProdi k => reply RRows (searchProdi k)
  | AddFakultas f => reply RId (addFakultas f)
  | GetAllFakultas => reply RRows getAllFakultas
  | GetFakultasById id => reply RRow (getFakultasById id)
  | UpdateFakultas id f => reply (fun _ => RVoid) (updateFakultas id f)
  | DeleteFakultas id => reply (fun _ => RVoid) (deleteFakultas id)
  | SearchFakultas k => reply RRows (searchFakultas k)
  end.

(** The one statement a call sends on the handle [h]. *)
Definition statement {rt : Runtime} (c : Call) (h : Handle) : DriverCall :=
  match c with
  | AddMahasiswa m =>
      RunAsync h (InsertInto T_mahasiswa mahasiswa_columns) (mahasiswa_params m)
  | GetAllMahasiswa => GetAllAsync h (SelectAll T_mahasiswa "nama") []
  | GetMahasiswaById id => GetFirstAsync h (SelectById T_mahasiswa) [SInt id]
  | UpdateMahasiswa id m =>
      RunAsync h (UpdateById T_mahasiswa mahasiswa_columns)
        (mahasiswa_params m ++ [SInt id])
  | DeleteMahasiswa id => RunAsync h (DeleteById T_mahasiswa) [SInt id]
  | SearchMahasiswa k =>
      GetAllAsync h (SelectLike T_mahasiswa mahasiswa_search_columns "nama")
        (replicate 5 (like_pattern k))
  | GetRecentMahasiswa n => GetAllAsync h (SelectRecent T_mahasiswa) [SInt n]
  | AddUser u =>
      RunAsync h (InsertInto T_users ["name"; "email"; "password"])
        [ SText (User.name u); SText (toLowerCase (User.email u));
          SText (User.password u) ]
  | GetUserByEmail e | AuthenticateUser e _ =>
      GetFirstAsync h (SelectByColumn T_users "email") [SText (toLowerCase e)]
  | DeleteUser id => RunAsync h (DeleteById T_users) [SInt id]
  | AddProdi p => RunAsync h (InsertInto T_prodi prodi_columns) (prodi_params p)
  | GetAllProdi => GetAllAsync h (SelectAll T_prodi "nama_prodi") []
  | GetProdiById id => GetFirstAsync h (SelectById T_prodi) [SInt id]
  | UpdateProdi id p =>
      RunAsync h (UpdateById T_prodi prodi_columns) (prodi_params p ++ [SInt id])
  | DeleteProdi id => RunAsync h (DeleteById T_prodi) [SInt id]
  | SearchProdi k =>
      GetAllAsync h (SelectLike T_prodi prodi_search_columns "nama_prodi")
        (replicate 4 (like_pattern k))
  | AddFakultas f =>
      RunAsync h (InsertInto T_fakultas fakultas_columns) (fakultas_params f)
  | GetAllFakultas => GetAllAsync h (SelectAll T_fakultas "nama_fakultas") []
  | GetFakultasById id => GetFirstAsync h (SelectById T_fakultas) [SInt id]
  | UpdateFakultas id f =>
      RunAsync h (UpdateById T_fakultas fakultas_columns)
        (fakultas_params f ++ [SInt id])
  | DeleteFakultas id => RunAsync h (DeleteById T_fakultas) [SInt id]
  | SearchFakultas k =>
      GetAllAsync h
        (SelectLike T_fakultas fakultas_search_columns "nama_fakultas")
        (replicate 3 (like_pattern k))
  end.

(** What the caller of [c] catches when the error [e] was raised under it:
    [e] itself, except for the two functions that format a new error. *)
Definition surfaced (c : Call) (e : JsError) : JsError :=
  match c with
  | AddProdi _ => ErrorWith ("Failed to add prodi: " +:+ describe e) e
  | AddFakultas _ => ErrorWith ("Failed to add fakultas: " +:+ describe e) e
  | _ => e
  end.

(** The error a statement raises on its own: a constraint it breaks. *)
Definition statement_error {rt : Runtime} (c : Call) (h : Handle) (w : World)
  : option JsError :=
  match statement c h with
  | RunAsync _ q ps =>
      match sql_run q ps (now w) (store w) with
      | Throw e => Some e
      | Ok _ => None
      end
  | _ => None
  end.

(** ** Valid inputs *)

(** The column holding the external key of the entity, and the key an
    input carries. *)
Definition key_column (e : Entity) : string :=
  match e with
  | MahasiswaE => "nim"
  | ProdiE => "kode_prodi"
  | FakultasE => "kode_fakultas"
  end.

Definition key_of (i : Input) : string :=
  match i with
  | OfMahasiswa m => Mahasiswa.nim m
  | OfProdi p => Prodi.kode_prodi p
  | OfFakultas f => Fakultas.kode_fakultas f
  end.

(** No stored row of the entity carries the key of the input. *)
Definition key_free (i : Input) (st : Store) : Prop :=
  Forall (fun r => field (key_column (entity_of i)) r <> SText (key_of i))
         (rows (get_table (entity_table (entity_of i)) st)).

(* ================================================================== *)
(** * 9. Histories and integrity of the tables *)
(* ================================================================== *)

(** The world after the calls [cs] were made one after the other, whatever
    each of them returned. *)
Fixpoint perform_all {rt : Runtime} (cs : list Call) (w : World) : World :=
  match cs with
  | [] => w
  | c :: cs' => perform_all cs' (snd (perform c w))
  end.

(** Every row has an integer id below the AUTOINCREMENT sequence, and no
    two rows share an id. *)
Definition ids_ok (tb : Table) : Prop :=
  Forall (fun r => exists z, field "id" r = SInt z /\ (z <= seq tb)%Z) (rows tb)
  /\ NoDup (map (field "id") (rows tb)).

(** No value occurs twice in a UNIQUE column. *)
Definition unique_ok (t : TableName) (tb : Table) : Prop :=
  forall c v, In c (schema t) -> col_unique c = true ->
              occurrences (col_name c) v (rows tb) <= 1.

Definition store_inv (st : Store) : Prop :=
  store_ok st
  /\ forall t, ids_ok (get_table t st) /\ unique_ok t (get_table t st).

(** The table a call writes to, if any. *)
Definition written_table (c : Call) : option TableName :=
  match c with
  | AddMahasiswa _ | UpdateMahasiswa _ _ | DeleteMahasiswa _ => Some T_mahasiswa
  | AddUser _ | DeleteUser _ => Some T_users
  | AddProdi _ | UpdateProdi _ _ | DeleteProdi _ => Some T_prodi
  | AddFakultas _ | UpdateFakultas _ _ | DeleteFakultas _ => Some T_fakultas
  | _ => None
  end.

(** A history: two new students, an update, two deletions (one of an id
    that is not there) and a new program. *)
Definition sample_history : list Call :=
  [ AddMahasiswa budi; AddMahasiswa citra; UpdateMahasiswa 2 citra;
    DeleteMahasiswa 1; DeleteMahasiswa 9; AddProdi akuntansi ].

(** No row of the table carries the id [id]. *)
Definition id_absent (id : Z) (t : TableName) (st : Store) : Prop :=
  Forall (fun r => field "id" r <> SInt id) (rows (get_table t st)).

(** ** Creation timestamps *)

Definition digit (c : ascii) : option nat :=
  let n := nat_of_ascii c in
  if (48 <=? n)%nat && (n <=? 57)%nat then Some (n - 48) else None.

Definition two_digits (a b : ascii) : option nat :=
  match digit a, digit b with
  | Some x, Some y => Some (10 * x + y)
  | _, _ => None
  end.

Definition leap_year (y : nat) : bool :=
  ((y mod 4 =? 0)%nat && negb (y mod 100 =? 0)%nat) || (y mod 400 =? 0)%nat.

Definition days_in_month (y m : nat) : nat :=
  match m with
  | 1 | 3 | 5 | 7 | 8 | 10 | 12 => 31
  | 4 | 6 | 9 | 11 => 30
  | 2 => if leap_year y then 29 else 28
  | _ => 0
  end.

(** [s] is a date and time in the form CURRENT_TIMESTAMP writes,
    "YYYY-MM-DD HH:MM:SS", and names a day and a time that exist. On such
    a text [datetime()] is the identity, so that ordering by
    [datetime(created_at)] is ordering by the stored text. *)
Definition is_timestamp (s : string) : bool :=
  let l := list_ascii_of_string s in
  let at_ (i : nat) : ascii := nth i l "000"%char in
  (length l =? 19)%nat
  && Ascii.eqb (at_ 4) "-" && Ascii.eqb (at_ 7) "-"
  && Ascii.eqb (at_ 10) " "
  && Ascii.eqb (at_ 13) ":" && Ascii.eqb (at_ 16) ":"
  && match two_digits (at_ 0) (at_ 1), two_digits (at_ 2) (at_ 3),
           two_digits (at_ 5) (at_ 6), two_digits (at_ 8) (at_ 9),
           two_digits (at_ 11) (at_ 12), two_digits (at_ 14) (at_ 15),
           two_digits (at_ 17) (at_ 18) with
     | Some century, Some year, Some month, Some day,
       Some hour, Some minute, Some second =>
         (1 <=? month)%nat && (month <=? 12)%nat
         && (1 <=? day)%nat
         && (day <=? days_in_month (100 * century + year) month)%nat
         && (hour <=? 23)%nat && (minute <=? 59)%nat && (second <=? 59)%nat
     | _, _, _, _, _, _, _ => false
     end.

(** Every row of the table was stamped by CURRENT_TIMESTAMP. *)
Definition timestamps_ok (tb : Table) : Prop :=
  Forall (fun r => exists s, field "created_at" r = SText s
                             /\ is_timestamp s = true) (rows tb).

(** Three students entered on different days, the latest one second. *)
Definition dated_world : World :=
  ready_world 7
    (set_table T_mahasiswa
       (mkTable
          [ stored_row 1 (OfMahasiswa budi) (SText "2024-01-05 08:00:00");
            stored_row 2 (OfMahasiswa ani) (SText "2024-03-01 09:30:00");
            stored_row 3 (OfMahasiswa citra) (SText "2024-02-10 10:15:00") ]
          3)
       sample_store) [].

(** The row [addUser] stores for [user] under [id] at time [ts]. *)
Definition user_row {rt : Runtime} (id : Z) (user : User.t) (ts : string)
  : Row :=
  [ ("id", SInt id);
    ("name", SText (User.name user));
    ("email", SText (toLowerCase (User.email user)));
    ("password", SText (User.password user));
    ("created_at", SText ts) ].

Definition sample_user : User.t := User.make "Dewi" "Dewi@Kampus.ID" "rahasia".

(** The driver calls of an initialization that succeeds on handle [h]. *)
Definition schema_calls (h : Handle) : list DriverCall :=
  [ OpenDatabaseAsync "mahasiswa.db";
    ExecAsync h CreateMahasiswa; ExecAsync h CreateUsers;
    ExecAsync h AlterAddFakultas; ExecAsync h CreateProdi;
    ExecAsync h CreateFakultas ].

(* ================================================================== *)
(** * 10. The authentication provider *)
(* ================================================================== *)

(** [AuthProvider] of [context/auth-context.tsx]: the React state [user]
    and [initializing], the session kept in SecureStore, and the helpers
    [login], [register] and [logout] built on the data-access functions.

    SecureStore is a key-value store whose calls may reject; [secure] is
    what it will answer to the next calls ([None]: the call goes through;
    an exhausted script lets every call through). [JSON.stringify] and
    [JSON.parse] are parameters of the development: nothing below depends
    on what they compute. *)
Module AuthContext.

(** What the state [user] holds when it is not null: a user row, or
    whatever else [JSON.parse] made of the stored text, kept as its JSON
    text. *)
Inductive UserValue : Type :=
| UserRow (r : Row)
| OtherValue (json : string).

Record App : Type := mkApp {
  world : World;
  user : option UserValue;
  initializing : bool;
  items : list (string * string);
  secure : list (option JsError)
}.

Definition UI (A : Type) : Type := App -> Res A * App.

Definition ui_ret {A : Type} (a : A) : UI A := fun s => (Ok a, s).

Definition ui_bind {A B : Type} (m : UI A) (k : A -> UI B) : UI B :=
  fun s =>
    match m s with
    | (Ok a, s') => k a s'
    | (Throw e, s') => (Throw e, s')
    end.

(** [try { m } catch (error) { handler }] *)
Definition ui_try {A : Type} (m : UI A) (handler : JsError -> UI A) : UI A :=
  fun s =>
    match m s with
    | (Ok a, s') => (Ok a, s')
    | (Throw e, s') => handler e s'
    end.

(** [try { m } finally { f }], for an [f] that completes normally *)
Definition ui_finally {A : Type} (m : UI A) (f : App -> App) : UI A :=
  fun s => let (r, s') := m s in (r, f s').

(** A call into the database module. *)
Definition lift {A : Type} (m : M A) : UI A :=
  fun s =>
    let (r, w) := m (world s) in
    (r, mkApp w (user s) (initializing s) (items s) (secure s)).

Declare Scope ui_scope.
Notation "x <- m ;; k" := (ui_bind m (fun x => k))
  (at level 100, m at next level, right associativity) : ui_scope.
Notation "m ;; k" := (ui_bind m (fun _ => k))
  (at level 100, right associativity) : ui_scope.
Local Open Scope ui_scope.

Definition setUser (u : option UserValue) : UI unit :=
  fun s => (Ok tt, mkApp (world s) u (initializing s) (items s) (secure s)).

Definition setInitializing (b : bool) (s : App) : App :=
  mkApp (world s) (user s) b (items s) (secure s).

(** ** SecureStore *)

Definition SESSION_KEY : string := "belajar_db_session_user".

Definition get_item (key : string) (l : list (string * string))
  : option string :=
  option_map snd (List.find (fun kv => (fst kv =? key)%string) l).

Definition remove_item (key : string) (l : list (string * string))
  : list (string * string) :=
  List.filter (fun kv => negb (fst kv =? key)%string) l.

(** A SecureStore call: rejected or let through as the environment
    decides; [effect] is what it does to the items when let through. *)
Definition secure_call {A : Type}
  (effect : list (string * string) -> A * list (string * string)) : UI A :=
  fun s =>
    match hd None (secure s) with
    | Some e =>
        (Throw e,
         mkApp (world s) (user s) (initializing s) (items s) (tl (secure s)))
    | None =>
        let (a, l) := effect (items s) in
        (Ok a, mkApp (world s) (user s) (initializing s) l (tl (secure s)))
    end.

Definition getItemAsync (key : string) : UI (option string) :=
  secure_call (fun l => (get_item key l, l)).

Definition setItemAsync (key value : string) : UI unit :=
  secure_call (fun l => (tt, (key, value) :: remove_item key l)).

Definition deleteItemAsync (key : string) : UI unit :=
  secure_call (fun l => (tt, remove_item key l)).

(** ** The provider *)

(** [{ success: boolean; message?: string }] *)
Record AuthResult : Type := mkAuthResult {
  success : bool;
  message : option string
}.

Section Json.

Context {rt : Runtime}.
Variable stringify : Row -> string.
Variable parse : string -> Res (option UserValue).

Definition loadSession : UI unit :=
  ui_finally
    (ui_try
       (lift initDatabase ;;
        storedUser <- getItemAsync SESSION_KEY ;;
        match storedUser with
        | Some text =>
            if (text =? "")%string then ui_ret tt
            else (parsed <- (fun s => (parse text, s)) ;; setUser parsed)
        | None => ui_ret tt
        end)
       (fun error => lift (console_error "Error loading session user:" error)))
    (setInitializing false).

Definition persistUser (sessionUser : option Row) : UI unit :=
  match sessionUser with
  | Some u => setItemAsync SESSION_KEY (stringify u)
  | None => deleteItemAsync SESSION_KEY
  end.

Definition login (email password : string) : UI AuthResult :=
  ui_try
    (authenticated <- lift (authenticateUser email password) ;;
     match authenticated with
     | None => ui_ret (mkAuthResult false (Some "Email atau password salah"))
     | Some u =>
         setUser (Some (UserRow u)) ;;
         persistUser (Some u) ;;
         ui_ret (mkAuthResult true None)
     end)
    (fun error =>
       lift (console_error "Error during login:" error) ;;
       ui_ret (mkAuthResult false (Some "Terjadi kesalahan saat login"))).

Definition register (name email password : string) : UI AuthResult :=
  ui_try
    (existing <- lift (getUserByEmail email) ;;
     match existing with
     | Some _ =>
         ui_ret (mkAuthResult false
                   (Some "Email sudah terdaftar, gunakan email lain"))
     | None =>
         lift (addUser (User.make name email password)) ;;
         ui_ret (mkAuthResult true None)
     end)
    (fun error =>
       lift (console_error "Error during register:" error) ;;
       ui_ret (mkAuthResult false (Some "Terjadi kesalahan saat registrasi"))).

Definition logout : UI unit :=
  ui_try
    (setUser None ;;
     persistUser None)
    (fun error => lift (console_error "Error during logout:" error)).

End Json.

(** The provider on the sample database, nobody logged in, session
    restore still running. *)
Definition sample_app : App := mkApp sample_world None true [] [].

End AuthContext.

(** A [JSON.stringify] for the examples: the JSON text of a row whose
    texts hold no control character. *)
Definition double_quote : string := String (ascii_of_nat 34) EmptyString.

Fixpoint json_escape (s : string) : string :=
  match s with
  | EmptyString => EmptyString
  | String c s' =>
      if (nat_of_ascii c =? 34)%nat || (nat_of_ascii c =? 92)%nat
      then String (ascii_of_nat 92) (String c (json_escape s'))
      else String c (json_escape s')
  end.

Definition json_of_value (v : SqlValue) : string :=
  match v with
  | SNull => "null"
  | SInt z => NilZero.string_of_int (Z.to_int z)
  | SText s => double_quote +:+ json_escape s +:+ double_quote
  end.

Fixpoint json_members (r : Row) : string :=
  match r with
  | [] => ""
  | [(k, v)] =>
      double_quote +:+ json_escape k +:+ double_quote +:+ ":"
      +:+ json_of_value v
  | (k, v) :: r' =>
      double_quote +:+ json_escape k +:+ double_quote +:+ ":"
      +:+ json_of_value v +:+ "," +:+ json_members r'
  end.

Definition sample_stringify (r : Row) : string :=
  "{" +:+ json_members r +:+ "}".

(** The user [authenticateUser] returns for these credentials on the
    tables [st]. *)
Definition matching_user {rt : Runtime} (email password : string)
  (st : Store) : option Row :=
  match List.find
          (fun u => sql_eqb (field "email" u) (SText (toLowerCase email)))
          (rows (st_users st)) with
  | Some u => if strict_eq (field "password" u) password then Some u else None
  | None => None
  end.

(** A [JSON.parse] for the examples: it reads the text of the one user of
    the sample database and takes any other text for malformed. *)
Definition sample_parse (text : string)
  : Res (option AuthContext.UserValue) :=
  let u := [ ("id", SInt 1); ("name", SText "A");
             ("email", SText "a@x.com"); ("password", SText "p");
             ("created_at", sample_time) ] in
  if (text =? sample_stringify u)%string
  then Ok (Some (AuthContext.UserRow u))
  else Throw (ErrorObj "SyntaxError: Unexpected token in JSON").

(* ================================================================== *)
(** * 11. Properties of the guard under interleaving *)
(* ================================================================== *)

Section GuardInterleaving.

Implicit Types (m : Machine) (pc : InitPc) (p : PromiseId) (c : nat).

Lemma settled_as_inj r1 r2 : settled_as r1 = settled_as r2 -> r1 = r2.
Proof. destruct r1, r2; simpl; congruence. Qed.












End GuardInterleaving.






(* ================================================================== *)
(** * 12. Properties of one call of initDatabase run to completion *)
(* ================================================================== *)

Ltac run_monad :=
  cbv [initDatabase getDatabase init_attempt init_statements init_catch
       openDatabaseAsync execAsync closeAsync driver await
       bind ret throw try_catch console_log console_error console_error_detail
       set_guard get_guard
       guard store now script calls console db initPromise].

(** Follows the attempt through the answers of the environment, one driver
    call at a time. *)
Ltac walk_script :=
  repeat (run_monad;
          match goal with
          | |- context [match hd default_outcome ?s with _ => _ end] =>
              destruct (hd default_outcome s) as [?|?]
          | |- context [if ?b then _ else _] => destruct b
          end);
  run_monad.

(** The function [init_attempt] and the attempt of the interleaved machine
    are the same program: run without interruption under the same answers
    they end with the same result, guard variables, driver calls and
    remaining answers, and the tables are not touched. *)
Lemma init_attempt_run_attempt w :
  exists r w' cs,
    init_attempt w = (r, w')
    /\ run_attempt 7 AwaitOpen (guard w) (script w)
       = (settled_as r, guard w', cs, script w')
    /\ calls w' = calls w ++ OpenDatabaseAsync "mahasiswa.db" :: cs
    /\ store w' = store w /\ now w' = now w.
Proof.
  destruct w as [[d p] st nw sc cl co]. simpl.
  run_monad. cbn [run_attempt pending resume].
  destruct (hd default_outcome sc) as [[h|]|e]; cbn [enter_catch pending].
  2,3: do 3 eexists; split; [reflexivity|]; simpl;
       split; [reflexivity|]; split; [|done]; reflexivity.
  walk_script;
    cbn [resume after_stmt next_stmt enter_catch pending run_attempt
         settled_as init_failure hd tl initPromise db app];
    do 3 eexists; (split; [reflexivity|]); cbn [guard script calls store now];
    rewrite <- ?app_assoc; repeat split; reflexivity.
Qed.

Ltac walk_attempt :=
  repeat match goal with
    | |- context [hd default_outcome ?s] =>
        destruct (hd default_outcome s) as [?|?];
        cbn [rejects resume after_stmt next_stmt enter_catch pending
             run_attempt hd tl]
    end.

Lemma run_attempt_failing {P : Type} (g : Guard P) os database cause :
  failing_step os = Some (database, cause) ->
  exists cs os',
    run_attempt 7 AwaitOpen g os
    = (Rejected (init_failure cause), uninitialized, cs, os')
    /\ match database with
       | Some h => exists cs', cs = cs' ++ [CloseAsync h]
       | None => cs = []
       end.
Proof.
  unfold failing_step. cbn [answer_at run_attempt pending resume].
  destruct (hd default_outcome os) as [[h|]|e]; cbn [enter_catch].
  2,3: intros [= <- <-]; do 2 eexists; split; reflexivity.
  walk_attempt;
    intros [= <- <-]; do 2 eexists;
    (split; [reflexivity|]);
    match goal with
    | |- exists cs', ?l = _ =>
        let n := eval cbv in (length l - 1) in
        exists (firstn n l); reflexivity
    end.
Qed.

Lemma run_attempt_succeeding {P : Type} (g : Guard P) os :
  failing_step os = None ->
  exists h cs,
    hd default_outcome os = Resolve (Some h)
    /\ run_attempt 7 AwaitOpen g os
       = (Fulfilled h, mkGuard (Some h) (initPromise g), cs,
          tl (tl (tl (tl (tl (tl os)))))).
Proof.
  unfold failing_step. cbn [answer_at run_attempt pending resume].
  destruct (hd default_outcome os) as [[h|]|e]; try discriminate.
  walk_attempt; intros [=]; do 2 eexists; split; reflexivity.
Qed.

(** The outcome of an attempt does not depend on the guard it starts
    from. *)
Lemma run_attempt_outcome {P Q : Type} fuel : forall pc (g : Guard P)
  (g' : Guard Q) os,
  (run_attempt fuel pc g os).1.1.1 = (run_attempt fuel pc g' os).1.1.1.
Proof.
  induction fuel as [|fuel IH]; intros pc g g' os; cbn [run_attempt]; [done|].
  destruct (pending pc); [|done].
  assert (Hres : (resume pc (hd default_outcome os) g).1.1
                 = (resume pc (hd default_outcome os) g').1.1
                 /\ (resume pc (hd default_outcome os) g).2
                    = (resume pc (hd default_outcome os) g').2).
  { destruct pc as [|h s|h e| |]; cbn [resume]; try done.
    - by destruct (hd default_outcome os) as [[h|]|e].
    - unfold after_stmt.
      by destruct (hd default_outcome os) as [v|e], s. }
  destruct (resume pc _ g) as [[pc1 g1] cs1].
  destruct (resume pc _ g') as [[pc2 g2] cs2].
  cbn in Hres. destruct Hres as [-> ->].
  specialize (IH pc2 g1 g2 (tl os)).
  destruct (run_attempt fuel pc2 g1 (tl os)) as [[[? ?] ?] ?].
  destruct (run_attempt fuel pc2 g2 (tl os)) as [[[? ?] ?] ?].
  exact IH.
Qed.

Lemma init_attempt_outcome w g :
  fst (init_attempt
         (mkWorld g (store w) (now w) (script w) (calls w) (console w)))
  = fst (init_attempt w).
Proof.
  set (w1 := mkWorld g _ _ _ _ _).
  destruct (init_attempt_run_attempt w) as (r & w' & cs & -> & Hr & _).
  destruct (init_attempt_run_attempt w1) as (r1 & w1' & cs1 & -> & Hr1 & _).
  pose proof (run_attempt_outcome 7 AwaitOpen (guard w1) (guard w) (script w))
    as Ho.
  change (script w1) with (script w) in Hr1. rewrite Hr, Hr1 in Ho.
  cbn in Ho |- *. by apply settled_as_inj.
Qed.

(** A call of [initDatabase] that finds both variables null runs the
    attempt with its own promise in [initPromise]. *)
Lemma initDatabase_run_attempt w :
  guard w = uninitialized ->
  exists r w' cs,
    initDatabase w = (r, w')
    /\ run_attempt 7 AwaitOpen (mkGuard None (Some r)) (script w)
       = (settled_as r, guard w', cs, script w')
    /\ calls w' = calls w ++ OpenDatabaseAsync "mahasiswa.db" :: cs
    /\ store w' = store w /\ now w' = now w.
Proof.
  intros Hg. unfold initDatabase. rewrite Hg.
  cbn [initPromise db uninitialized]. unfold bind, set_guard.
  cbn [store now script calls console].
  set (w1 := mkWorld _ _ _ _ _ _).
  destruct (init_attempt_run_attempt w1)
    as (r & w' & cs & Hi & Hr & Hc & Hs & Hn).
  assert (Hsame : fst (init_attempt w) = r).
  { rewrite <- (init_attempt_outcome w (guard w1)).
    change (mkWorld (guard w1) _ _ _ _ _) with w1. by rewrite Hi. }
  exists r, w', cs. rewrite Hi. split; [done|].
  subst w1. cbn [guard script calls store now] in *.
  by rewrite Hsame in Hr.
Qed.


(** A failing step makes the call throw, with the guard reset, the tables
    untouched and the handle, if any, passed to [closeAsync] last. *)
Lemma initDatabase_fails w database cause :
  guard w = uninitialized ->
  failing_step (script w) = Some (database, cause) ->
  exists w',
    initDatabase w = (Throw (init_failure cause), w')
    /\ guard w' = uninitialized
    /\ store w' = store w
    /\ match database with
       | Some h =>
           exists cs, calls w'
                      = calls w ++ OpenDatabaseAsync "mahasiswa.db" :: cs
                        ++ [CloseAsync h]
       | None => calls w' = calls w ++ [OpenDatabaseAsync "mahasiswa.db"]
       end.
Proof.
  intros Hg Hf.
  destruct (initDatabase_run_attempt w Hg)
    as (r & w' & cs & Hi & Hr & Hc & Hs & _).
  destruct (run_attempt_failing (mkGuard None (Some r)) _ _ _ Hf)
    as (cs0 & os' & Hr0 & Hclose).
  rewrite Hr0 in Hr. injection Hr as Hr Hgw Hcs Hos.
  change (Rejected (init_failure cause))
    with (settled_as (Throw (init_failure cause))) in Hr.
  apply settled_as_inj in Hr. subst r cs0.
  exists w'. split; [done|]. split; [done|]. split; [done|].
  destruct database as [h|].
  - destruct Hclose as (cs' & ->). by exists cs'.
  - by subst cs.
Qed.

Lemma getDatabase_fails w database cause :
  guard w = uninitialized ->
  failing_step (script w) = Some (database, cause) ->
  exists w',
    getDatabase w = (Throw (init_failure cause), w')
    /\ guard w' = uninitialized
    /\ store w' = store w.
Proof.
  intros Hg Hf. unfold getDatabase. rewrite Hg. simpl.
  unfold bind at 1. unfold console_log at 1.
  set (w0 := mkWorld _ _ _ _ _ _).
  destruct (initDatabase_fails w0 database cause Hg Hf)
    as (w' & Hi & Hg' & Hs' & _).
  unfold bind. rewrite Hi. by exists w'.
Qed.



Lemma init_attempt_alter (w : World) (h : Handle) (alterError : JsError) :
  answer_at 0 (script w) = Resolve (Some h) ->
  answer_at 3 (script w) = Reject alterError ->
  failing_step (script w) = None ->
  exists w',
    init_attempt w = (Ok h, w')
    /\ guard w' = mkGuard (Some h) (initPromise (guard w))
    /\ calls w'
       = calls w
         ++ [ OpenDatabaseAsync "mahasiswa.db";
              ExecAsync h CreateMahasiswa; ExecAsync h CreateUsers;
              ExecAsync h AlterAddFakultas; ExecAsync h CreateProdi;
              ExecAsync h CreateFakultas ]
    /\ console w'
       = console w
         ++ [ ConsoleLog "Opening database...";
              ConsoleLog "Database opened successfully";
              ConsoleLog "Creating mahasiswa table...";
              ConsoleLog "Mahasiswa table created";
              ConsoleLog "Creating users table...";
              ConsoleLog "Users table created";
              ConsoleLog "Ensuring fakultas column exists in mahasiswa table...";
              (if includes (or_else (message_of alterError) "")
                           "duplicate column name"
                  || includes (or_else (message_of alterError) "")
                              "already exists"
               then ConsoleLog "Fakultas column already exists in mahasiswa table"
               else ConsoleError
                      "Error ensuring fakultas column on mahasiswa table:"
                      alterError);
              ConsoleLog "Creating prodi table...";
              ConsoleLog "Prodi table created";
              ConsoleLog "Creating fakultas table...";
              ConsoleLog "Fakultas table created";
              ConsoleLog "Database initialized successfully" ].
Proof.
  destruct w as [[d ip] st nw sc cl co]. cbn [guard script calls console].
  intros H0 H3 Hf. unfold failing_step in Hf. cbn [answer_at] in *.
  rewrite H0 in Hf. run_monad. rewrite H0.
  repeat (run_monad;
          first
            [ rewrite H3
            | match goal with
              | |- context [match hd default_outcome ?s with _ => _ end] =>
                  let E := fresh "E" in
                  destruct (hd default_outcome s) as [?|?] eqn:E;
                  rewrite ?E in Hf; cbn [rejects] in Hf; try congruence
              | |- context [if ?b then _ else _] => destruct b
              end ]);
    eexists;
    (split; [reflexivity|]); (split; [reflexivity|]);
    cbn [calls console]; rewrite <- !app_assoc; split; reflexivity.
Qed.

(** C8. When the database opens on [h] and the ALTER TABLE statement
    rejects with [alterError] while no other step fails, [initDatabase]
    still returns [h] and leaves the guard ready. The rejection is only
    reported on the console: as an informational line when the message
    contains "duplicate column name" or "already exists", as an error line
    otherwise. *)
Theorem alter_failure_not_fatal (w : World) (h : Handle) (alterError : JsError) :
  guard w = uninitialized ->
  answer_at 0 (script w) = Resolve (Some h) ->
  answer_at 3 (script w) = Reject alterError ->
  failing_step (script w) = None ->
  exists w',
    initDatabase w = (Ok h, w')
    /\ guard w' = mkGuard (Some h) (Some (Ok h))
    /\ calls w'
       = calls w
         ++ [ OpenDatabaseAsync "mahasiswa.db";
              ExecAsync h CreateMahasiswa; ExecAsync h CreateUsers;
              ExecAsync h AlterAddFakultas; ExecAsync h CreateProdi;
              ExecAsync h CreateFakultas ]
    /\ console w'
       = console w
         ++ [ ConsoleLog "Opening database...";
              ConsoleLog "Database opened successfully";
              ConsoleLog "Creating mahasiswa table...";
              ConsoleLog "Mahasiswa table created";
              ConsoleLog "Creating users table...";
              ConsoleLog "Users table created";
              ConsoleLog "Ensuring fakultas column exists in mahasiswa table...";
              (if includes (or_else (message_of alterError) "")
                           "duplicate column name"
                  || includes (or_else (message_of alterError) "")
                              "already exists"
               then ConsoleLog "Fakultas column already exists in mahasiswa table"
               else ConsoleError
                      "Error ensuring fakultas column on mahasiswa table:"
                      alterError);
              ConsoleLog "Creating prodi table...";
              ConsoleLog "Prodi table created";
              ConsoleLog "Creating fakultas table...";
              ConsoleLog "Fakultas table created";
              ConsoleLog "Database initialized successfully" ].
Proof.
  intros Hg H0 H3 Hf. unfold initDatabase. rewrite Hg.
  cbn [initPromise db uninitialized]. unfold bind, set_guard.
  cbn [store now script calls console].
  destruct (init_attempt_alter w h alterError H0 H3 Hf) as (w0 & -> & _).
  cbn [fst]. set (w1 := mkWorld _ _ _ _ _ _).
  destruct (init_attempt_alter w1 h alterError H0 H3 Hf)
    as (w' & -> & Hg' & Hc & Hco).
  by exists w'.
Qed.


(** The theorem at a start where the column already exists. *)
Lemma alter_failure_not_fatal_witness :
  guard (boot duplicate_column_answers) = uninitialized
  /\ answer_at 0 (script (boot duplicate_column_answers)) = Resolve (Some 7)
  /\ answer_at 3 (script (boot duplicate_column_answers))
     = Reject (ErrorObj "duplicate column name: fakultas")
  /\ failing_step (script (boot duplicate_column_answers)) = None
  /\ exists w',
       initDatabase (boot duplicate_column_answers) = (Ok 7, w')
       /\ guard w' = mkGuard (Some 7) (Some (Ok 7))
       /\ In (ConsoleLog "Fakultas column already exists in mahasiswa table")
             (console w').
Proof.
  repeat (split; [reflexivity|]).
  destruct (alter_failure_not_fatal (boot duplicate_column_answers) 7
              (ErrorObj "duplicate column name: fakultas")
              eq_refl eq_refl eq_refl eq_refl)
    as (w' & Hi & Hg & _ & Hc).
  exists w'. split; [exact Hi|]. split; [exact Hg|].
  rewrite Hc. simpl. do 7 right. left. reflexivity.
Defined.

(* ================================================================== *)
(** * 13. Properties of the storage engine *)
(* ================================================================== *)

(** ** Ordering of values *)

Lemma string_leb_trans s1 : forall s2 s3,
  String.leb s1 s2 = true -> String.leb s2 s3 = true -> String.leb s1 s3 = true.
Proof.
  unfold String.leb.
  induction s1 as [|a s1 IH]; intros [|b s2] [|c s3]; simpl; try done.
  destruct (Ascii.compare a b) eqn:Hab; try done;
    destruct (Ascii.compare b c) eqn:Hbc; try done.
  - apply Ascii.compare_eq_iff in Hab, Hbc. subst.
    assert (Ascii.compare c c = Eq) as -> by apply N.compare_refl.
    apply IH.
  - apply Ascii.compare_eq_iff in Hab. subst. by rewrite Hbc.
  - apply Ascii.compare_eq_iff in Hbc. subst. by rewrite Hab.
  - assert (Hac : Ascii.compare a c = Lt).
    { unfold Ascii.compare in *. rewrite N.compare_lt_iff in *. lia. }
    by rewrite Hac.
Qed.

Lemma sql_leb_total a b : sql_leb a b = true \/ sql_leb b a = true.
Proof.
  destruct a as [|x|x], b as [|y|y]; simpl; auto.
  - destruct (Z.leb_spec x y), (Z.leb_spec y x); auto; lia.
  - apply String.leb_total.
Qed.

Lemma sql_leb_trans a b c :
  sql_leb a b = true -> sql_leb b c = true -> sql_leb a c = true.
Proof.
  destruct a as [|x|x], b as [|y|y], c as [|z|z]; simpl; try done.
  - rewrite !Z.leb_le. lia.
  - apply string_leb_trans.
Qed.

(** ** ORDER BY *)

Section OrderBy.

Variable leb : Row -> Row -> bool.
Hypothesis leb_total : forall x y, leb x y = true \/ leb y x = true.
Hypothesis leb_trans :
  forall x y z, leb x y = true -> leb y z = true -> leb x z = true.

Abbreviation le := (fun x y : Row => leb x y = true).

Lemma insert_row_Permutation x l : Permutation (insert_row leb x l) (x :: l).
Proof.
  induction l as [|y l IH]; simpl; [done|].
  destruct (leb x y); [done|].
  rewrite IH. apply perm_swap.
Qed.

Lemma sort_rows_Permutation l : Permutation (sort_rows leb l) l.
Proof.
  induction l as [|x l IH]; simpl; [done|].
  rewrite insert_row_Permutation. by constructor.
Qed.

Lemma insert_row_sorted x l :
  StronglySorted le l -> StronglySorted le (insert_row leb x l).
Proof using leb_total leb_trans.
  induction 1 as [|y l Hs IH Hy]; simpl.
  - repeat constructor.
  - destruct (leb x y) eqn:Hxy.
    + constructor; [by constructor|].
      constructor; [done|].
      eapply Forall_impl; [exact Hy|]. intros z Hz. by eapply leb_trans.
    + constructor; [done|].
      assert (Hyx : leb y x = true).
      { destruct (leb_total x y); congruence. }
      eapply Permutation_Forall.
      { symmetry. apply insert_row_Permutation. }
      by constructor.
Qed.

Lemma sort_rows_sorted l : StronglySorted le (sort_rows leb l).
Proof using leb_total leb_trans.
  induction l as [|x l IH]; simpl; [constructor|].
  by apply insert_row_sorted.
Qed.

(** Filtering commutes with sorting: the sort is stable. *)
Lemma filter_insert_row (P : Row -> bool) x l :
  StronglySorted le l ->
  List.filter P (insert_row leb x l)
  = if P x then insert_row leb x (List.filter P l) else List.filter P l.
Proof using leb_trans.
  induction 1 as [|y l Hs IH Hy]; simpl.
  - by destruct (P x).
  - destruct (leb x y) eqn:Hxy; simpl.
    + destruct (P x) eqn:Hx, (P y) eqn:Hpy; simpl; rewrite ?Hxy; try done.
      (* x goes in front of the first kept row, which is above y *)
      destruct (List.filter P l) as [|z l'] eqn:Hfl; simpl; [done|].
      assert (Hz : In z (List.filter P l)) by (rewrite Hfl; by left).
      apply filter_In in Hz as [Hz _].
      rewrite List.Forall_forall in Hy.
      by rewrite (leb_trans x y z Hxy (Hy z Hz)).
    + rewrite IH. destruct (P x) eqn:Hx, (P y) eqn:Hpy; simpl;
        rewrite ?Hxy; done.
Qed.

Lemma filter_sort_rows (P : Row -> bool) l :
  List.filter P (sort_rows leb l) = sort_rows leb (List.filter P l).
Proof using leb_total leb_trans.
  induction l as [|x l IH]; simpl; [done|].
  rewrite filter_insert_row by apply sort_rows_sorted.
  rewrite IH. by destruct (P x).
Qed.

End OrderBy.

Lemma asc_total c x y : asc c x y = true \/ asc c y x = true.
Proof. apply sql_leb_total. Qed.

Lemma asc_trans c x y z :
  asc c x y = true -> asc c y z = true -> asc c x z = true.
Proof. apply sql_leb_trans. Qed.

(* ================================================================== *)
(** * 14. Reasoning about the data-access functions *)
(* ================================================================== *)

(** ** The guard leaves the tables alone *)

Lemma getDatabase_data w r w' :
  getDatabase w = (r, w') -> store w' = store w /\ now w' = now w.
Proof.
  unfold getDatabase. destruct (db (guard w)) as [h|] eqn:Hdb.
  { by intros [= <- <-]. }
  unfold bind at 1. unfold console_log at 1.
  set (w0 := mkWorld _ _ _ _ _ _).
  unfold bind, ret, initDatabase.
  change (guard w0) with (guard w).
  destruct (initPromise (guard w)) as [p|] eqn:Hp.
  { unfold console_log, await. simpl. destruct p; by intros [= <- <-]. }
  rewrite Hdb. cbv zeta. unfold bind, set_guard.
  cbn [store now script calls console guard db].
  match goal with
  | |- context [init_attempt ?x] =>
      match x with mkWorld (mkGuard _ (Some _)) _ _ _ _ _ => set (w1 := x) end
  end.
  destruct (init_attempt_run_attempt w1)
    as (r0 & w2 & cs & -> & _ & _ & Hs & Hn).
  destruct r0; intros [= <- <-]; simpl; auto.
Qed.

Lemma getDatabase_ready w h :
  db (guard w) = Some h -> getDatabase w = (Ok h, w).
Proof. unfold getDatabase. by intros ->. Qed.

(** ** What a successful call has done *)

(** A function of the shape
    [try { db = await getDatabase(); result = await db.runAsync(q, params);
           return f(result) } catch (e) { ...; throw ... }]. *)
Lemma run_shape_Ok {A} (f : RunResult -> A) q params
  (handler : JsError -> M A) w a w' :
  (forall e w0, exists e' w1, handler e w0 = (Throw e', w1)) ->
  try_catch
    (database <- getDatabase ;;
     result <- runAsync database q params ;;
     ret (f result)) handler w = (Ok a, w') ->
  exists res,
    sql_run q params (now w) (store w) = Ok (res, store w')
    /\ a = f res /\ now w' = now w.
Proof.
  intros Hh. unfold try_catch, bind at 1.
  destruct (getDatabase w) as [[h|e] w1] eqn:Hg.
  2: { destruct (Hh e w1) as (e' & w2 & ->). discriminate. }
  apply getDatabase_data in Hg as [Hs Hn].
  cbv [bind runAsync driver ret]. simpl.
  destruct (hd default_outcome (script w1)) as [v|e]; simpl.
  2: { match goal with |- context [handler e ?w0] =>
         destruct (Hh e w0) as (e' & w2 & ->) end. discriminate. }
  rewrite Hs, Hn.
  destruct (sql_run q params (now w) (store w)) as [[res st]|e] eqn:Hrun; simpl.
  - intros [= <- <-]. exists res. simpl. auto.
  - match goal with |- context [handler e ?w0] =>
      destruct (Hh e w0) as (e' & w2 & ->) end. discriminate.
Qed.

(** The same shape around [getAllAsync]. *)
Lemma select_all_shape_Ok q params (handler : JsError -> M (list Row)) w a w' :
  (forall e w0, exists e' w1, handler e w0 = (Throw e', w1)) ->
  try_catch
    (database <- getDatabase ;;
     result <- getAllAsync database q params ;;
     ret result) handler w = (Ok a, w') ->
  a = sql_select q params (store w) /\ store w' = store w /\ now w' = now w.
Proof.
  intros Hh. unfold try_catch, bind at 1.
  destruct (getDatabase w) as [[h|e] w1] eqn:Hg.
  2: { destruct (Hh e w1) as (e' & w2 & ->). discriminate. }
  apply getDatabase_data in Hg as [Hs Hn].
  cbv [bind getAllAsync driver ret]. simpl.
  destruct (hd default_outcome (script w1)) as [v|e]; simpl.
  - rewrite Hs. intros [= <- <-]. simpl. auto.
  - match goal with |- context [handler e ?w0] =>
      destruct (Hh e w0) as (e' & w2 & ->) end. discriminate.
Qed.

(** The same shape around [getFirstAsync]. *)
Lemma select_first_shape_Ok q params (handler : JsError -> M (option Row))
  w a w' :
  (forall e w0, exists e' w1, handler e w0 = (Throw e', w1)) ->
  try_catch
    (database <- getDatabase ;;
     result <- getFirstAsync database q params ;;
     ret result) handler w = (Ok a, w') ->
  a = head (sql_select q params (store w))
  /\ store w' = store w /\ now w' = now w.
Proof.
  intros Hh. unfold try_catch, bind at 1.
  destruct (getDatabase w) as [[h|e] w1] eqn:Hg.
  2: { destruct (Hh e w1) as (e' & w2 & ->). discriminate. }
  apply getDatabase_data in Hg as [Hs Hn].
  cbv [bind getFirstAsync driver ret]. simpl.
  destruct (hd default_outcome (script w1)) as [v|e]; simpl.
  - rewrite Hs. intros [= <- <-]. simpl. auto.
  - match goal with |- context [handler e ?w0] =>
      destruct (Hh e w0) as (e' & w2 & ->) end. discriminate.
Qed.

Lemma log_and_rethrow_never_Ok {A} label :
  forall e w0, exists e' w1, @log_and_rethrow A label e w0 = (Throw e', w1).
Proof. intros e w0. do 2 eexists. reflexivity. Qed.

Lemma format_and_throw_never_Ok {A} label what :
  forall e w0, exists e' w1,
    @format_and_throw A label what e w0 = (Throw e', w1).
Proof. intros e w0. do 2 eexists. reflexivity. Qed.

(** [addProdi] and [addFakultas] log around the same shape. *)
Lemma logged_insert_shape_Ok l1 l2 l3 l4 q params
  (handler : JsError -> M Z) w a w' :
  (forall e w0, exists e' w1, handler e w0 = (Throw e', w1)) ->
  try_catch
    (console_log l1 ;;
     database <- getDatabase ;;
     console_log l2 ;;
     console_log l3 ;;
     result <- runAsync database q params ;;
     console_log l4 ;;
     ret (lastInsertRowId result)) handler w = (Ok a, w') ->
  exists res,
    sql_run q params (now w) (store w) = Ok (res, store w')
    /\ a = lastInsertRowId res /\ now w' = now w.
Proof.
  intros Hh. unfold try_catch, bind at 1. unfold console_log at 1.
  set (w0 := mkWorld _ _ _ _ _ _). unfold bind at 1.
  destruct (getDatabase w0) as [[h|e] w1] eqn:Hg.
  2: { destruct (Hh e w1) as (e' & w2 & ->). discriminate. }
  apply getDatabase_data in Hg as [Hs Hn]. simpl in Hs, Hn.
  cbv [bind runAsync driver ret console_log]. simpl.
  destruct (hd default_outcome (script w1)) as [v|e]; simpl.
  2: { match goal with |- context [handler e ?w0] =>
         destruct (Hh e w0) as (e' & w2 & ->) end. discriminate. }
  rewrite Hs, Hn.
  destruct (sql_run q params (now w) (store w)) as [[res st]|e] eqn:Hrun; simpl.
  - intros [= <- <-]. exists res. simpl. auto.
  - match goal with |- context [handler e ?w0] =>
      destruct (Hh e w0) as (e' & w2 & ->) end. discriminate.
Qed.

(* ================================================================== *)
(** * 15. getAll: ordering *)
(* ================================================================== *)

Lemma getAll_Ok e w rs w' :
  getAll e w = (Ok rs, w') ->
  rs = sort_rows (asc (name_column e)) (rows (get_table (entity_table e) (store w)))
  /\ store w' = store w /\ now w' = now w.
Proof.
  destruct e; simpl; intros H;
    apply select_all_shape_Ok in H; auto using @log_and_rethrow_never_Ok.
Qed.

(** A call on an open database that the environment lets through. *)
Lemma getAll_ready e w h :
  db (guard w) = Some h ->
  rejects (answer_at 0 (script w)) = None ->
  exists w',
    getAll e w
    = (Ok (sort_rows (asc (name_column e))
             (rows (get_table (entity_table e) (store w)))), w').
Proof.
  intros Hdb Ha. simpl in Ha.
  destruct e; simpl;
    cbv [getAllMahasiswa getAllProdi getAllFakultas try_catch bind];
    rewrite (getDatabase_ready w h Hdb);
    cbv [getAllAsync bind driver ret]; simpl;
    destruct (hd default_outcome (script w)); try discriminate;
    eexists; reflexivity.
Qed.

(** C9. For every entity and every content of its table, in whatever order
    the rows were inserted: on an open database that answers the query,
    [getAll] returns; and whenever it returns, the result holds exactly the
    stored rows (it is a permutation of the table) sorted in ascending
    order of the display-name column under the collation order
    [sql_leb]. *)
Theorem getAll_sorted_by_name (e : Entity) (w : World) :
  (forall h, db (guard w) = Some h ->
             rejects (answer_at 0 (script w)) = None ->
             exists rs w', getAll e w = (Ok rs, w'))
  /\ (forall rs w',
        getAll e w = (Ok rs, w') ->
        Permutation rs (rows (get_table (entity_table e) (store w)))
        /\ StronglySorted
             (fun x y => sql_leb (field (name_column e) x)
                                 (field (name_column e) y) = true) rs).
Proof.
  split.
  - intros h Hdb Ha. destruct (getAll_ready e w h Hdb Ha) as (w' & H). eauto.
  - intros rs w' H. apply getAll_Ok in H as (-> & _ & _). split.
    + apply sort_rows_Permutation.
    + apply (sort_rows_sorted (asc (name_column e)));
        [apply asc_total|apply asc_trans].
Qed.

(** The theorem on the sample database, whose students were inserted as
    Budi, then Ani. *)
Lemma getAll_sorted_by_name_witness :
  exists w',
    getAll MahasiswaE sample_world
    = (Ok [ stored_row 2 (OfMahasiswa ani) sample_time;
            stored_row 1 (OfMahasiswa budi) sample_time ], w')
    /\ Permutation
         [ stored_row 2 (OfMahasiswa ani) sample_time;
           stored_row 1 (OfMahasiswa budi) sample_time ]
         (rows (get_table T_mahasiswa (store sample_world)))
    /\ StronglySorted
         (fun x y => sql_leb (field "nama" x) (field "nama" y) = true)
         [ stored_row 2 (OfMahasiswa ani) sample_time;
           stored_row 1 (OfMahasiswa budi) sample_time ].
Proof.
  eexists. split; [reflexivity|].
  apply (proj2 (getAll_sorted_by_name MahasiswaE sample_world) _ _ eq_refl).
Defined.

(* ================================================================== *)
(** * 16. create, getById, update, delete *)
(* ================================================================== *)

(** ** Tables *)

Lemma get_set_table t tb st : get_table t (set_table t tb st) = tb.
Proof. by destruct t. Qed.

Lemma max_rowid_ge l r z :
  In r l -> field "id" r = SInt z -> (z <= max_rowid l)%Z.
Proof.
  induction l as [|y l IH]; simpl; [done|].
  intros [->|Hin] Hz.
  - rewrite Hz. lia.
  - specialize (IH Hin Hz). destruct (field "id" y); lia.
Qed.

Lemma filter_none (P : Row -> bool) l :
  (forall r, In r l -> P r = false) -> List.filter P l = [].
Proof.
  induction l as [|r l IH]; simpl; intros H; [done|].
  rewrite H by (by left). apply IH. intros r' Hr'. apply H. by right.
Qed.

Lemma next_rowid_fresh tb :
  List.filter (has_id (SInt (next_rowid tb))) (rows tb) = [].
Proof.
  unfold next_rowid. apply filter_none.
  intros r Hin. unfold has_id, sql_eqb.
  destruct (field "id" r) as [|z|s] eqn:Hf; try done.
  pose proof (max_rowid_ge _ _ _ Hin Hf). apply Z.eqb_neq. lia.
Qed.

Lemma has_id_true id r : has_id (SInt id) r = true <-> field "id" r = SInt id.
Proof.
  unfold has_id, sql_eqb. destruct (field "id" r) as [|z|s]; split; try done.
  - intros H%Z.eqb_eq. by subst.
  - intros [= ->]. apply Z.eqb_refl.
Qed.

Lemma field_set_field_ne c k v r :
  k <> c -> field c (set_field k v r) = field c r.
Proof.
  intros Hne. induction r as [|[k' v'] r IH]; simpl; [done|].
  destruct (String.eqb_spec k' k) as [->|Hk]; simpl.
  - destruct (String.eqb_spec k c); [done|done].
  - by rewrite IH.
Qed.

Lemma field_assign_other c cols ps : forall r,
  ~ In c cols -> field c (assign cols ps r) = field c r.
Proof.
  revert ps. induction cols as [|k cols IH]; intros [|p ps] r Hnin; simpl;
    try done.
  rewrite IH by (intros H; apply Hnin; by right).
  apply field_set_field_ne. intros ->. apply Hnin. by left.
Qed.

Lemma filter_has_id_rewrite id (g : Row -> Row) l :
  (forall r, field "id" (g r) = field "id" r) ->
  List.filter (has_id id) (map (fun r => if has_id id r then g r else r) l)
  = map g (List.filter (has_id id) l).
Proof.
  intros Hg. induction l as [|r l IH]; simpl; [done|].
  destruct (has_id id r) eqn:Hr.
  - assert (has_id id (g r) = true) as ->
        by (unfold has_id in *; by rewrite Hg).
    simpl. by rewrite IH.
  - rewrite Hr. apply IH.
Qed.

Lemma filter_has_id_deleted id l :
  List.filter (has_id id) (List.filter (fun r => negb (has_id id r)) l) = [].
Proof.
  induction l as [|r l IH]; simpl; [done|].
  destruct (has_id id r) eqn:Hr; simpl; [done|]. by rewrite Hr.
Qed.

(** ** What the functions have done when they return *)

Lemma create_Ok i w id w1 :
  create i w = (Ok id, w1) ->
  exists res,
    sql_run (InsertInto (entity_table (entity_of i)) (columns i)) (params i)
            (now w) (store w) = Ok (res, store w1)
    /\ id = lastInsertRowId res /\ now w1 = now w.
Proof.
  destruct i; simpl; intros H.
  - apply run_shape_Ok in H; auto using @log_and_rethrow_never_Ok.
  - apply logged_insert_shape_Ok in H;
      auto using @format_and_throw_never_Ok.
  - apply logged_insert_shape_Ok in H;
      auto using @format_and_throw_never_Ok.
Qed.

Lemma update_Ok id i w u w1 :
  update id i w = (Ok u, w1) ->
  exists res,
    sql_run (UpdateById (entity_table (entity_of i)) (columns i))
            (params i ++ [SInt id]) (now w) (store w) = Ok (res, store w1)
    /\ now w1 = now w.
Proof.
  destruct i; simpl; intros H;
    apply (run_shape_Ok (fun _ => tt)) in H as (res & H & _ & Hn);
    eauto using @log_and_rethrow_never_Ok.
Qed.

Lemma delete_Ok e id w u w1 :
  delete e id w = (Ok u, w1) ->
  exists res,
    sql_run (DeleteById (entity_table e)) [SInt id] (now w) (store w)
    = Ok (res, store w1)
    /\ now w1 = now w.
Proof.
  destruct e; simpl; intros H;
    apply (run_shape_Ok (fun _ => tt)) in H as (res & H & _ & Hn);
    eauto using @log_and_rethrow_never_Ok.
Qed.

Lemma getById_Ok e id w r w' :
  getById e id w = (Ok r, w') ->
  r = head (List.filter (has_id (SInt id))
                        (rows (get_table (entity_table e) (store w))))
  /\ store w' = store w /\ now w' = now w.
Proof.
  destruct e; simpl; intros H;
    apply select_first_shape_Ok in H; auto using @log_and_rethrow_never_Ok.
Qed.

(** The row INSERT builds from the parameters of an input. *)
Lemma new_row_stored i id ts :
  new_row (schema (entity_table (entity_of i))) (columns i) (params i) id ts
  = stored_row id i (SText ts).
Proof. destruct i; reflexivity. Qed.

(** ** Round trips *)

Lemma create_then_getById i w id w1 r w2 :
  create i w = (Ok id, w1) ->
  getById (entity_of i) id w1 = (Ok r, w2) ->
  r = Some (stored_row id i (SText (now w))).
Proof.
  intros Hc Hg.
  apply create_Ok in Hc as (res & Hrun & -> & _).
  apply getById_Ok in Hg as (-> & _ & _).
  simpl in Hrun. unfold sql_insert in Hrun.
  set (t := entity_table (entity_of i)) in *.
  set (tb := get_table t (store w)) in *.
  destruct (negb _); [discriminate|].
  destruct (notnull_violation _ _); [discriminate|].
  destruct (unique_violation _ _ _ _); [discriminate|].
  injection Hrun as <- <-. rewrite get_set_table. simpl.
  rewrite List.filter_app, next_rowid_fresh. simpl.
  unfold t. rewrite new_row_stored.
  assert (has_id (SInt (next_rowid tb))
            (stored_row (next_rowid tb) i (SText (now w))) = true) as ->.
  { apply has_id_true. reflexivity. }
  reflexivity.
Qed.

Lemma delete_then_getById e id w u w1 r w2 :
  delete e id w = (Ok u, w1) ->
  getById e id w1 = (Ok r, w2) ->
  r = None.
Proof.
  intros Hd Hg.
  apply delete_Ok in Hd as (res & Hrun & _).
  apply getById_Ok in Hg as (-> & _ & _).
  simpl in Hrun. injection Hrun as _ <-. rewrite get_set_table. simpl.
  by rewrite filter_has_id_deleted.
Qed.

(** UPDATE rewrites a well-formed row into the row of the input, keeping id
    and creation timestamp. *)
Lemma assign_stored i id r0 :
  row_ok (entity_table (entity_of i)) r0 ->
  field "id" r0 = SInt id ->
  assign (columns i) (params i ++ [SInt id]) r0
  = stored_row id i (field "created_at" r0).
Proof.
  intros [Hk _] Hid. destruct i; simpl in Hk;
    repeat (destruct r0 as [|[? ?] r0]; try discriminate);
    simpl in Hk; injection Hk as -> -> ->; intros; subst;
    simpl in Hid; subst; reflexivity.
Qed.

Lemma update_then_getById i id w u w1 r w2 r0 :
  store_ok (store w) ->
  head (List.filter (has_id (SInt id))
          (rows (get_table (entity_table (entity_of i)) (store w)))) = Some r0 ->
  update id i w = (Ok u, w1) ->
  getById (entity_of i) id w1 = (Ok r, w2) ->
  r = Some (stored_row id i (field "created_at" r0)).
Proof.
  intros Hok Hr0 Hu Hg.
  apply update_Ok in Hu as (res & Hrun & _).
  apply getById_Ok in Hg as (-> & _ & _).
  simpl in Hrun. unfold sql_update in Hrun.
  set (t := entity_table (entity_of i)) in *.
  set (tb := get_table t (store w)) in *.
  assert (Hlast : List.last (params i ++ [SInt id]) SNull = SInt id)
    by (by destruct i).
  rewrite Hlast in Hrun.
  destruct (negb _); [discriminate|].
  destruct (update_violation _ _ _ _ _ _); [discriminate|].
  injection Hrun as _ <-. rewrite get_set_table. simpl.
  rewrite (filter_has_id_rewrite (SInt id)
             (assign (columns i) (params i ++ [SInt id]))).
  2: { intros r. apply field_assign_other. destruct i; simpl; intuition discriminate. }
  destruct (List.filter (has_id (SInt id)) (rows tb)) as [|r1 l] eqn:Hf;
    [discriminate|].
  injection Hr0 as ->. simpl. f_equal.
  assert (Hin : In r0 (List.filter (has_id (SInt id)) (rows tb)))
    by (rewrite Hf; by left).
  apply filter_In in Hin as [Hin Hid].
  apply assign_stored.
  - specialize (Hok t). rewrite List.Forall_forall in Hok. by apply Hok.
  - by apply has_id_true.
Qed.

(** ** Well-formed tables stay well-formed *)

Lemma store_ok_empty : store_ok empty_store.
Proof. intros []; constructor. Qed.

Lemma get_set_table_ne t t' tb st :
  t <> t' -> get_table t' (set_table t tb st) = get_table t' st.
Proof. by destruct t, t'. Qed.

Lemma store_ok_set_table t tb st :
  store_ok st -> Forall (row_ok t) (rows tb) -> store_ok (set_table t tb st).
Proof.
  intros Hok Htb t'.
  assert (Hdec : t = t' \/ t <> t') by (destruct t, t'; auto; right; congruence).
  destruct Hdec as [<-|Hne].
  - by rewrite get_set_table.
  - rewrite get_set_table_ne by done. apply Hok.
Qed.

Lemma keys_new_row sch cols ps id ts :
  map fst (new_row sch cols ps id ts) = map col_name sch.
Proof. unfold new_row. rewrite map_map. reflexivity. Qed.

Lemma keys_set_field k v r : map fst (set_field k v r) = map fst r.
Proof.
  induction r as [|[k' v'] r IH]; simpl; [done|].
  destruct (k' =? k)%string; simpl; [done|]. by rewrite IH.
Qed.

Lemma keys_assign cols ps : forall r, map fst (assign cols ps r) = map fst r.
Proof.
  revert ps. induction cols as [|k cols IH]; intros [|p ps] r; simpl; try done.
  by rewrite IH, keys_set_field.
Qed.

Lemma update_violation_None t cols ps id l after :
  update_violation t cols ps id l after = None ->
  forall r, In r l -> has_id id r = true ->
            notnull_violation (schema t) (assign cols ps r) = None.
Proof.
  induction l as [|y l IH]; simpl; [done|].
  intros H r [->|Hin] Hr.
  - rewrite Hr in H.
    destruct (notnull_violation (schema t) (assign cols ps r)); [done|done].
  - apply IH; [|done|done]. destruct (has_id id y); [|done].
    destruct (notnull_violation _ _); [done|].
    destruct (unique_violation _ _ _ _); [done|done].
Qed.

Lemma sql_run_store_ok q ps ts st res st' :
  sql_run q ps ts st = Ok (res, st') -> store_ok st -> store_ok st'.
Proof.
  intros H Hok. destruct q as [t cols|t cols|t|t|t c|t o|t cols o|t];
    simpl in H; try (by injection H as _ <-).
  - unfold sql_insert in H. destruct (negb _); [discriminate|].
    destruct (notnull_violation _ _) eqn:Hnn; [discriminate|].
    destruct (unique_violation _ _ _ _); [discriminate|].
    injection H as _ <-. apply store_ok_set_table; [done|]. simpl.
    apply Forall_app. split; [apply Hok|].
    constructor; [|constructor]. split; [apply keys_new_row|done].
  - unfold sql_update in H. destruct (negb _); [discriminate|].
    destruct (update_violation _ _ _ _ _ _) eqn:Hv; [discriminate|].
    injection H as _ <-. apply store_ok_set_table; [done|]. simpl.
    specialize (Hok t). rewrite List.Forall_forall in *.
    intros r' Hin. apply in_map_iff in Hin as (r & <- & Hin).
    destruct (has_id _ r) eqn:Hr; [|by apply Hok].
    destruct (Hok r Hin) as [Hk _]. split.
    + by rewrite keys_assign.
    + eapply update_violation_None; eauto.
  - injection H as _ <-. apply store_ok_set_table; [done|]. simpl.
    specialize (Hok t). rewrite List.Forall_forall in *.
    intros r Hin. apply filter_In in Hin as [Hin _]. by apply Hok.
Qed.

Lemma create_store_ok i w id w1 :
  create i w = (Ok id, w1) -> store_ok (store w) -> store_ok (store w1).
Proof.
  intros H. apply create_Ok in H as (res & H & _). eapply sql_run_store_ok, H.
Qed.

Lemma update_store_ok id i w u w1 :
  update id i w = (Ok u, w1) -> store_ok (store w) -> store_ok (store w1).
Proof.
  intros H. apply update_Ok in H as (res & H & _). eapply sql_run_store_ok, H.
Qed.

Lemma delete_store_ok e id w u w1 :
  delete e id w = (Ok u, w1) -> store_ok (store w) -> store_ok (store w1).
Proof.
  intros H. apply delete_Ok in H as (res & H & _). eapply sql_run_store_ok, H.
Qed.

Lemma store_ok_sample : store_ok sample_store.
Proof.
  intros []; simpl; repeat constructor.
Qed.

(** ** A valid input is accepted *)

Lemma occurrences_none c s l :
  Forall (fun r => field c r <> SText s) l -> occurrences c (SText s) l = 0.
Proof.
  intros H. unfold occurrences. rewrite filter_none; [done|].
  rewrite List.Forall_forall in H. intros r Hr. specialize (H r Hr).
  destruct (field c r) as [|z|x]; simpl; try done.
  apply String.eqb_neq. congruence.
Qed.

Lemma insert_accepts i ts st :
  key_free i st ->
  exists res st',
    sql_run (InsertInto (entity_table (entity_of i)) (columns i)) (params i)
            ts st = Ok (res, st').
Proof.
  unfold key_free. intros Hk. apply occurrences_none in Hk.
  cbn [sql_run]. unfold sql_insert.
  set (tb := get_table _ st) in *.
  rewrite new_row_stored.
  destruct i as [m|p|f]; cbn in Hk |- *;
    unfold unique_violation; cbn; rewrite Hk; cbn; eauto.
Qed.

Lemma create_returns i w h :
  db (guard w) = Some h ->
  rejects (answer_at 0 (script w)) = None ->
  key_free i (store w) ->
  exists id w1, create i w = (Ok id, w1).
Proof.
  intros Hdb Ha Hk. cbn in Ha.
  destruct (insert_accepts i (now w) (store w) Hk) as (res & st' & Hrun).
  destruct i as [m|p|f]; cbn [create entity_of entity_table columns params] in *;
    cbv [addMahasiswa addProdi addFakultas try_catch bind console_log];
    rewrite getDatabase_ready with (h := h) by exact Hdb;
    cbv [runAsync bind driver ret console_log]; cbn [script now store];
    destruct (hd default_outcome (script w)); try discriminate;
    cbn [script now store guard calls console];
    rewrite Hrun; eauto.
Qed.

(** C3 (as the code has it). For every entity and every input: when
    [create] returns an id, [getById] of that id returns the row made of
    that id, the columns as the function bound them and the timestamp of
    the insertion; when [update] of an id present in a well-formed table
    returns, [getById] returns the row made of the id, the new columns and
    the unchanged creation timestamp; when [delete] returns, [getById]
    returns null. The bound columns are the fields of the input as given,
    provided no optional field of a program or faculty is the empty
    string. And [create] does return an id on an open database that
    answers the statement when no stored row carries the key of the
    input. *)
Theorem round_trip (i : Input) (id : Z) (w : World) :
  (forall w1 r w2,
      create i w = (Ok id, w1) ->
      getById (entity_of i) id w1 = (Ok r, w2) ->
      r = Some (stored_row id i (SText (now w))))
  /\ (forall r0 u w1 r w2,
        store_ok (store w) ->
        head (List.filter (has_id (SInt id))
                (rows (get_table (entity_table (entity_of i)) (store w))))
        = Some r0 ->
        update id i w = (Ok u, w1) ->
        getById (entity_of i) id w1 = (Ok r, w2) ->
        r = Some (stored_row id i (field "created_at" r0)))
  /\ (forall u w1 r w2,
        delete (entity_of i) id w = (Ok u, w1) ->
        getById (entity_of i) id w1 = (Ok r, w2) ->
        r = None)
  /\ (no_empty_optional i -> persisted i = fields_of_input i)
  /\ (forall h,
        db (guard w) = Some h ->
        rejects (answer_at 0 (script w)) = None ->
        key_free i (store w) ->
        exists id' w1, create i w = (Ok id', w1)).
Proof.
  split; [|split; [|split; [|split]]].
  - intros w1 r w2. apply create_then_getById.
  - intros r0 u w1 r w2. apply update_then_getById.
  - intros u w1 r w2. apply delete_then_getById.
  - destruct i as [m|p|f]; simpl; [done| |].
    + intros [Ha Hd]. unfold persisted, prodi_params. simpl.
      destruct (Prodi.akreditasi p) as [a|], (Prodi.deskripsi p) as [d|];
        simpl; repeat f_equal;
        repeat match goal with
          | |- context [(?s =? "")%string] =>
              destruct (String.eqb_spec s ""); [subst; congruence|]
          end; reflexivity.
    + intros Hd. unfold persisted, fakultas_params. simpl.
      destruct (Fakultas.deskripsi f) as [d|]; simpl; [|done].
      destruct (String.eqb_spec d ""); [subst; congruence|reflexivity].
  - intros h. apply create_returns.
Qed.

(** The theorem on the sample database: a third student is created and
    read back, the second one is updated and read back, the first one is
    deleted and looked up. *)
Lemma round_trip_witness :
  (exists w1 w2,
      create (OfMahasiswa citra) sample_world = (Ok 3%Z, w1)
      /\ getById MahasiswaE 3 w1
         = (Ok (Some (stored_row 3 (OfMahasiswa citra) sample_time)), w2))
  /\ (exists w1 w2,
        update 2 (OfMahasiswa citra) sample_world = (Ok tt, w1)
        /\ getById MahasiswaE 2 w1
           = (Ok (Some (stored_row 2 (OfMahasiswa citra) sample_time)), w2))
  /\ (exists w1 w2,
        delete MahasiswaE 1 sample_world = (Ok tt, w1)
        /\ getById MahasiswaE 1 w1 = (Ok None, w2)).
Proof.
  split; [|split].
  - pose (w1 := snd (create (OfMahasiswa citra) sample_world)).
    pose (rw := getById MahasiswaE 3 w1).
    pose (r := match fst rw with Ok x => x | Throw _ => None end).
    assert (Hc : create (OfMahasiswa citra) sample_world = (Ok 3%Z, w1))
      by reflexivity.
    assert (Hg : getById MahasiswaE 3 w1 = (Ok r, snd rw)) by reflexivity.
    exists w1, (snd rw). split; [exact Hc|].
    pose proof (proj1 (round_trip (OfMahasiswa citra) 3 sample_world)
             w1 r (snd rw) Hc Hg) as Hr.
    rewrite Hr in Hg. exact Hg.
  - pose (w1 := snd (update 2 (OfMahasiswa citra) sample_world)).
    pose (rw := getById MahasiswaE 2 w1).
    pose (r := match fst rw with Ok x => x | Throw _ => None end).
    assert (Hu : update 2 (OfMahasiswa citra) sample_world = (Ok tt, w1))
      by reflexivity.
    assert (Hg : getById MahasiswaE 2 w1 = (Ok r, snd rw)) by reflexivity.
    exists w1, (snd rw). split; [exact Hu|].
    pose proof (proj1 (proj2 (round_trip (OfMahasiswa citra) 2 sample_world))
             (stored_row 2 (OfMahasiswa ani) sample_time) tt w1 r (snd rw)
             store_ok_sample eq_refl Hu Hg) as Hr.
    rewrite Hr in Hg. exact Hg.
  - pose (w1 := snd (delete MahasiswaE 1 sample_world)).
    pose (rw := getById MahasiswaE 1 w1).
    pose (r := match fst rw with Ok x => x | Throw _ => None end).
    assert (Hd : delete MahasiswaE 1 sample_world = (Ok tt, w1))
      by reflexivity.
    assert (Hg : getById MahasiswaE 1 w1 = (Ok r, snd rw)) by reflexivity.
    exists w1, (snd rw). split; [exact Hd|].
    pose proof (proj1 (proj2 (proj2 (round_trip (OfMahasiswa budi) 1 sample_world)))
             tt w1 r (snd rw) Hd Hg) as Hr.
    rewrite Hr in Hg. exact Hg.
Defined.

(** C3 as stated fails: a program created with the empty string as
    accreditation is read back with that field null, not equal to the
    input. *)
Lemma round_trip_empty_optional :
  exists w1 w2 r,
    create (OfProdi akuntansi) (ready_world 7 empty_store []) = (Ok 1%Z, w1)
    /\ getById ProdiE 1 w1 = (Ok (Some r), w2)
    /\ field "akreditasi" (fields_of_input (OfProdi akuntansi)) = SText ""
    /\ field "akreditasi" r = SNull.
Proof.
  pose (w0 := ready_world 7 empty_store []).
  exists (snd (create (OfProdi akuntansi) w0)).
  exists (snd (getById ProdiE 1 (snd (create (OfProdi akuntansi) w0)))).
  exists (stored_row 1 (OfProdi akuntansi) sample_time).
  repeat split; vm_compute; reflexivity.
Qed.

(* ================================================================== *)
(** * 17. Optional fields *)
(* ================================================================== *)

Lemma field_stored_row_optional i id ts c :
  In c (optional_columns (entity_of i)) ->
  field c (stored_row id i ts) = field c (persisted i).
Proof.
  destruct i; simpl; intuition subst; reflexivity.
Qed.

Lemma written_then_read_stored i id w r :
  written_then_read i id w r -> exists ts, r = stored_row id i ts.
Proof.
  intros [(w1 & w2 & Hc & Hg)|(r0 & u & w1 & w2 & Hok & Hr0 & Hu & Hg)].
  - pose proof (create_then_getById _ _ _ _ _ _ Hc Hg) as [= ->]. eauto.
  - pose proof (update_then_getById _ _ _ _ _ _ _ _ Hok Hr0 Hu Hg) as [= ->].
    eauto.
Qed.

(** C6 (as the code has it). For every optional column of every entity,
    and every row read back after [create] or [update] wrote an input: if
    the input does not supply the field the column is NULL; for programs
    and faculties the column is never the empty string (an empty string
    supplied is stored as NULL); for students the faculty supplied is
    stored as it is, the empty string included. *)
Theorem optional_fields_persisted (i : Input) (c : string) (id : Z)
  (w : World) (r : Row) :
  In c (optional_columns (entity_of i)) ->
  written_then_read i id w r ->
  (supplied i c = None -> field c r = SNull)
  /\ (entity_of i <> MahasiswaE -> field c r <> SText "")
  /\ (entity_of i <> MahasiswaE -> supplied i c = Some "" -> field c r = SNull)
  /\ (entity_of i = MahasiswaE ->
      forall s, supplied i c = Some s -> field c r = SText s).
Proof.
  intros Hc Hwr. destruct (written_then_read_stored _ _ _ _ Hwr) as (ts & ->).
  rewrite field_stored_row_optional by done. clear Hwr.
  destruct i as [m|p|f]; simpl in Hc; unfold persisted; simpl.
  - destruct Hc as [<-|[]]. simpl.
    destruct (Mahasiswa.fakultas m); repeat split; try done.
    by intros _ s0 [= ->].
  - destruct Hc as [<-|[<-|[]]]; simpl;
      [destruct (Prodi.akreditasi p) as [s|]
      |destruct (Prodi.deskripsi p) as [s|]]; simpl;
      repeat split; try done;
      try (destruct (String.eqb_spec s ""); [done|intros _ [= ->]; done]);
      try (intros _ [= ->]; done).
  - destruct Hc as [<-|[]]; simpl.
    destruct (Fakultas.deskripsi f) as [s|]; simpl; repeat split; try done;
      try (destruct (String.eqb_spec s ""); [done|intros _ [= ->]; done]);
      try (intros _ [= ->]; done).
Qed.

(** The theorem on the sample database: a program created without
    description is read back with a null description. *)
Lemma optional_fields_persisted_witness :
  In "deskripsi" (optional_columns ProdiE)
  /\ written_then_read (OfProdi informatika) 1 (ready_world 7 empty_store [])
       (stored_row 1 (OfProdi informatika) sample_time)
  /\ field "deskripsi" (stored_row 1 (OfProdi informatika) sample_time) = SNull.
Proof.
  assert (H1 : In "deskripsi" (optional_columns ProdiE))
    by (right; left; reflexivity).
  assert (H2 : written_then_read (OfProdi informatika) 1
                 (ready_world 7 empty_store [])
                 (stored_row 1 (OfProdi informatika) sample_time)).
  { left.
    exists (snd (create (OfProdi informatika) (ready_world 7 empty_store []))).
    exists (snd (getById ProdiE 1
                   (snd (create (OfProdi informatika)
                           (ready_world 7 empty_store []))))).
    split; vm_compute; reflexivity. }
  split; [exact H1|]. split; [exact H2|].
  apply (proj1 (optional_fields_persisted (OfProdi informatika) "deskripsi" 1
                  (ready_world 7 empty_store [])
                  (stored_row 1 (OfProdi informatika) sample_time) H1 H2)).
  reflexivity.
Defined.

(** C6 as stated fails: a student created with the empty string as faculty
    is stored with the empty string, not with NULL. *)
Lemma empty_faculty_is_persisted :
  exists w1 w2 r,
    create (OfMahasiswa citra) sample_world = (Ok 3%Z, w1)
    /\ getById MahasiswaE 3 w1 = (Ok (Some r), w2)
    /\ field "fakultas" r = SText "".
Proof.
  exists (snd (create (OfMahasiswa citra) sample_world)).
  exists (snd (getById MahasiswaE 3
                 (snd (create (OfMahasiswa citra) sample_world)))).
  exists (stored_row 3 (OfMahasiswa citra) sample_time).
  repeat split; vm_compute; reflexivity.
Qed.

(* ================================================================== *)
(** * 18. search: the LIKE operator *)
(* ================================================================== *)

(** ** Patterns *)












(** ** search and getAll *)








(** ** The wildcards *)










(* ================================================================== *)
(** * 19. Authentication *)
(* ================================================================== *)

Lemma head_filter_find {A} (P : A -> bool) l :
  head (List.filter P l) = List.find P l.
Proof.
  induction l as [|x l IH]; simpl; [done|]. by destruct (P x).
Qed.

Lemma getUserByEmail_Ok {rt : Runtime} email w r w' :
  getUserByEmail email w = (Ok r, w') ->
  r = List.find
        (fun u => sql_eqb (field "email" u) (SText (toLowerCase email)))
        (rows (st_users (store w)))
  /\ store w' = store w.
Proof.
  intros H. apply select_first_shape_Ok in H as (-> & Hs & _);
    auto using @log_and_rethrow_never_Ok.
  split; [|done]. simpl. apply head_filter_find.
Qed.

Lemma strict_eq_true v s : strict_eq v s = true <-> v = SText s.
Proof.
  destruct v as [|z|x]; simpl; split; try done.
  - intros H%String.eqb_eq. by subst.
  - intros [= ->]. apply String.eqb_refl.
Qed.

(** C7. For every users table and every pair of email and password: on an
    open database that answers the query, [authenticateUser] returns; and
    whenever it returns, with [user] the first row whose email column
    equals the lowercased email: if there is no such row the result is
    null; otherwise the result is that row when its stored password is the
    string [password], and null when it is not. *)
Theorem authenticateUser_spec {rt : Runtime}
  (email password : string) (w : World) :
  (forall h, db (guard w) = Some h ->
             rejects (answer_at 0 (script w)) = None ->
             exists r w', authenticateUser email password w = (Ok r, w'))
  /\ (forall r w',
        authenticateUser email password w = (Ok r, w') ->
        match List.find
                (fun u => sql_eqb (field "email" u) (SText (toLowerCase email)))
                (rows (st_users (store w))) with
        | None => r = None
        | Some user =>
            (field "password" user = SText password -> r = Some user)
            /\ (field "password" user <> SText password -> r = None)
        end).
Proof.
  split.
  - intros h Hdb Ha. simpl in Ha.
    cbv [authenticateUser getUserByEmail try_catch bind].
    rewrite (getDatabase_ready w h Hdb).
    cbv [getFirstAsync bind driver ret]. simpl.
    destruct (hd default_outcome (script w)); [|discriminate].
    destruct (head _) as [u|]; simpl; eauto.
  - intros r w'. unfold authenticateUser, try_catch, bind.
    destruct (getUserByEmail email w) as [[u|e] w1] eqn:Hg; [|discriminate].
    apply getUserByEmail_Ok in Hg as [-> _].
    destruct (List.find _ _) as [user|]; unfold ret.
    + intros [= <- <-]. split.
      * intros H. by rewrite (proj2 (strict_eq_true _ _) H).
      * intros H. destruct (strict_eq _ _) eqn:Hse; [|done].
        by apply strict_eq_true in Hse.
    + by intros [= <- <-].
Qed.

(** The theorem on the sample database, whose only user registered as
    a@x.com with password p. *)
Lemma authenticateUser_spec_witness :
  (exists w',
      authenticateUser "A@X.com" "p" sample_world
      = (Ok (Some [ ("id", SInt 1); ("name", SText "A");
                    ("email", SText "a@x.com"); ("password", SText "p");
                    ("created_at", sample_time) ]), w'))
  /\ (exists w', authenticateUser "a@x.com" "wrong" sample_world = (Ok None, w'))
  /\ (exists w', authenticateUser "b@x.com" "p" sample_world = (Ok None, w')).
Proof.
  pose (user := [ ("id", SInt 1); ("name", SText "A");
                  ("email", SText "a@x.com"); ("password", SText "p");
                  ("created_at", sample_time) ] : Row).
  split; [|split].
  - pose (aw := authenticateUser "A@X.com" "p" sample_world).
    pose (r := match fst aw with Ok x => x | Throw _ => None end).
    assert (Ha : authenticateUser "A@X.com" "p" sample_world = (Ok r, snd aw))
      by (vm_compute; reflexivity).
    pose proof (proj2 (authenticateUser_spec "A@X.com" "p" sample_world)
                  r (snd aw) Ha) as Hspec.
    change (List.find _ _) with (Some user) in Hspec.
    destruct Hspec as [Hr _]. rewrite (Hr eq_refl) in Ha.
    exists (snd aw). exact Ha.
  - pose (aw := authenticateUser "a@x.com" "wrong" sample_world).
    pose (r := match fst aw with Ok x => x | Throw _ => None end).
    assert (Ha : authenticateUser "a@x.com" "wrong" sample_world
                 = (Ok r, snd aw)) by (vm_compute; reflexivity).
    pose proof (proj2 (authenticateUser_spec "a@x.com" "wrong" sample_world)
                  r (snd aw) Ha) as Hspec.
    change (List.find _ _) with (Some user) in Hspec.
    destruct Hspec as [_ Hr]. rewrite Hr in Ha by discriminate.
    exists (snd aw). exact Ha.
  - pose (aw := authenticateUser "b@x.com" "p" sample_world).
    pose (r := match fst aw with Ok x => x | Throw _ => None end).
    assert (Ha : authenticateUser "b@x.com" "p" sample_world = (Ok r, snd aw))
      by (vm_compute; reflexivity).
    pose proof (proj2 (authenticateUser_spec "b@x.com" "p" sample_world)
                  r (snd aw) Ha) as Hspec.
    change (List.find _ _) with (@None Row) in Hspec.
    rewrite Hspec in Ha. exists (snd aw). exact Ha.
Defined.

(* ================================================================== *)
(** * 20. Failures reach the caller *)
(* ================================================================== *)

Ltac unfold_calls :=
  cbv [perform reply
       addMahasiswa getAllMahasiswa getMahasiswaById updateMahasiswa
       deleteMahasiswa searchMahasiswa getRecentMahasiswa
       addUser getUserByEmail authenticateUser deleteUser
       addProdi getAllProdi getProdiById updateProdi deleteProdi searchProdi
       addFakultas getAllFakultas getFakultasById updateFakultas
       deleteFakultas searchFakultas
       log_and_rethrow format_and_throw
       runAsync getAllAsync getFirstAsync driver
       try_catch bind ret throw console_log console_error
       guard store now script calls console db initPromise].

(** The environment rejects the statement. *)
Lemma statement_rejected {rt : Runtime} c w h e :
  db (guard w) = Some h ->
  answer_at 0 (script w) = Reject e ->
  exists w',
    perform c w = (Throw (surfaced c e), w')
    /\ calls w' = calls w ++ [statement c h]
    /\ store w' = store w.
Proof.
  destruct w as [[d p] st nw sc cl co]. simpl. intros -> Ha.
  destruct c; unfold_calls; cbv [getDatabase guard db]; unfold_calls;
    rewrite Ha; eexists; repeat split; reflexivity.
Qed.

(** The statement breaks a constraint. *)
Lemma statement_refused {rt : Runtime} c w h e :
  db (guard w) = Some h ->
  rejects (answer_at 0 (script w)) = None ->
  statement_error c h w = Some e ->
  exists w',
    perform c w = (Throw (surfaced c e), w')
    /\ calls w' = calls w ++ [statement c h]
    /\ store w' = store w.
Proof.
  destruct w as [[d p] st nw sc cl co]. unfold statement_error.
  cbn [guard db script now store answer_at]. intros -> Ha He.
  destruct (hd default_outcome sc) as [v|] eqn:Hhd; [|discriminate].
  destruct c; cbn [statement] in He; try discriminate;
    unfold_calls; cbv [getDatabase guard db]; unfold_calls;
    rewrite Hhd;
    match type of He with
    | match ?x with _ => _ end = _ =>
        destruct x as [[? ?]|?] eqn:Hrun; [discriminate|]
    end;
    injection He as ->; eexists; repeat split; reflexivity.
Qed.

(** The initialization triggered by the call fails. *)
Lemma lifecycle_failed {rt : Runtime} c w database cause :
  guard w = uninitialized ->
  failing_step (script w) = Some (database, cause) ->
  exists w',
    perform c w = (Throw (surfaced c (init_failure cause)), w')
    /\ guard w' = uninitialized
    /\ store w' = store w.
Proof.
  intros Hg Hf.
  destruct c; unfold_calls;
    match goal with
    | |- context [getDatabase ?w0] =>
        destruct (getDatabase_fails w0 database cause Hg Hf)
          as (w1 & -> & Hg1 & Hs1)
    end;
    eexists; (split; [reflexivity|]); split; assumption.
Qed.

(** C5 (as the code has it). For every exported data-access call: when the
    environment rejects its statement, or the statement breaks a
    constraint, or the initialization the call triggers fails, the call
    throws; the statement is issued once and never repeated, and the tables
    are left as they were. What the caller catches is the error raised,
    unmodified, for every function except [addProdi] and [addFakultas],
    which throw a new error whose message is "Failed to add prodi: " (or
    "fakultas: ") followed by the message of the original, kept as
    [originalError]; a failed initialization is itself reported by a new
    error with the message "Database initialization failed: ...". *)
Theorem failures_reach_caller {rt : Runtime} (c : Call) (w : World) :
  (forall h e,
      db (guard w) = Some h ->
      answer_at 0 (script w) = Reject e ->
      exists w',
        perform c w = (Throw (surfaced c e), w')
        /\ calls w' = calls w ++ [statement c h]
        /\ store w' = store w)
  /\ (forall h e,
        db (guard w) = Some h ->
        rejects (answer_at 0 (script w)) = None ->
        statement_error c h w = Some e ->
        exists w',
          perform c w = (Throw (surfaced c e), w')
          /\ calls w' = calls w ++ [statement c h]
          /\ store w' = store w)
  /\ (forall database cause,
        guard w = uninitialized ->
        failing_step (script w) = Some (database, cause) ->
        exists w',
          perform c w
          = (Throw (surfaced c
                      (ErrorObj ("Database initialization failed: "
                                 +:+ or_else (message_of cause)
                                             (to_String cause)))), w')
          /\ guard w' = uninitialized
          /\ store w' = store w)
  /\ (forall e,
        (forall p, c <> AddProdi p) -> (forall f, c <> AddFakultas f) ->
        surfaced c e = e)
  /\ (forall e p, c = AddProdi p ->
        surfaced c e = ErrorWith ("Failed to add prodi: " +:+ describe e) e)
  /\ (forall e f, c = AddFakultas f ->
        surfaced c e = ErrorWith ("Failed to add fakultas: " +:+ describe e) e).
Proof.
  split; [|split; [|split; [|split; [|split]]]].
  - intros h e. apply statement_rejected.
  - intros h e. apply statement_refused.
  - intros database cause. apply lifecycle_failed.
  - intros e Hp Hf. destruct c; try reflexivity.
    + by destruct (Hp prodi).
    + by destruct (Hf fakultas).
  - by intros e p ->.
  - by intros e f ->.
Qed.

(** The theorem on the sample database: a student whose nim is taken. *)
Lemma failures_reach_caller_witness :
  db (guard sample_world) = Some 7
  /\ rejects (answer_at 0 (script sample_world)) = None
  /\ statement_error (AddMahasiswa budi) 7 sample_world
     = Some (ErrorObj "UNIQUE constraint failed: mahasiswa.nim")
  /\ exists w',
       perform (AddMahasiswa budi) sample_world
       = (Throw (ErrorObj "UNIQUE constraint failed: mahasiswa.nim"), w')
       /\ calls w' = calls sample_world ++ [statement (AddMahasiswa budi) 7]
       /\ store w' = store sample_world.
Proof.
  assert (H1 : db (guard sample_world) = Some 7) by reflexivity.
  assert (H2 : rejects (answer_at 0 (script sample_world)) = None)
    by reflexivity.
  assert (H3 : statement_error (AddMahasiswa budi) 7 sample_world
               = Some (ErrorObj "UNIQUE constraint failed: mahasiswa.nim"))
    by (vm_compute; reflexivity).
  split; [exact H1|]. split; [exact H2|]. split; [exact H3|].
  exact (proj1 (proj2 (failures_reach_caller (AddMahasiswa budi) sample_world))
           7 _ H1 H2 H3).
Defined.

(** C5 as stated fails: the error the store raises under [addProdi] is not
    the error the caller catches. *)
Lemma addProdi_formats_a_new_error :
  exists w',
    addProdi informatika
      (ready_world 7 empty_store [Reject (ErrorObj "database is locked")])
    = (Throw (ErrorWith "Failed to add prodi: database is locked"
                        (ErrorObj "database is locked")), w')
    /\ ErrorWith "Failed to add prodi: database is locked"
                 (ErrorObj "database is locked")
       <> ErrorObj "database is locked".
Proof.
  exists (snd (addProdi informatika
                 (ready_world 7 empty_store
                    [Reject (ErrorObj "database is locked")]))).
  split; [vm_compute; reflexivity|discriminate].
Qed.

(* ================================================================== *)
(** * 21. What a call does to the tables *)
(* ================================================================== *)

Ltac open_calls :=
  cbv [perform reply
       addMahasiswa getAllMahasiswa getMahasiswaById updateMahasiswa
       deleteMahasiswa searchMahasiswa getRecentMahasiswa
       addUser getUserByEmail authenticateUser deleteUser
       addProdi getAllProdi getProdiById updateProdi deleteProdi searchProdi
       addFakultas getAllFakultas getFakultasById updateFakultas
       deleteFakultas searchFakultas
       log_and_rethrow format_and_throw
       runAsync getAllAsync getFirstAsync driver
       try_catch bind ret throw console_log console_error];
  cbn [guard store now script calls console db initPromise].

(** Either the tables are as before, or the statement of the call ran and
    the call returned. *)
Lemma perform_effect {rt : Runtime} c w r w' :
  perform c w = (r, w') ->
  now w' = now w
  /\ (store w' = store w
      \/ exists h q ps res rep,
           statement c h = RunAsync h q ps
           /\ sql_run q ps (now w) (store w) = Ok (res, store w')
           /\ r = Ok rep).
Proof.
  destruct c; open_calls;
    match goal with
    | |- context [getDatabase ?w0] =>
        destruct (getDatabase w0) as [[h|e] w1] eqn:Hg;
        apply getDatabase_data in Hg as [Hs Hn]; cbn [store now] in Hs, Hn
    end;
    cbn [guard store now script calls console];
    try (destruct (hd default_outcome (script w1)) as [v|e0];
         cbn [guard store now script calls console];
         try match goal with
           | |- context [sql_run ?q ?ps ?n ?s] =>
               destruct (sql_run q ps n s) as [[res st]|e1] eqn:Hrun;
               cbn [guard store now script calls console]
           end;
         try match goal with
           | |- context [head ?l] => destruct (head l)
           end);
    intros [= <- <-]; cbn [store now]; (split; [exact Hn|]);
    first [ left; exact Hs
          | right; rewrite Hs, Hn in Hrun;
            exists h; do 4 eexists; split; [reflexivity|]; split; [exact Hrun|reflexivity] ].
Qed.

(** ** Integrity is kept *)

Lemma sql_eqb_eq a b : sql_eqb a b = true -> a = b.
Proof.
  destruct a as [|x|x], b as [|y|y]; simpl; try done.
  - intros H%Z.eqb_eq. by subst.
  - intros H%String.eqb_eq. by subst.
Qed.

Lemma occurrences_app c v l1 l2 :
  occurrences c v (l1 ++ l2) = occurrences c v l1 + occurrences c v l2.
Proof. unfold occurrences. by rewrite List.filter_app, length_app. Qed.

Lemma unique_violation_None sch r l allowed :
  unique_violation sch r l allowed = None ->
  forall c, In c sch -> col_unique c = true ->
            occurrences (col_name c) (field (col_name c) r) l <= allowed.
Proof.
  unfold unique_violation. intros H c Hc Hu.
  destruct (List.find _ sch) eqn:Hf; [discriminate|].
  pose proof (find_none _ _ Hf c Hc) as Hn. cbn in Hn. rewrite Hu in Hn.
  cbn in Hn. apply Nat.ltb_ge in Hn. exact Hn.
Qed.

Lemma field_id_new_row t cols ps id ts :
  field "id" (new_row (schema t) cols ps id ts) = SInt id.
Proof. by destruct t. Qed.

Lemma insert_inv t cols ps ts tb res tb' :
  sql_insert t cols ps ts tb = Ok (res, tb') ->
  ids_ok tb -> unique_ok t tb -> ids_ok tb' /\ unique_ok t tb'.
Proof.
  unfold sql_insert. destruct (negb _); [discriminate|].
  destruct (notnull_violation _ _); [discriminate|].
  destruct (unique_violation _ _ _ _) eqn:Hu; [discriminate|].
  intros [= <- <-] [Hids Hnd] Huq. unfold ids_ok, unique_ok. cbn [rows seq].
  set (id := next_rowid tb). set (r := new_row (schema t) cols ps id ts).
  assert (Hid : field "id" r = SInt id) by apply field_id_new_row.
  assert (Hlt : (seq tb < id)%Z) by (unfold id, next_rowid; lia).
  split; [split|].
  - apply Forall_app. split.
    + eapply Forall_impl; [exact Hids|]. intros x (z & Hz & Hle).
      exists z. split; [done|]. cbn. lia.
    + constructor; [|constructor]. exists id. split; [done|]. cbn. lia.
  - rewrite map_app. cbn. rewrite Hid. apply NoDup_app. split; [done|].
    split; [|apply NoDup_singleton].
    intros v Hv Hv'. apply list_elem_of_singleton in Hv'. subst v.
    apply list_elem_of_In, in_map_iff in Hv as (x & Hx & Hin).
    rewrite List.Forall_forall in Hids.
    destruct (Hids x Hin) as (z & Hz & Hle). rewrite Hz in Hx.
    injection Hx as ->. lia.
  - intros c v Hc Hcu. rewrite occurrences_app.
    pose proof (unique_violation_None _ _ _ _ Hu c Hc Hcu) as H0.
    unfold occurrences at 2. cbn.
    destruct (sql_eqb (field (col_name c) r) v) eqn:He; cbn.
    + apply sql_eqb_eq in He. subst v. change (new_row _ _ _ _ _) with r in H0.
      lia.
    + specialize (Huq c v Hc Hcu). lia.
Qed.

Lemma occurrences_filter_le c v (P : Row -> bool) l :
  occurrences c v (List.filter P l) <= occurrences c v l.
Proof.
  unfold occurrences. induction l as [|r l IH]; cbn; [done|].
  destruct (P r); cbn; destruct (sql_eqb (field c r) v); cbn; lia.
Qed.

Lemma NoDup_map_filter {A B} (f : A -> B) (P : A -> bool) l :
  NoDup (map f l) -> NoDup (map f (List.filter P l)).
Proof.
  induction l as [|x l IH]; cbn; [done|].
  intros [Hx Hl]%NoDup_cons. destruct (P x); cbn; [|by apply IH].
  apply NoDup_cons. split; [|by apply IH].
  intros Hin. apply Hx.
  apply list_elem_of_In, in_map_iff in Hin as (y & Hy & Hin).
  apply filter_In in Hin as [Hin _].
  apply list_elem_of_In, in_map_iff. by exists y.
Qed.

Lemma delete_inv t id tb :
  ids_ok tb -> unique_ok t tb ->
  ids_ok (snd (sql_delete id tb)) /\ unique_ok t (snd (sql_delete id tb)).
Proof.
  intros [Hids Hnd] Huq. unfold ids_ok, unique_ok. cbn [sql_delete snd rows seq].
  split; [split|].
  - cbn. rewrite List.Forall_forall in *. intros r Hr.
    apply filter_In in Hr as [Hr _]. by apply Hids.
  - cbn. by apply NoDup_map_filter.
  - intros c v Hc Hcu. cbn.
    etransitivity; [apply occurrences_filter_le|by apply Huq].
Qed.

Lemma update_violation_unique t cols ps id l after :
  update_violation t cols ps id l after = None ->
  forall r c, In r l -> has_id id r = true -> In c (schema t) ->
              col_unique c = true ->
              occurrences (col_name c)
                (field (col_name c) (assign cols ps r)) after <= 1.
Proof.
  induction l as [|y l IH]; cbn; [done|].
  intros H r c [->|Hin] Hr Hc Hcu.
  - rewrite Hr in H.
    destruct (notnull_violation _ _); [done|].
    destruct (unique_violation _ _ _ _) eqn:Hu; [done|].
    by apply (unique_violation_None _ _ _ _ Hu).
  - apply IH; try done. destruct (has_id id y); [|done].
    destruct (notnull_violation _ _); [done|].
    destruct (unique_violation _ _ _ _); [done|done].
Qed.

(** Rows rewritten to something else than [v] do not add occurrences of
    [v]. *)
Lemma occurrences_map_le c v (hit : Row -> bool) (g : Row -> Row) l :
  (forall r, In r l -> hit r = true -> sql_eqb (field c (g r)) v = false) ->
  occurrences c v (map (fun r => if hit r then g r else r) l)
  <= occurrences c v l.
Proof.
  unfold occurrences. induction l as [|r l IH]; cbn; [done|].
  intros H.
  assert (IH' := IH (fun x Hx => H x (or_intror Hx))).
  destruct (hit r) eqn:Hr.
  - rewrite (H r (or_introl eq_refl) Hr).
    destruct (sql_eqb (field c r) v); cbn; lia.
  - destruct (sql_eqb (field c r) v); cbn; lia.
Qed.

Lemma update_inv t cols ps tb res tb' :
  ~ In "id" cols ->
  sql_update t cols ps tb = Ok (res, tb') ->
  ids_ok tb -> unique_ok t tb -> ids_ok tb' /\ unique_ok t tb'.
Proof.
  intros Hnid. unfold sql_update. destruct (negb _); [discriminate|].
  set (id := List.last ps SNull).
  set (g := fun r => if has_id id r then assign cols ps r else r).
  destruct (update_violation _ _ _ _ _ _) eqn:Hv; [discriminate|].
  intros [= <- <-] [Hids Hnd] Huq. unfold ids_ok, unique_ok. cbn [rows seq].
  assert (Hg : forall r, field "id" (g r) = field "id" r).
  { intros r. unfold g. destruct (has_id id r); [|done].
    by apply field_assign_other. }
  assert (Hmap : map (field "id") (map g (rows tb)) = map (field "id") (rows tb)).
  { rewrite map_map. apply map_ext. exact Hg. }
  split; [split|].
  - rewrite List.Forall_forall in *. intros r' Hr'.
    apply in_map_iff in Hr' as (r & <- & Hr). rewrite Hg. by apply Hids.
  - by rewrite Hmap.
  - intros c v Hc Hcu.
    destruct (existsb (fun r => has_id id r
                                && sql_eqb (field (col_name c) (assign cols ps r)) v)
                      (rows tb)) eqn:Hex.
    + apply existsb_exists in Hex as (r & Hr & Hb).
      apply andb_true_iff in Hb as [Hh He]. apply sql_eqb_eq in He. subst v.
      by apply (update_violation_unique _ _ _ _ _ _ Hv).
    + etransitivity; [|by apply Huq].
      apply occurrences_map_le. intros r Hr Hh.
      destruct (sql_eqb _ v) eqn:He; [|done].
      assert (existsb (fun r => has_id id r
                                && sql_eqb (field (col_name c) (assign cols ps r)) v)
                      (rows tb) = true); [|congruence].
      apply existsb_exists. exists r. split; [done|]. by rewrite Hh, He.
Qed.

Lemma store_inv_set_table t tb st :
  store_ok (set_table t tb st) ->
  store_inv st -> ids_ok tb -> unique_ok t tb ->
  store_inv (set_table t tb st).
Proof.
  intros Hok [_ Hst] Hi Hu. split; [done|]. intros t'.
  assert (Hdec : t = t' \/ t <> t') by (destruct t, t'; auto; right; congruence).
  destruct Hdec as [<-|Hne].
  - by rewrite get_set_table.
  - rewrite get_set_table_ne by done. apply Hst.
Qed.

(** The statements the functions send leave the id column alone. *)
Lemma statement_keeps_ids {rt : Runtime} c h t cols ps :
  statement c h = RunAsync h (UpdateById t cols) ps -> ~ In "id" cols.
Proof.
  destruct c; cbn; intros [= <- <- <-] || intros [=]; cbn;
    intuition discriminate.
Qed.

Lemma statement_store_inv {rt : Runtime} c h q ps ts st res st' :
  statement c h = RunAsync h q ps ->
  sql_run q ps ts st = Ok (res, st') ->
  store_inv st -> store_inv st'.
Proof.
  intros Hst Hrun Hinv.
  pose proof (sql_run_store_ok _ _ _ _ _ _ Hrun (proj1 Hinv)) as Hok.
  destruct q as [t cols|t cols|t|t|t c0|t o|t cols o|t];
    cbn in Hrun; try (by injection Hrun as _ <-).
  - destruct (sql_insert _ _ _ _ _) as [[res0 tb]|] eqn:Hi; [|discriminate].
    injection Hrun as <- <-.
    destruct (proj2 Hinv t) as [Hids Hu].
    destruct (insert_inv _ _ _ _ _ _ _ Hi Hids Hu).
    by apply store_inv_set_table.
  - destruct (sql_update _ _ _ _) as [[res0 tb]|] eqn:Hu'; [|discriminate].
    injection Hrun as <- <-.
    destruct (proj2 Hinv t) as [Hids Hu].
    destruct (update_inv _ _ _ _ _ _ (statement_keeps_ids _ _ _ _ _ Hst)
                Hu' Hids Hu).
    by apply store_inv_set_table.
  - injection Hrun as <- <-.
    destruct (proj2 Hinv t) as [Hids Hu].
    destruct (delete_inv t (hd SNull ps) _ Hids Hu).
    by apply store_inv_set_table.
Qed.

(* ================================================================== *)
(** * 22. Integrity, failures and ids over histories *)
(* ================================================================== *)

Lemma store_inv_empty : store_inv empty_store.
Proof.
  split; [apply store_ok_empty|]. intros []; (split; [split|]); cbn;
    try constructor; intros; cbn; lia.
Qed.

Lemma perform_store_inv {rt : Runtime} c w :
  store_inv (store w) -> store_inv (store (snd (perform c w))).
Proof.
  intros Hinv. destruct (perform c w) as [r w'] eqn:Hp. cbn.
  destruct (perform_effect _ _ _ _ Hp)
    as [_ [->|(h & q & ps & res & rep & Hst & Hrun & _)]]; [done|].
  by eapply statement_store_inv.
Qed.

(** X1. Integrity is an invariant of every history of exported calls,
    whatever each call returns: rows keep the columns of the schema and its
    NOT NULL constraints, ids are integers below the AUTOINCREMENT
    sequence and pairwise distinct, and no value occurs twice in a UNIQUE
    column (nim, kode_prodi, kode_fakultas, users.email). *)
Theorem integrity_kept {rt : Runtime} (cs : list Call) (w : World) :
  store_inv (store w) -> store_inv (store (perform_all cs w)).
Proof.
  revert w. induction cs as [|c cs IH]; intros w Hinv; cbn; [done|].
  apply IH. by apply perform_store_inv.
Qed.

Lemma integrity_kept_witness :
  store_inv (store (ready_world 7 empty_store []))
  /\ store_inv (store (perform_all sample_history
                         (ready_world 7 empty_store []))).
Proof.
  split; [exact store_inv_empty|].
  apply (integrity_kept sample_history (ready_world 7 empty_store [])).
  exact store_inv_empty.
Defined.

(** X2. A call that throws has changed no table: whether the
    initialization failed, the driver rejected the statement or a
    constraint refused it, the store is the one before the call. *)
Theorem failed_call_changes_nothing {rt : Runtime}
  (c : Call) (w w' : World) (e : JsError) :
  perform c w = (Throw e, w') -> store w' = store w.
Proof.
  intros Hp.
  destruct (perform_effect _ _ _ _ Hp)
    as [_ [->|(h & q & ps & res & rep & _ & _ & [=])]]; done.
Qed.

Lemma failed_call_changes_nothing_witness :
  perform (AddMahasiswa budi) sample_world
  = (Throw (ErrorObj "UNIQUE constraint failed: mahasiswa.nim"),
     snd (perform (AddMahasiswa budi) sample_world))
  /\ store (snd (perform (AddMahasiswa budi) sample_world))
     = store sample_world.
Proof.
  assert (H : perform (AddMahasiswa budi) sample_world
              = (Throw (ErrorObj "UNIQUE constraint failed: mahasiswa.nim"),
                 snd (perform (AddMahasiswa budi) sample_world)))
    by (vm_compute; reflexivity).
  split; [exact H|].
  exact (failed_call_changes_nothing _ _ _ _ H).
Defined.

(** X3. A call changes at most the table of its own entity: reads
    (getAll, getById, search, getRecent, getUserByEmail, authenticate)
    change no table, and a create, update or delete leaves the three
    other tables as they were. *)
Theorem call_touches_only_its_table {rt : Runtime}
  (c : Call) (w w' : World) (r : Res Reply)
  (t : TableName) :
  perform c w = (r, w') ->
  written_table c <> Some t ->
  get_table t (store w') = get_table t (store w).
Proof.
  intros Hp Ht.
  destruct (perform_effect _ _ _ _ Hp)
    as [_ [->|(h & q & ps & res & rep & Hst & Hrun & _)]]; [done|].
  destruct c; cbn in Hst; try discriminate; injection Hst as <- <-;
    cbn in Hrun;
    repeat match type of Hrun with
      | match ?x with _ => _ end = _ => destruct x as [[? ?]|?]; try discriminate
      end;
    injection Hrun as _ <-;
    destruct t; try reflexivity; exfalso; by apply Ht.
Qed.

Lemma call_touches_only_its_table_witness :
  perform (DeleteMahasiswa 1) sample_world
  = (Ok RVoid, snd (perform (DeleteMahasiswa 1) sample_world))
  /\ written_table (DeleteMahasiswa 1) <> Some T_prodi
  /\ get_table T_prodi (store (snd (perform (DeleteMahasiswa 1) sample_world)))
     = get_table T_prodi (store sample_world).
Proof.
  assert (H : perform (DeleteMahasiswa 1) sample_world
              = (Ok RVoid, snd (perform (DeleteMahasiswa 1) sample_world)))
    by (vm_compute; reflexivity).
  assert (H' : written_table (DeleteMahasiswa 1) <> Some T_prodi)
    by discriminate.
  split; [exact H|]. split; [exact H'|].
  exact (call_touches_only_its_table _ _ _ _ T_prodi H H').
Defined.

(* ================================================================== *)
(** * 23. Ids, missing rows and taken keys *)
(* ================================================================== *)

Lemma sql_insert_seq t cols ps ts tb res tb' :
  sql_insert t cols ps ts tb = Ok (res, tb') ->
  seq tb' = next_rowid tb /\ lastInsertRowId res = next_rowid tb.
Proof.
  unfold sql_insert. intros H.
  repeat match type of H with
    | (if ?b then _ else _) = _ => destruct b; [discriminate|]
    | match ?x with _ => _ end = _ => destruct x; try discriminate
    end.
  by injection H as <- <-.
Qed.

Lemma sql_update_seq t cols ps tb res tb' :
  sql_update t cols ps tb = Ok (res, tb') -> seq tb' = seq tb.
Proof.
  unfold sql_update. intros H.
  repeat match type of H with
    | (if ?b then _ else _) = _ => destruct b; [discriminate|]
    | match ?x with _ => _ end = _ => destruct x; try discriminate
    end.
  by injection H as _ <-.
Qed.

Lemma sql_run_seq q ps ts st res st' t :
  sql_run q ps ts st = Ok (res, st') ->
  (seq (get_table t st) <= seq (get_table t st'))%Z.
Proof.
  destruct q; cbn [sql_run]; intros H; try (injection H as _ <-; lia).
  - destruct (sql_insert _ _ _ _ _) as [[r tb]|] eqn:E; [|discriminate].
    injection H as _ <-. apply sql_insert_seq in E as [E _].
    unfold next_rowid in E. destruct t, t0; cbn in *; lia.
  - destruct (sql_update _ _ _ _) as [[r tb]|] eqn:E; [|discriminate].
    injection H as _ <-. apply sql_update_seq in E.
    destruct t, t0; cbn in *; lia.
  - unfold sql_delete in H. injection H as _ <-. destruct t, t0; cbn; lia.
Qed.

Lemma perform_seq {rt : Runtime} c w t :
  (seq (get_table t (store w))
   <= seq (get_table t (store (snd (perform c w)))))%Z.
Proof.
  destruct (perform c w) as [r w'] eqn:Hp. cbn.
  destruct (perform_effect _ _ _ _ Hp)
    as [_ [->|(h & q & ps & res & rep & _ & Hrun & _)]]; [lia|].
  by eapply sql_run_seq.
Qed.

Lemma perform_all_seq {rt : Runtime} cs w t :
  (seq (get_table t (store w))
   <= seq (get_table t (store (perform_all cs w))))%Z.
Proof.
  revert w. induction cs as [|c cs IH]; intros w; cbn; [lia|].
  etrans; [apply (perform_seq c)|apply IH].
Qed.

Lemma insert_id t cols ps ts st res st' :
  sql_run (InsertInto t cols) ps ts st = Ok (res, st') ->
  lastInsertRowId res = seq (get_table t st')
  /\ (seq (get_table t st) < lastInsertRowId res)%Z.
Proof.
  cbn [sql_run]. intros H.
  destruct (sql_insert _ _ _ _ _) as [[r tb]|] eqn:E; [|discriminate].
  injection H as <- <-. apply sql_insert_seq in E as [E1 E2].
  rewrite get_set_table. unfold next_rowid in *. lia.
Qed.

(** X4. Ids are never handed out twice: an id returned by a create is
    smaller than the id returned by any later create of the same entity,
    whatever calls were made in between, also when the first row has been
    deleted meanwhile (the tables are declared AUTOINCREMENT). *)
Theorem ids_never_reused {rt : Runtime}
  (i i' : Input) (cs : list Call) (w w1 w3 : World)
  (id id' : Z) :
  create i w = (Ok id, w1) ->
  entity_of i' = entity_of i ->
  create i' (perform_all cs w1) = (Ok id', w3) ->
  (id < id')%Z.
Proof.
  intros Hc He Hc'.
  apply create_Ok in Hc as (res & Hrun & -> & _).
  apply create_Ok in Hc' as (res' & Hrun' & -> & _).
  apply insert_id in Hrun as [-> _]. apply insert_id in Hrun' as [_ Hlt].
  rewrite He in Hlt.
  pose proof (perform_all_seq cs w1 (entity_table (entity_of i))). lia.
Qed.

Lemma ids_never_reused_witness :
  let w1 := snd (create (OfMahasiswa citra) sample_world) in
  let w2 := perform_all [DeleteMahasiswa 3; GetAllMahasiswa] w1 in
  create (OfMahasiswa citra) sample_world = (Ok 3%Z, w1)
  /\ create (OfMahasiswa citra) w2
     = (Ok 4%Z, snd (create (OfMahasiswa citra) w2))
  /\ (3 < 4)%Z.
Proof.
  intros w1 w2.
  assert (H1 : create (OfMahasiswa citra) sample_world = (Ok 3%Z, w1))
    by (vm_compute; reflexivity).
  assert (H2 : create (OfMahasiswa citra) w2
               = (Ok 4%Z, snd (create (OfMahasiswa citra) w2)))
    by (vm_compute; reflexivity).
  split; [exact H1|]. split; [exact H2|].
  exact (ids_never_reused _ _ [DeleteMahasiswa 3; GetAllMahasiswa]
           _ _ _ _ _ H1 eq_refl H2).
Defined.

(** ** Rows that are not there *)

Lemma has_id_absent id r :
  field "id" r <> SInt id -> has_id (SInt id) r = false.
Proof.
  intros H. unfold has_id. destruct (sql_eqb _ _) eqn:E; [|done].
  by apply sql_eqb_eq in E.
Qed.

Lemma set_get_table t st : set_table t (get_table t st) st = st.
Proof. by destruct t, st. Qed.

Lemma update_violation_absent t cols ps id l after :
  Forall (fun r => field "id" r <> SInt id) l ->
  update_violation t cols ps (SInt id) l after = None.
Proof.
  induction 1 as [|r l Hr _ IH]; cbn; [done|].
  by rewrite has_id_absent.
Qed.

Lemma sql_update_absent t cols ps id tb :
  S (length cols) = length (ps ++ [SInt id]) ->
  Forall (fun r => field "id" r <> SInt id) (rows tb) ->
  sql_update t cols (ps ++ [SInt id]) tb = Ok (mkRunResult 0 0, tb).
Proof.
  intros Hl Ha. unfold sql_update.
  rewrite Hl, Nat.eqb_refl. cbn [negb]. rewrite List.last_last.
  assert (Hm : map (fun r => if has_id (SInt id) r
                             then assign cols (ps ++ [SInt id]) r else r)
                 (rows tb) = rows tb).
  { induction Ha as [|r l Hr _ IH]; cbn; [done|].
    by rewrite has_id_absent, IH. }
  rewrite Hm, update_violation_absent by done.
  rewrite filter_none.
  - by destruct tb.
  - rewrite List.Forall_forall in Ha. intros r Hr.
    apply has_id_absent. by apply Ha.
Qed.

Lemma sql_delete_absent id tb :
  Forall (fun r => field "id" r <> SInt id) (rows tb) ->
  sql_delete (SInt id) tb = (mkRunResult 0 0, tb).
Proof.
  intros Ha. unfold sql_delete. rewrite filter_none.
  - replace (List.filter _ (rows tb)) with (rows tb); [by destruct tb|].
    induction Ha as [|r l Hr _ IH]; cbn; [done|].
    rewrite has_id_absent by done. cbn. by rewrite <- IH.
  - rewrite List.Forall_forall in Ha. intros r Hr.
    apply has_id_absent. by apply Ha.
Qed.

Lemma same_world w :
  mkWorld (guard w) (store w) (now w) (script w) (calls w) (console w) = w.
Proof. by destruct w. Qed.

(** X5. Updating or deleting an id that no row carries is not an error:
    on an open database the call returns normally and every table is as
    before. *)
Theorem missing_id_is_silent (i : Input) (id : Z) (w : World) (h : Handle) :
  db (guard w) = Some h ->
  rejects (answer_at 0 (script w)) = None ->
  id_absent id (entity_table (entity_of i)) (store w) ->
  (exists w1, update id i w = (Ok tt, w1) /\ store w1 = store w)
  /\ (exists w2, delete (entity_of i) id w = (Ok tt, w2)
                 /\ store w2 = store w).
Proof.
  intros Hdb Ha Hid. cbn in Ha. unfold id_absent in Hid.
  split.
  - destruct i as [m|p|f];
      cbn [update entity_of entity_table] in *;
      cbv [updateMahasiswa updateProdi updateFakultas try_catch bind];
      rewrite getDatabase_ready with (h := h) by exact Hdb;
      cbv [runAsync bind driver ret]; cbn [script now store sql_run];
      destruct (hd default_outcome (script w)); try discriminate;
      cbn [script now store guard calls console];
      rewrite sql_update_absent by (done || reflexivity);
      rewrite set_get_table; eexists; split; reflexivity.
  - destruct i as [m|p|f];
      cbn [delete entity_of entity_table] in *;
      cbv [deleteMahasiswa deleteProdi deleteFakultas try_catch bind];
      rewrite getDatabase_ready with (h := h) by exact Hdb;
      cbv [runAsync bind driver ret]; cbn [script now store sql_run hd];
      destruct (hd default_outcome (script w)); try discriminate;
      cbn [script now store guard calls console];
      rewrite sql_delete_absent by done;
      rewrite set_get_table; eexists; split; reflexivity.
Qed.

Lemma missing_id_is_silent_witness :
  db (guard sample_world) = Some 7
  /\ rejects (answer_at 0 (script sample_world)) = None
  /\ id_absent 9 (entity_table (entity_of (OfProdi akuntansi)))
       (store sample_world)
  /\ (exists w1, update 9 (OfProdi akuntansi) sample_world = (Ok tt, w1)
                 /\ store w1 = store sample_world)
  /\ (exists w2, delete (entity_of (OfProdi akuntansi)) 9 sample_world
                 = (Ok tt, w2)
                 /\ store w2 = store sample_world).
Proof.
  assert (H1 : db (guard sample_world) = Some 7) by reflexivity.
  assert (H2 : rejects (answer_at 0 (script sample_world)) = None)
    by reflexivity.
  assert (H3 : id_absent 9 (entity_table (entity_of (OfProdi akuntansi)))
                 (store sample_world))
    by (repeat constructor; discriminate).
  split; [exact H1|]. split; [exact H2|]. split; [exact H3|].
  exact (missing_id_is_silent (OfProdi akuntansi) 9 sample_world 7 H1 H2 H3).
Defined.

(** ** Keys that are taken *)

Lemma occurrences_pos c s l r :
  In r l -> field c r = SText s ->
  (0 <? occurrences c (SText s) l)%nat = true.
Proof.
  intros Hin Hf. apply Nat.ltb_lt. unfold occurrences.
  assert (Hr : In r (List.filter
                       (fun r => sql_eqb (field c r) (SText s)) l)).
  { apply List.filter_In. split; [done|]. rewrite Hf.
    apply String.eqb_refl. }
  destruct (List.filter _ l); [destruct Hr|simpl; lia].
Qed.

Lemma insert_refuses i ts st r :
  In r (rows (get_table (entity_table (entity_of i)) st)) ->
  field (key_column (entity_of i)) r = SText (key_of i) ->
  sql_run (InsertInto (entity_table (entity_of i)) (columns i)) (params i)
          ts st
  = Throw (constraint_failed "UNIQUE" (entity_table (entity_of i))
             (key_column (entity_of i))).
Proof.
  intros Hin Hf. pose proof (occurrences_pos _ _ _ _ Hin Hf) as Hocc.
  cbn [sql_run]. unfold sql_insert.
  set (tb := get_table _ st) in *.
  rewrite new_row_stored.
  destruct i as [m|p|f]; cbn in Hocc |- *;
    unfold unique_violation; cbn; rewrite Hocc; reflexivity.
Qed.

(** X6. The keys are enforced: on an open database whose driver answers,
    a create whose key (nim, kode_prodi, kode_fakultas) is carried by a
    stored row throws, and every table is as before. *)
Theorem taken_key_is_refused (i : Input) (w : World) (h : Handle) (r : Row) :
  db (guard w) = Some h ->
  rejects (answer_at 0 (script w)) = None ->
  In r (rows (get_table (entity_table (entity_of i)) (store w))) ->
  field (key_column (entity_of i)) r = SText (key_of i) ->
  exists e w', create i w = (Throw e, w') /\ store w' = store w.
Proof.
  intros Hdb Ha Hin Hf. cbn in Ha.
  pose proof (insert_refuses i (now w) (store w) r Hin Hf) as Hrun.
  destruct i as [m|p|f]; cbn [create entity_of entity_table columns params] in *;
    cbv [addMahasiswa addProdi addFakultas try_catch bind console_log];
    rewrite getDatabase_ready with (h := h) by exact Hdb;
    cbv [runAsync bind driver ret console_log]; cbn [script now store];
    destruct (hd default_outcome (script w)); try discriminate;
    cbn [script now store guard calls console];
    rewrite Hrun; do 2 eexists; split; reflexivity.
Qed.

Lemma taken_key_is_refused_witness :
  db (guard sample_world) = Some 7
  /\ rejects (answer_at 0 (script sample_world)) = None
  /\ In (stored_row 1 (OfProdi informatika) sample_time)
        (rows (get_table T_prodi (store sample_world)))
  /\ field "kode_prodi" (stored_row 1 (OfProdi informatika) sample_time)
     = SText "TI"
  /\ exists e w',
       create (OfProdi informatika) sample_world = (Throw e, w')
       /\ store w' = store sample_world.
Proof.
  assert (H1 : db (guard sample_world) = Some 7) by reflexivity.
  assert (H2 : rejects (answer_at 0 (script sample_world)) = None)
    by reflexivity.
  assert (H3 : In (stored_row 1 (OfProdi informatika) sample_time)
                  (rows (get_table T_prodi (store sample_world))))
    by (left; reflexivity).
  assert (H4 : field "kode_prodi"
                 (stored_row 1 (OfProdi informatika) sample_time)
               = SText "TI") by reflexivity.
  split; [exact H1|]. split; [exact H2|]. split; [exact H3|].
  split; [exact H4|].
  exact (taken_key_is_refused (OfProdi informatika) sample_world 7 _
           H1 H2 H3 H4).
Defined.

(** ** The open handle *)

(** X7. Once the database is open, a call neither opens it again nor
    re-runs the schema: whatever the call is and however it ends, it
    sends the driver the one statement of the call on the open handle,
    and the guard is left as it was. *)
Theorem open_database_is_reused {rt : Runtime}
  (c : Call) (w : World) (h : Handle) :
  db (guard w) = Some h ->
  calls (snd (perform c w)) = calls w ++ [statement c h]
  /\ guard (snd (perform c w)) = guard w.
Proof.
  destruct w as [[d p] st nw sc cl co]. cbn [guard db]. intros ->.
  destruct c; open_calls; cbv [getDatabase guard db]; open_calls;
    destruct (hd default_outcome sc) as [v|e];
    try match goal with
      | |- context [sql_run ?q ?ps ?ts ?s] =>
          destruct (sql_run q ps ts s) as [[? ?]|?]
      end;
    try match goal with
      | |- context [head ?l] => destruct (head l)
      end;
    repeat match goal with
      | |- context [if ?b then _ else _] => destruct b
      end;
    split; reflexivity.
Qed.

Lemma open_database_is_reused_witness :
  db (guard sample_world) = Some 7
  /\ calls (snd (perform (SearchProdi "tek") sample_world))
     = calls sample_world ++ [statement (SearchProdi "tek") 7]
  /\ guard (snd (perform (SearchProdi "tek") sample_world))
     = guard sample_world.
Proof.
  split; [reflexivity|].
  apply (open_database_is_reused (SearchProdi "tek") sample_world 7).
  reflexivity.
Defined.

(* ================================================================== *)
(** * 24. What a write does to the listing *)
(* ================================================================== *)

Lemma create_rows i w id w1 :
  create i w = (Ok id, w1) ->
  rows (get_table (entity_table (entity_of i)) (store w1))
  = rows (get_table (entity_table (entity_of i)) (store w))
    ++ [stored_row id i (SText (now w))].
Proof.
  intros Hc. apply create_Ok in Hc as (res & Hrun & -> & _).
  simpl in Hrun. unfold sql_insert in Hrun.
  destruct (negb _); [discriminate|].
  destruct (notnull_violation _ _); [discriminate|].
  destruct (unique_violation _ _ _ _); [discriminate|].
  injection Hrun as <- <-. rewrite get_set_table. simpl.
  by rewrite new_row_stored.
Qed.

Lemma delete_rows e id w u w1 :
  delete e id w = (Ok u, w1) ->
  rows (get_table (entity_table e) (store w1))
  = List.filter (fun r => negb (has_id (SInt id) r))
      (rows (get_table (entity_table e) (store w))).
Proof.
  intros Hd. apply delete_Ok in Hd as (res & Hrun & _).
  simpl in Hrun. injection Hrun as _ <-. by rewrite get_set_table.
Qed.

Lemma update_rows id i w u w1 :
  update id i w = (Ok u, w1) ->
  rows (get_table (entity_table (entity_of i)) (store w1))
  = map (fun r => if has_id (SInt id) r
                  then assign (columns i) (params i ++ [SInt id]) r else r)
      (rows (get_table (entity_table (entity_of i)) (store w))).
Proof.
  intros Hu. apply update_Ok in Hu as (res & Hrun & _).
  simpl in Hrun. unfold sql_update in Hrun.
  destruct (negb _); [discriminate|].
  rewrite List.last_last in Hrun.
  destruct (update_violation _ _ _ _ _ _); [discriminate|].
  injection Hrun as _ <-. by rewrite get_set_table.
Qed.

Lemma id_not_assigned i : ~ In "id" (columns i).
Proof.
  destruct i; cbn; intros H;
    repeat (destruct H as [H|H]; [discriminate|]); exact H.
Qed.

Lemma filter_others_updated id cols ps l :
  ~ In "id" cols ->
  List.filter (fun r => negb (has_id id r))
    (map (fun r => if has_id id r then assign cols ps r else r) l)
  = List.filter (fun r => negb (has_id id r)) l.
Proof.
  intros Hnin. induction l as [|r l IH]; cbn; [done|].
  destruct (has_id id r) eqn:E.
  - unfold has_id in *. rewrite field_assign_other by done.
    rewrite E. cbn. exact IH.
  - rewrite E. cbn. by rewrite IH.
Qed.

(** X8. A create adds exactly its row to the listing: what [getAll]
    returns afterwards is, up to the order, the stored form of the input
    under the returned id together with what [getAll] returned before. *)
Theorem create_lists_one_more (i : Input) (w w1 w2 w3 : World) (id : Z)
  (before after : list Row) :
  getAll (entity_of i) w = (Ok before, w2) ->
  create i w = (Ok id, w1) ->
  getAll (entity_of i) w1 = (Ok after, w3) ->
  Permutation after (stored_row id i (SText (now w)) :: before).
Proof.
  intros Hb Hc Ha.
  apply getAll_Ok in Hb as (-> & _ & _). apply getAll_Ok in Ha as (-> & _ & _).
  rewrite (create_rows _ _ _ _ Hc), !sort_rows_Permutation.
  rewrite Permutation_app_comm. reflexivity.
Qed.

Lemma create_lists_one_more_witness :
  exists w1 w2 w3 before after,
    getAll MahasiswaE sample_world = (Ok before, w2)
    /\ create (OfMahasiswa citra) sample_world = (Ok 3%Z, w1)
    /\ getAll MahasiswaE w1 = (Ok after, w3)
    /\ Permutation after
         (stored_row 3 (OfMahasiswa citra) sample_time :: before).
Proof.
  pose (w1 := snd (create (OfMahasiswa citra) sample_world)).
  pose (b := getAll MahasiswaE sample_world).
  pose (a := getAll MahasiswaE w1).
  pose (before := match fst b with Ok x => x | Throw _ => [] end).
  pose (after := match fst a with Ok x => x | Throw _ => [] end).
  assert (Hb : getAll MahasiswaE sample_world = (Ok before, snd b))
    by reflexivity.
  assert (Hc : create (OfMahasiswa citra) sample_world = (Ok 3%Z, w1))
    by reflexivity.
  assert (Ha : getAll MahasiswaE w1 = (Ok after, snd a)) by reflexivity.
  exists w1, (snd b), (snd a), before, after.
  split; [exact Hb|]. split; [exact Hc|]. split; [exact Ha|].
  exact (create_lists_one_more (OfMahasiswa citra) _ _ _ _ _ _ _ Hb Hc Ha).
Defined.

(** X9. A delete removes from the listing the rows with that id and
    nothing else: what [getAll] returns afterwards is what it returned
    before without those rows, in the same order. *)
Theorem delete_lists_the_rest (e : Entity) (id : Z) (w w1 w2 w3 : World)
  (u : unit) (before after : list Row) :
  getAll e w = (Ok before, w2) ->
  delete e id w = (Ok u, w1) ->
  getAll e w1 = (Ok after, w3) ->
  after = List.filter (fun r => negb (has_id (SInt id) r)) before.
Proof.
  intros Hb Hd Ha.
  apply getAll_Ok in Hb as (-> & _ & _). apply getAll_Ok in Ha as (-> & _ & _).
  rewrite (delete_rows _ _ _ _ _ Hd).
  symmetry. apply filter_sort_rows; [apply asc_total|apply asc_trans].
Qed.

Lemma delete_lists_the_rest_witness :
  exists w1 w2 w3 before after,
    getAll FakultasE sample_world = (Ok before, w2)
    /\ delete FakultasE 2 sample_world = (Ok tt, w1)
    /\ getAll FakultasE w1 = (Ok after, w3)
    /\ after = List.filter (fun r => negb (has_id (SInt 2) r)) before.
Proof.
  pose (w1 := snd (delete FakultasE 2 sample_world)).
  pose (b := getAll FakultasE sample_world).
  pose (a := getAll FakultasE w1).
  pose (before := match fst b with Ok x => x | Throw _ => [] end).
  pose (after := match fst a with Ok x => x | Throw _ => [] end).
  assert (Hb : getAll FakultasE sample_world = (Ok before, snd b))
    by reflexivity.
  assert (Hd : delete FakultasE 2 sample_world = (Ok tt, w1)) by reflexivity.
  assert (Ha : getAll FakultasE w1 = (Ok after, snd a)) by reflexivity.
  exists w1, (snd b), (snd a), before, after.
  split; [exact Hb|]. split; [exact Hd|]. split; [exact Ha|].
  exact (delete_lists_the_rest FakultasE 2 _ _ _ _ _ _ _ Hb Hd Ha).
Defined.

(** X10. An update leaves every row with another id as it is, and in
    the same relative order in the listing. *)
Theorem update_keeps_other_rows (i : Input) (id : Z) (w w1 w2 w3 : World)
  (u : unit) (before after : list Row) :
  getAll (entity_of i) w = (Ok before, w2) ->
  update id i w = (Ok u, w1) ->
  getAll (entity_of i) w1 = (Ok after, w3) ->
  List.filter (fun r => negb (has_id (SInt id) r)) after
  = List.filter (fun r => negb (has_id (SInt id) r)) before.
Proof.
  intros Hb Hu Ha.
  apply getAll_Ok in Hb as (-> & _ & _). apply getAll_Ok in Ha as (-> & _ & _).
  rewrite (update_rows _ _ _ _ _ Hu).
  rewrite !filter_sort_rows by (apply asc_total || apply asc_trans).
  rewrite filter_others_updated by apply id_not_assigned. reflexivity.
Qed.

Lemma update_keeps_other_rows_witness :
  exists w1 w2 w3 before after,
    getAll ProdiE sample_world = (Ok before, w2)
    /\ update 2 (OfProdi akuntansi) sample_world = (Ok tt, w1)
    /\ getAll ProdiE w1 = (Ok after, w3)
    /\ List.filter (fun r => negb (has_id (SInt 2) r)) after
       = List.filter (fun r => negb (has_id (SInt 2) r)) before.
Proof.
  pose (w1 := snd (update 2 (OfProdi akuntansi) sample_world)).
  pose (b := getAll ProdiE sample_world).
  pose (a := getAll ProdiE w1).
  pose (before := match fst b with Ok x => x | Throw _ => [] end).
  pose (after := match fst a with Ok x => x | Throw _ => [] end).
  assert (Hb : getAll ProdiE sample_world = (Ok before, snd b))
    by reflexivity.
  assert (Hu : update 2 (OfProdi akuntansi) sample_world = (Ok tt, w1))
    by reflexivity.
  assert (Ha : getAll ProdiE w1 = (Ok after, snd a)) by reflexivity.
  exists w1, (snd b), (snd a), before, after.
  split; [exact Hb|]. split; [exact Hu|]. split; [exact Ha|].
  exact (update_keeps_other_rows (OfProdi akuntansi) 2 _ _ _ _ _ _ _
           Hb Hu Ha).
Defined.

(* ================================================================== *)
(** * 25. The most recent students *)
(* ================================================================== *)

Lemma desc_total c x y : desc c x y = true \/ desc c y x = true.
Proof. apply sql_leb_total. Qed.

Lemma desc_trans c x y z :
  desc c x y = true -> desc c y z = true -> desc c x z = true.
Proof. unfold desc. intros H1 H2. by eapply sql_leb_trans. Qed.

Lemma sorted_app_inv {A : Type} (R : A -> A -> Prop) (l1 l2 : list A) :
  StronglySorted R (l1 ++ l2) ->
  StronglySorted R l1 /\ Forall (fun x => Forall (R x) l2) l1.
Proof.
  induction l1 as [|x l1 IH]; cbn; intros H.
  - split; constructor.
  - inversion H as [|? ? Hs Hf]; subst.
    apply IH in Hs as [Hs Hc]. apply List.Forall_app in Hf as [Hf1 Hf2].
    split; constructor; done.
Qed.

Lemma getRecentMahasiswa_Ok n w rs w' :
  getRecentMahasiswa n w = (Ok rs, w') ->
  rs = limit (SInt n)
         (sort_rows (desc "created_at")
            (rows (get_table T_mahasiswa (store w))))
  /\ store w' = store w.
Proof.
  intros H. apply select_all_shape_Ok in H as (-> & Hs & _);
    auto using @log_and_rethrow_never_Ok.
Qed.

(** X11. [getRecentMahasiswa(limit)] with a limit that is not negative
    returns [limit] stored students, or all of them when there are fewer:
    the result and the rows left out make up the table, and the result has
    min(limit, number of students) rows. *)
Theorem recent_returns_limit_rows (n : Z) (w w' : World) (rs : list Row) :
  (0 <= n)%Z ->
  getRecentMahasiswa n w = (Ok rs, w') ->
  length rs
  = Nat.min (Z.to_nat n) (length (rows (get_table T_mahasiswa (store w))))
  /\ exists rest,
       Permutation (rs ++ rest) (rows (get_table T_mahasiswa (store w))).
Proof.
  intros Hn H. apply getRecentMahasiswa_Ok in H as [-> _].
  unfold limit. destruct (Z.ltb_spec n 0) as [?|_]; [lia|].
  set (l := rows _). split.
  - rewrite List.length_firstn.
    by rewrite (Permutation_length (sort_rows_Permutation _ l)).
  - exists (skipn (Z.to_nat n) (sort_rows (desc "created_at") l)).
    rewrite List.firstn_skipn. apply sort_rows_Permutation.
Qed.

Lemma recent_returns_limit_rows_witness :
  exists rs w',
    (0 <= 1)%Z
    /\ getRecentMahasiswa 1 sample_world = (Ok rs, w')
    /\ length rs
       = Nat.min (Z.to_nat 1)
           (length (rows (get_table T_mahasiswa (store sample_world))))
    /\ exists rest,
         Permutation (rs ++ rest)
           (rows (get_table T_mahasiswa (store sample_world))).
Proof.
  pose (a := getRecentMahasiswa 1 sample_world).
  pose (rs := match fst a with Ok x => x | Throw _ => [] end).
  assert (Hn : (0 <= 1)%Z) by lia.
  assert (H : getRecentMahasiswa 1 sample_world = (Ok rs, snd a))
    by reflexivity.
  exists rs, (snd a). split; [exact Hn|]. split; [exact H|].
  exact (recent_returns_limit_rows 1 sample_world (snd a) rs Hn H).
Defined.

(** X12. On a table whose rows were stamped by CURRENT_TIMESTAMP, the
    students [getRecentMahasiswa] returns are the most recent ones, most
    recent first: the result is sorted by [created_at] descending, and no
    student left out has a later [created_at] than a returned one. *)
Theorem recent_returns_latest (n : Z) (w w' : World) (rs : list Row) :
  (0 <= n)%Z ->
  timestamps_ok (get_table T_mahasiswa (store w)) ->
  getRecentMahasiswa n w = (Ok rs, w') ->
  StronglySorted (fun x y => desc "created_at" x y = true) rs
  /\ exists rest,
       Permutation (rs ++ rest) (rows (get_table T_mahasiswa (store w)))
       /\ Forall (fun r =>
                    Forall (fun r' =>
                              sql_leb (field "created_at" r')
                                      (field "created_at" r) = true) rest)
                 rs.
Proof.
  intros Hn _ H. apply getRecentMahasiswa_Ok in H as [-> _].
  unfold limit. destruct (Z.ltb_spec n 0) as [?|_]; [lia|].
  set (l := rows _).
  pose proof (sort_rows_sorted (desc "created_at")
                (desc_total "created_at") (desc_trans "created_at") l) as Hs.
  rewrite <- (List.firstn_skipn (Z.to_nat n)) in Hs.
  apply sorted_app_inv in Hs as [Hs Hc]. split; [exact Hs|].
  exists (skipn (Z.to_nat n) (sort_rows (desc "created_at") l)).
  split; [|exact Hc].
  rewrite List.firstn_skipn. apply sort_rows_Permutation.
Qed.

(** The theorem on three students entered in January, March and
    February: with limit 2 the result is the student of March, then the
    student of February. *)
Lemma recent_returns_latest_witness :
  let march := stored_row 2 (OfMahasiswa ani) (SText "2024-03-01 09:30:00") in
  let february :=
    stored_row 3 (OfMahasiswa citra) (SText "2024-02-10 10:15:00") in
  (0 <= 2)%Z
  /\ timestamps_ok (get_table T_mahasiswa (store dated_world))
  /\ exists w',
       getRecentMahasiswa 2 dated_world = (Ok [march; february], w')
       /\ StronglySorted (fun x y => desc "created_at" x y = true)
            [march; february]
       /\ exists rest,
            Permutation ([march; february] ++ rest)
              (rows (get_table T_mahasiswa (store dated_world)))
            /\ Forall (fun r =>
                         Forall (fun r' =>
                                   sql_leb (field "created_at" r')
                                           (field "created_at" r) = true)
                                rest)
                      [march; february].
Proof.
  intros march february.
  pose (a := getRecentMahasiswa 2 dated_world).
  assert (Hn : (0 <= 2)%Z) by lia.
  assert (Ht : timestamps_ok (get_table T_mahasiswa (store dated_world))).
  { repeat constructor; eexists; split; reflexivity. }
  assert (H : getRecentMahasiswa 2 dated_world
              = (Ok [march; february], snd a)) by reflexivity.
  split; [exact Hn|]. split; [exact Ht|].
  exists (snd a). split; [exact H|].
  exact (recent_returns_latest 2 dated_world (snd a) [march; february]
           Hn Ht H).
Defined.

(* ================================================================== *)
(** * 26. Users *)
(* ================================================================== *)

Lemma addUser_Ok {rt : Runtime} user w id w1 :
  addUser user w = (Ok id, w1) ->
  rows (st_users (store w1))
  = rows (st_users (store w)) ++ [user_row id user (now w)]
  /\ occurrences "email" (SText (toLowerCase (User.email user)))
       (rows (st_users (store w))) = 0.
Proof.
  intros H. apply run_shape_Ok in H as (res & Hrun & -> & _);
    auto using @log_and_rethrow_never_Ok.
  cbn [sql_run] in Hrun. unfold sql_insert in Hrun.
  cbn [length Nat.eqb negb] in Hrun.
  destruct (notnull_violation _ _); [discriminate|].
  destruct (unique_violation _ _ _ _) eqn:Hu; [discriminate|].
  injection Hrun as <- <-. split; [reflexivity|].
  unfold unique_violation in Hu. cbn in Hu.
  destruct (occurrences _ _ _); [reflexivity|discriminate].
Qed.

Lemma find_none_occurrences c v l :
  occurrences c v l = 0 ->
  List.find (fun r => sql_eqb (field c r) v) l = None.
Proof.
  unfold occurrences. induction l as [|r l IH]; cbn; [done|].
  destruct (sql_eqb _ _); [discriminate|exact IH].
Qed.

Lemma find_added_user {rt : Runtime} user id ts l :
  occurrences "email" (SText (toLowerCase (User.email user))) l = 0 ->
  List.find
    (fun r => sql_eqb (field "email" r)
                (SText (toLowerCase (User.email user))))
    (l ++ [user_row id user ts])
  = Some (user_row id user ts).
Proof.
  intros H. induction l as [|r l IH]; cbn.
  - cbn. by rewrite String.eqb_refl.
  - unfold occurrences in H. cbn in H.
    destruct (sql_eqb _ _); [discriminate|]. by apply IH.
Qed.

(** X13. A user added by [addUser] is found by [getUserByEmail] under
    the email in any letter case, as the stored row (email in lower
    case); and [authenticateUser] under that email returns this row for
    the password given at [addUser], and null for any other password. *)
Theorem added_user_is_found {rt : Runtime}
  (user : User.t) (email : string) (w w1 : World)
  (id : Z) :
  addUser user w = (Ok id, w1) ->
  toLowerCase email = toLowerCase (User.email user) ->
  (forall r w2, getUserByEmail email w1 = (Ok r, w2) ->
                r = Some (user_row id user (now w)))
  /\ (forall password r w2,
        authenticateUser email password w1 = (Ok r, w2) ->
        r = if (User.password user =? password)%string
            then Some (user_row id user (now w)) else None).
Proof.
  intros Ha He. apply addUser_Ok in Ha as [Hrows Hocc].
  assert (Hfind : forall r w2, getUserByEmail email w1 = (Ok r, w2) ->
                               r = Some (user_row id user (now w))).
  { intros r w2 Hg. apply getUserByEmail_Ok in Hg as [-> _].
    rewrite Hrows, He. by apply find_added_user. }
  split; [exact Hfind|].
  intros password r w2. unfold authenticateUser, try_catch, bind.
  destruct (getUserByEmail email w1) as [[u|e] w'] eqn:Hg; [|discriminate].
  rewrite (Hfind _ _ eq_refl). unfold ret. cbn [field strict_eq user_row].
  cbn. by intros [= <- _].
Qed.

Lemma added_user_is_found_witness :
  exists w1,
    addUser sample_user sample_world = (Ok 2%Z, w1)
    /\ toLowerCase "DEWI@kampus.id" = toLowerCase (User.email sample_user)
    /\ (forall r w2, getUserByEmail "DEWI@kampus.id" w1 = (Ok r, w2) ->
                     r = Some (user_row 2 sample_user (now sample_world)))
    /\ (forall password r w2,
          authenticateUser "DEWI@kampus.id" password w1 = (Ok r, w2) ->
          r = if (User.password sample_user =? password)%string
              then Some (user_row 2 sample_user (now sample_world))
              else None).
Proof.
  pose (w1 := snd (addUser sample_user sample_world)).
  assert (Ha : addUser sample_user sample_world = (Ok 2%Z, w1))
    by reflexivity.
  assert (He : toLowerCase "DEWI@kampus.id"
               = toLowerCase (User.email sample_user)) by reflexivity.
  exists w1. split; [exact Ha|]. split; [exact He|].
  exact (added_user_is_found sample_user "DEWI@kampus.id" sample_world w1 2
           Ha He).
Defined.

(** X14. An email is taken whatever its letter case: on an open database
    whose driver answers, when a stored user has the lower-case form of the
    new user's email, [addUser] throws and every table is as before. *)
Theorem taken_email_is_refused {rt : Runtime} (user : User.t) (w : World)
  (h : Handle) (r : Row) :
  db (guard w) = Some h ->
  rejects (answer_at 0 (script w)) = None ->
  In r (rows (st_users (store w))) ->
  field "email" r = SText (toLowerCase (User.email user)) ->
  exists e w', addUser user w = (Throw e, w') /\ store w' = store w.
Proof.
  intros Hdb Ha Hin Hf. cbn in Ha.
  pose proof (occurrences_pos _ _ _ _ Hin Hf) as Hocc.
  cbv [addUser try_catch bind log_and_rethrow console_error throw].
  rewrite getDatabase_ready with (h := h) by exact Hdb.
  cbv [runAsync bind driver ret]. cbn [script now store].
  destruct (hd default_outcome (script w)); try discriminate.
  cbn [script now store guard calls console sql_run get_table].
  unfold sql_insert. cbn [length Nat.eqb negb].
  unfold notnull_violation, unique_violation. cbn.
  destruct (occurrences "email" _ _) as [|k]; [discriminate|]. cbn.
  do 2 eexists; split; reflexivity.
Qed.

Lemma taken_email_is_refused_witness :
  db (guard sample_world) = Some 7
  /\ rejects (answer_at 0 (script sample_world)) = None
  /\ In [ ("id", SInt 1); ("name", SText "A");
          ("email", SText "a@x.com"); ("password", SText "p");
          ("created_at", sample_time) ]
        (rows (st_users (store sample_world)))
  /\ exists e w',
       addUser (User.make "B" "A@X.COM" "q") sample_world = (Throw e, w')
       /\ store w' = store sample_world.
Proof.
  assert (H1 : db (guard sample_world) = Some 7) by reflexivity.
  assert (H2 : rejects (answer_at 0 (script sample_world)) = None)
    by reflexivity.
  assert (H3 : In [ ("id", SInt 1); ("name", SText "A");
                    ("email", SText "a@x.com"); ("password", SText "p");
                    ("created_at", sample_time) ]
                  (rows (st_users (store sample_world))))
    by (left; reflexivity).
  split; [exact H1|]. split; [exact H2|]. split; [exact H3|].
  exact (taken_email_is_refused (User.make "B" "A@X.COM" "q") sample_world 7
           _ H1 H2 H3 eq_refl).
Defined.

Lemma filter_at_most_one {A : Type} (P : A -> bool) (l : list A) (a b : A) :
  length (List.filter P l) <= 1 ->
  In a l -> In b l -> P a = true -> P b = true -> a = b.
Proof.
  intros Hlen Ha Hb Pa Pb.
  assert (Hin : forall x, In x l -> P x = true -> In x (List.filter P l)).
  { intros x Hx Px. apply List.filter_In. by split. }
  pose proof (Hin a Ha Pa) as Ia. pose proof (Hin b Hb Pb) as Ib.
  destruct (List.filter P l) as [|x [|y l']]; cbn in *; [done| |lia].
  destruct Ia as [<-|[]], Ib as [<-|[]]. reflexivity.
Qed.

Lemma deleteUser_Ok id w u w1 :
  deleteUser id w = (Ok u, w1) ->
  rows (st_users (store w1))
  = List.filter (fun r => negb (has_id (SInt id) r))
      (rows (st_users (store w))).
Proof.
  intros H.
  apply (run_shape_Ok (fun _ => tt)) in H as (res & Hrun & _ & _);
    auto using @log_and_rethrow_never_Ok.
  cbn in Hrun. by injection Hrun as _ <-.
Qed.

(** X15. On tables that satisfy the integrity invariant, deleting a
    user by the id of the row found under an email frees that email:
    [getUserByEmail] then returns null for it. *)
Theorem deleted_user_is_gone {rt : Runtime}
  (email : string) (id : Z) (w w0 w1 w2 : World)
  (r : Row) (r' : option Row) (u : unit) :
  store_inv (store w) ->
  getUserByEmail email w = (Ok (Some r), w0) ->
  field "id" r = SInt id ->
  deleteUser id w = (Ok u, w1) ->
  getUserByEmail email w1 = (Ok r', w2) ->
  r' = None.
Proof.
  intros [_ Hinv] Hg Hid Hd Hg'.
  destruct (Hinv T_users) as [_ Hu]. cbn [get_table] in Hu.
  specialize (Hu (mkColumn "email" true true NoDefault)
                 (SText (toLowerCase email))).
  cbn [col_name col_unique] in Hu.
  assert (Hocc : occurrences "email" (SText (toLowerCase email))
                   (rows (st_users (store w))) <= 1).
  { apply Hu; [cbn; auto|reflexivity]. }
  apply getUserByEmail_Ok in Hg as [Hf _].
  apply getUserByEmail_Ok in Hg' as [-> _].
  rewrite (deleteUser_Ok _ _ _ _ Hd).
  symmetry in Hf. apply List.find_some in Hf as [Hin Hp].
  destruct (List.find _ _) as [r2|] eqn:Hf2; [|done]. exfalso.
  apply List.find_some in Hf2 as [Hin2 Hp2].
  apply List.filter_In in Hin2 as [Hin2 Hne].
  assert (r = r2) as <-.
  { by apply (filter_at_most_one
                (fun r => sql_eqb (field "email" r)
                            (SText (toLowerCase email)))
                (rows (st_users (store w)))). }
  unfold has_id in Hne. rewrite Hid in Hne. cbn in Hne.
  by rewrite Z.eqb_refl in Hne.
Qed.

Lemma deleted_user_is_gone_witness :
  let w := snd (addUser sample_user (ready_world 7 empty_store [])) in
  store_inv (store w)
  /\ exists w0 w1 w2,
       getUserByEmail "dewi@kampus.id" w
       = (Ok (Some (user_row 1 sample_user "2024-01-01 00:00:00")), w0)
       /\ deleteUser 1 w = (Ok tt, w1)
       /\ getUserByEmail "dewi@kampus.id" w1 = (Ok None, w2).
Proof.
  intros w.
  assert (Hinv : store_inv (store w)).
  { apply (perform_store_inv (AddUser sample_user)
             (ready_world 7 empty_store [])).
    exact store_inv_empty. }
  pose (w1 := snd (deleteUser 1 w)).
  pose (a := getUserByEmail "dewi@kampus.id" w1).
  pose (r' := match fst a with Ok x => x | Throw _ => None end).
  assert (Hg : getUserByEmail "dewi@kampus.id" w
               = (Ok (Some (user_row 1 sample_user "2024-01-01 00:00:00")),
                  snd (getUserByEmail "dewi@kampus.id" w)))
    by reflexivity.
  assert (Hd : deleteUser 1 w = (Ok tt, w1)) by reflexivity.
  assert (Hg' : getUserByEmail "dewi@kampus.id" w1 = (Ok r', snd a))
    by reflexivity.
  split; [exact Hinv|].
  exists (snd (getUserByEmail "dewi@kampus.id" w)), w1, (snd a).
  split; [exact Hg|]. split; [exact Hd|].
  pose proof (deleted_user_is_gone "dewi@kampus.id" 1 w _ w1 (snd a) _ r' tt
                Hinv Hg eq_refl Hd Hg') as Hr.
  rewrite Hr in Hg'. exact Hg'.
Defined.

(* ================================================================== *)
(** * 27. The first call on a closed database *)
(* ================================================================== *)

Lemma run_attempt_calls {P : Type} (g : Guard P) os h :
  failing_step os = None ->
  answer_at 0 os = Resolve (Some h) ->
  run_attempt 7 AwaitOpen g os
  = (Fulfilled h, mkGuard (Some h) (initPromise g), tl (schema_calls h),
     tl (tl (tl (tl (tl (tl os)))))).
Proof.
  unfold failing_step. cbn [answer_at run_attempt pending resume].
  intros Hf H0. rewrite H0 in Hf |- *. revert Hf.
  walk_attempt; intros [=]; reflexivity.
Qed.

Lemma initDatabase_cold w h :
  guard w = uninitialized ->
  failing_step (script w) = None ->
  answer_at 0 (script w) = Resolve (Some h) ->
  exists w1,
    initDatabase w = (Ok h, w1)
    /\ guard w1 = mkGuard (Some h) (Some (Ok h))
    /\ calls w1 = calls w ++ schema_calls h
    /\ store w1 = store w /\ now w1 = now w
    /\ script w1 = tl (tl (tl (tl (tl (tl (script w)))))).
Proof.
  intros Hg Hf H0.
  destruct (initDatabase_run_attempt w Hg)
    as (r & w' & cs & Hi & Hrun & Hc & Hs & Hn).
  rewrite (run_attempt_calls _ _ _ Hf H0) in Hrun.
  injection Hrun as Hr Hg' <- Hsc.
  assert (r = Ok h) as -> by (apply settled_as_inj; by rewrite <- Hr).
  exists w'. by repeat split.
Qed.

Lemma getDatabase_cold w h :
  guard w = uninitialized ->
  failing_step (script w) = None ->
  answer_at 0 (script w) = Resolve (Some h) ->
  exists w1,
    getDatabase w = (Ok h, w1)
    /\ guard w1 = mkGuard (Some h) (Some (Ok h))
    /\ calls w1 = calls w ++ schema_calls h
    /\ store w1 = store w /\ now w1 = now w.
Proof.
  intros Hg Hf H0. unfold getDatabase. rewrite Hg.
  cbn [db uninitialized]. unfold bind at 1. unfold console_log at 1.
  set (w0 := mkWorld _ _ _ _ _ _).
  destruct (initDatabase_cold w0 h Hg Hf H0)
    as (w1 & Hi & Hg1 & Hc1 & Hs1 & Hn1 & _).
  unfold bind. rewrite Hi. exists w1. by repeat split.
Qed.

(** X16. The database is opened by the first call that needs it: on a
    closed database, when no step of the initialization fails, any of the
    exported calls first opens "mahasiswa.db" and runs the five schema
    statements on the new handle, then sends its own statement on that
    handle, and leaves the guard ready. *)
Theorem first_call_initializes {rt : Runtime}
  (c : Call) (w : World) (h : Handle) :
  guard w = uninitialized ->
  failing_step (script w) = None ->
  answer_at 0 (script w) = Resolve (Some h) ->
  calls (snd (perform c w))
  = calls w ++ schema_calls h ++ [statement c h]
  /\ guard (snd (perform c w)) = mkGuard (Some h) (Some (Ok h)).
Proof.
  intros Hg Hf H0.
  destruct c; open_calls;
    match goal with
    | |- context [getDatabase ?w0] =>
        destruct (getDatabase_cold w0 h Hg Hf H0)
          as (w1 & -> & Hg1 & Hc1 & _)
    end;
    cbn [calls] in Hc1;
    destruct w1 as [g1 st1 nw1 sc1 cl1 co1];
    cbn [guard calls] in Hg1, Hc1; subst g1 cl1;
    cbn [guard store now script calls console db initPromise];
    destruct (hd default_outcome sc1) as [v|e];
    try match goal with
      | |- context [sql_run ?q ?ps ?ts ?s] =>
          destruct (sql_run q ps ts s) as [[? ?]|?]
      end;
    try match goal with
      | |- context [head ?l] => destruct (head l)
      end;
    repeat match goal with
      | |- context [if ?b then _ else _] => destruct b
      end;
    cbn [snd calls guard]; rewrite <- ?app_assoc; split; reflexivity.
Qed.

Lemma first_call_initializes_witness :
  guard (boot duplicate_column_answers) = uninitialized
  /\ failing_step (script (boot duplicate_column_answers)) = None
  /\ answer_at 0 (script (boot duplicate_column_answers)) = Resolve (Some 7)
  /\ calls (snd (perform (AddFakultas teknik) (boot duplicate_column_answers)))
     = calls (boot duplicate_column_answers)
       ++ schema_calls 7 ++ [statement (AddFakultas teknik) 7]
  /\ guard (snd (perform (AddFakultas teknik) (boot duplicate_column_answers)))
     = mkGuard (Some 7) (Some (Ok 7)).
Proof.
  assert (H1 : guard (boot duplicate_column_answers) = uninitialized)
    by reflexivity.
  assert (H2 : failing_step (script (boot duplicate_column_answers)) = None)
    by reflexivity.
  assert (H3 : answer_at 0 (script (boot duplicate_column_answers))
               = Resolve (Some 7)) by reflexivity.
  split; [exact H1|]. split; [exact H2|]. split; [exact H3|].
  exact (first_call_initializes (AddFakultas teknik)
           (boot duplicate_column_answers) 7 H1 H2 H3).
Defined.

(* ================================================================== *)
(** * 28. Properties of the authentication provider *)
(* ================================================================== *)

Ltac open_auth :=
  cbv [AuthContext.login AuthContext.register AuthContext.logout
       AuthContext.loadSession AuthContext.persistUser
       AuthContext.ui_try AuthContext.ui_bind AuthContext.ui_ret
       AuthContext.ui_finally AuthContext.lift AuthContext.setUser
       AuthContext.setInitializing AuthContext.getItemAsync
       AuthContext.setItemAsync AuthContext.deleteItemAsync
       AuthContext.secure_call console_error];
  cbn [AuthContext.world AuthContext.user AuthContext.initializing
       AuthContext.items AuthContext.secure fst snd].

Lemma getUserByEmail_ready {rt : Runtime} email w h :
  db (guard w) = Some h ->
  rejects (answer_at 0 (script w)) = None ->
  getUserByEmail email w
  = (Ok (List.find
           (fun u => sql_eqb (field "email" u) (SText (toLowerCase email)))
           (rows (st_users (store w)))),
     mkWorld (guard w) (store w) (now w) (tl (script w))
       (calls w ++ [GetFirstAsync h (SelectByColumn T_users "email")
                      [SText (toLowerCase email)]])
       (console w)).
Proof.
  intros Hdb Ha. cbn in Ha.
  cbv [getUserByEmail try_catch bind].
  rewrite (getDatabase_ready w h Hdb).
  cbv [getFirstAsync bind driver ret]. cbn [script calls guard store now console].
  destruct (hd default_outcome (script w)); [|discriminate].
  cbn [sql_select hd get_table]. by rewrite head_filter_find.
Qed.

Lemma authenticateUser_ready {rt : Runtime} email password w h :
  db (guard w) = Some h ->
  rejects (answer_at 0 (script w)) = None ->
  authenticateUser email password w
  = (Ok (matching_user email password (store w)),
     mkWorld (guard w) (store w) (now w) (tl (script w))
       (calls w ++ [GetFirstAsync h (SelectByColumn T_users "email")
                      [SText (toLowerCase email)]])
       (console w)).
Proof.
  intros Hdb Ha. unfold authenticateUser, try_catch, bind at 1.
  rewrite (getUserByEmail_ready email w h Hdb Ha). unfold matching_user.
  by destruct (List.find _ _).
Qed.

Lemma addUser_ready {rt : Runtime} user w h :
  db (guard w) = Some h ->
  rejects (answer_at 0 (script w)) = None ->
  List.find
    (fun u => sql_eqb (field "email" u)
                (SText (toLowerCase (User.email user))))
    (rows (st_users (store w))) = None ->
  exists w',
    addUser user w = (Ok (next_rowid (st_users (store w))), w')
    /\ rows (st_users (store w'))
       = rows (st_users (store w))
         ++ [user_row (next_rowid (st_users (store w))) user (now w)]
    /\ guard w' = guard w /\ now w' = now w
    /\ script w' = tl (script w).
Proof.
  intros Hdb Ha Hnone. cbn in Ha.
  assert (Hocc : occurrences "email" (SText (toLowerCase (User.email user)))
                   (rows (st_users (store w))) = 0).
  { unfold occurrences. rewrite filter_none; [done|].
    intros r Hr. destruct (sql_eqb _ _) eqn:E; [|done].
    by pose proof (List.find_none _ _ Hnone r Hr) as Hn; cbn in Hn;
      rewrite E in Hn. }
  cbv [addUser try_catch bind].
  rewrite (getDatabase_ready w h Hdb).
  cbv [runAsync bind driver ret]. cbn [script now store].
  destruct (hd default_outcome (script w)); try discriminate.
  cbn [script now store guard calls console sql_run get_table].
  unfold sql_insert. cbn [length Nat.eqb negb].
  unfold notnull_violation, unique_violation. cbn.
  rewrite Hocc. cbn. eexists. repeat split; reflexivity.
Qed.

(** X17. The helpers of the provider never throw: whatever the database
    and SecureStore do, [login] and [register] return a result object,
    and [logout] and the session restore return normally. *)
Theorem auth_helpers_never_throw {rt : Runtime} (stringify : Row -> string)
  (parse : string -> Res (option AuthContext.UserValue)) (a : AuthContext.App)
  (name email password : string) :
  (exists r, fst (AuthContext.login stringify email password a) = Ok r)
  /\ (exists r, fst (AuthContext.register name email password a) = Ok r)
  /\ fst (AuthContext.logout stringify a) = Ok tt
  /\ fst (AuthContext.loadSession parse a) = Ok tt.
Proof.
  repeat split.
  - unfold AuthContext.login, AuthContext.ui_try.
    destruct (AuthContext.ui_bind _ _ a) as [[r|e] a']; [by exists r|].
    open_auth. eauto.
  - unfold AuthContext.register, AuthContext.ui_try.
    destruct (AuthContext.ui_bind _ _ a) as [[r|e] a']; [by exists r|].
    open_auth. eauto.
  - unfold AuthContext.logout, AuthContext.ui_try.
    destruct (AuthContext.ui_bind _ _ a) as [[[]|e] a']; [done|].
    by open_auth.
  - unfold AuthContext.loadSession, AuthContext.ui_finally, AuthContext.ui_try.
    destruct (AuthContext.ui_bind _ _ a) as [[[]|e] a']; [done|].
    by open_auth.
Qed.

Lemma login_cases {rt : Runtime}
  (stringify : Row -> string) (email password : string)
  (a : AuthContext.App) (h : Handle) :
  db (guard (AuthContext.world a)) = Some h ->
  rejects (answer_at 0 (script (AuthContext.world a))) = None ->
  let r := fst (AuthContext.login stringify email password a) in
  let a' := snd (AuthContext.login stringify email password a) in
  match matching_user email password (store (AuthContext.world a)) with
  | None =>
      r = Ok (AuthContext.mkAuthResult false (Some "Email atau password salah"))
      /\ AuthContext.user a' = AuthContext.user a
      /\ AuthContext.items a' = AuthContext.items a
  | Some u =>
      AuthContext.user a' = Some (AuthContext.UserRow u)
      /\ match hd None (AuthContext.secure a) with
         | None =>
             r = Ok (AuthContext.mkAuthResult true None)
             /\ AuthContext.get_item AuthContext.SESSION_KEY
                  (AuthContext.items a') = Some (stringify u)
         | Some _ =>
             r = Ok (AuthContext.mkAuthResult false
                       (Some "Terjadi kesalahan saat login"))
             /\ AuthContext.items a' = AuthContext.items a
         end
  end.
Proof.
  intros Hdb Ha. cbv zeta. open_auth.
  rewrite (authenticateUser_ready email password _ h Hdb Ha).
  destruct (matching_user _ _ _) as [u|]; cbn; [|done].
  destruct (hd None (AuthContext.secure a)); cbn; by repeat split.
Qed.

(** X18. [login] on an open database whose driver answers. With wrong
    credentials it reports "Email atau password salah" and changes neither
    [user] nor the session. With the credentials of a stored user it sets
    [user] to that row; when SecureStore then accepts the session it
    stores the row's JSON text under the session key and reports success,
    and when SecureStore rejects it reports "Terjadi kesalahan saat login"
    although [user] stays set. *)
Theorem login_outcome {rt : Runtime}
  (stringify : Row -> string) (email password : string)
  (a : AuthContext.App) (h : Handle) :
  db (guard (AuthContext.world a)) = Some h ->
  rejects (answer_at 0 (script (AuthContext.world a))) = None ->
  let r := fst (AuthContext.login stringify email password a) in
  let a' := snd (AuthContext.login stringify email password a) in
  match matching_user email password (store (AuthContext.world a)) with
  | None =>
      r = Ok (AuthContext.mkAuthResult false (Some "Email atau password salah"))
      /\ AuthContext.user a' = AuthContext.user a
      /\ AuthContext.items a' = AuthContext.items a
  | Some u =>
      AuthContext.user a' = Some (AuthContext.UserRow u)
      /\ match hd None (AuthContext.secure a) with
         | None =>
             r = Ok (AuthContext.mkAuthResult true None)
             /\ AuthContext.get_item AuthContext.SESSION_KEY
                  (AuthContext.items a') = Some (stringify u)
         | Some _ =>
             r = Ok (AuthContext.mkAuthResult false
                       (Some "Terjadi kesalahan saat login"))
             /\ AuthContext.items a' = AuthContext.items a
         end
  end.
Proof. exact (login_cases stringify email password a h). Qed.


Lemma login_outcome_witness :
  db (guard (AuthContext.world AuthContext.sample_app)) = Some 7
  /\ rejects (answer_at 0 (script (AuthContext.world AuthContext.sample_app)))
     = None
  /\ let r := fst (AuthContext.login sample_stringify "A@X.com" "p"
                     AuthContext.sample_app) in
     let a' := snd (AuthContext.login sample_stringify "A@X.com" "p"
                      AuthContext.sample_app) in
     let u := [ ("id", SInt 1); ("name", SText "A");
                ("email", SText "a@x.com"); ("password", SText "p");
                ("created_at", sample_time) ] in
     AuthContext.user a' = Some (AuthContext.UserRow u)
     /\ r = Ok (AuthContext.mkAuthResult true None)
     /\ AuthContext.get_item AuthContext.SESSION_KEY (AuthContext.items a')
        = Some (sample_stringify u).
Proof.
  split; [reflexivity|]. split; [reflexivity|].
  exact (login_outcome sample_stringify "A@X.com" "p"
           AuthContext.sample_app 7 eq_refl eq_refl).
Defined.

(** X19. [register] on an open database whose driver answers. When a
    stored user has the email (compared in lower case) it reports "Email
    sudah terdaftar, gunakan email lain" and the users table is unchanged;
    otherwise it reports success and the table has one more row: the new
    user with the next id, the email in lower case and the insertion
    timestamp. In both cases nobody is logged in by it: [user] and the
    session are unchanged. *)
Theorem register_outcome {rt : Runtime} (name email password : string)
  (a : AuthContext.App) (h : Handle) :
  db (guard (AuthContext.world a)) = Some h ->
  rejects (answer_at 0 (script (AuthContext.world a))) = None ->
  rejects (answer_at 1 (script (AuthContext.world a))) = None ->
  let r := fst (AuthContext.register name email password a) in
  let a' := snd (AuthContext.register name email password a) in
  let users := st_users (store (AuthContext.world a)) in
  AuthContext.user a' = AuthContext.user a
  /\ AuthContext.items a' = AuthContext.items a
  /\ match List.find
             (fun u => sql_eqb (field "email" u) (SText (toLowerCase email)))
             (rows users) with
     | Some _ =>
         r = Ok (AuthContext.mkAuthResult false
                   (Some "Email sudah terdaftar, gunakan email lain"))
         /\ store (AuthContext.world a') = store (AuthContext.world a)
     | None =>
         r = Ok (AuthContext.mkAuthResult true None)
         /\ rows (st_users (store (AuthContext.world a')))
            = rows users
              ++ [user_row (next_rowid users)
                    (User.make name email password)
                    (now (AuthContext.world a))]
     end.
Proof.
  intros Hdb H0 H1. cbv zeta. open_auth.
  rewrite (getUserByEmail_ready email _ h Hdb H0).
  destruct (List.find _ _) as [u|] eqn:Hf; cbn; [done|].
  set (w1 := mkWorld _ _ _ _ _ _).
  destruct (addUser_ready (User.make name email password) w1 h)
    as (w2 & -> & Hrows & _); [exact Hdb|exact H1|exact Hf|].
  cbn. by rewrite Hrows.
Qed.

Lemma register_outcome_witness :
  db (guard (AuthContext.world AuthContext.sample_app)) = Some 7
  /\ rejects (answer_at 0 (script (AuthContext.world AuthContext.sample_app)))
     = None
  /\ rejects (answer_at 1 (script (AuthContext.world AuthContext.sample_app)))
     = None
  /\ let r := fst (AuthContext.register "B" "A@X.COM" "q"
                     AuthContext.sample_app) in
     let a' := snd (AuthContext.register "B" "A@X.COM" "q"
                      AuthContext.sample_app) in
     AuthContext.user a' = None
     /\ AuthContext.items a' = []
     /\ r = Ok (AuthContext.mkAuthResult false
                  (Some "Email sudah terdaftar, gunakan email lain"))
     /\ store (AuthContext.world a') = sample_store.
Proof.
  split; [reflexivity|]. split; [reflexivity|]. split; [reflexivity|].
  exact (register_outcome "B" "A@X.COM" "q" AuthContext.sample_app 7
           eq_refl eq_refl eq_refl).
Defined.

(** X20. A registered user can log in: after a successful [register] on
    an open database, [login] with the same email in any letter case and
    the same password, the driver and SecureStore answering, reports
    success and sets [user] to the new row. *)
Theorem registered_user_logs_in {rt : Runtime} (stringify : Row -> string)
  (name email email' password : string) (a : AuthContext.App) (h : Handle) :
  db (guard (AuthContext.world a)) = Some h ->
  rejects (answer_at 0 (script (AuthContext.world a))) = None ->
  rejects (answer_at 1 (script (AuthContext.world a))) = None ->
  rejects (answer_at 2 (script (AuthContext.world a))) = None ->
  hd None (AuthContext.secure a) = None ->
  toLowerCase email' = toLowerCase email ->
  fst (AuthContext.register name email password a)
  = Ok (AuthContext.mkAuthResult true None) ->
  let a1 := snd (AuthContext.register name email password a) in
  let row := user_row (next_rowid (st_users (store (AuthContext.world a))))
               (User.make name email password)
               (now (AuthContext.world a)) in
  fst (AuthContext.login stringify email' password a1)
  = Ok (AuthContext.mkAuthResult true None)
  /\ AuthContext.user (snd (AuthContext.login stringify email' password a1))
     = Some (AuthContext.UserRow row).
Proof.
  intros Hdb H0 H1 H2 Hs He. cbv zeta. open_auth.
  rewrite (getUserByEmail_ready email _ h Hdb H0).
  destruct (List.find _ _) as [u|] eqn:Hf; cbn; [discriminate|]. intros _.
  set (w1 := mkWorld _ _ _ _ _ _).
  destruct (addUser_ready (User.make name email password) w1 h)
    as (w2 & -> & Hrows & Hg2 & _ & Hsc2); [exact Hdb|exact H1|exact Hf|].
  cbn [fst snd AuthContext.world AuthContext.user AuthContext.secure
       AuthContext.items AuthContext.initializing].
  assert (Hdb2 : db (guard w2) = Some h) by (by rewrite Hg2).
  assert (Ha2 : rejects (answer_at 0 (script w2)) = None).
  { rewrite Hsc2. exact H2. }
  rewrite (authenticateUser_ready email' password w2 h Hdb2 Ha2).
  unfold matching_user. rewrite Hrows, He.
  assert (Hocc : occurrences "email" (SText (toLowerCase email))
                   (rows (st_users (store (AuthContext.world a)))) = 0).
  { unfold occurrences. rewrite filter_none; [done|].
    intros r Hr. destruct (sql_eqb _ _) eqn:E; [|done].
    by pose proof (List.find_none _ _ Hf r Hr) as Hn; cbn in Hn;
      rewrite E in Hn. }
  rewrite (find_added_user (User.make name email password) _ _ _ Hocc).
  cbn [field user_row strict_eq User.password]. cbn.
  rewrite String.eqb_refl. cbn. rewrite Hs. by cbn.
Qed.

Lemma registered_user_logs_in_witness :
  let a1 := snd (AuthContext.register "Dewi" "Dewi@Kampus.ID" "rahasia"
                   AuthContext.sample_app) in
  fst (AuthContext.register "Dewi" "Dewi@Kampus.ID" "rahasia"
         AuthContext.sample_app)
  = Ok (AuthContext.mkAuthResult true None)
  /\ fst (AuthContext.login sample_stringify "dewi@kampus.id" "rahasia" a1)
     = Ok (AuthContext.mkAuthResult true None)
  /\ AuthContext.user
       (snd (AuthContext.login sample_stringify "dewi@kampus.id" "rahasia" a1))
     = Some (AuthContext.UserRow
               (user_row 2 sample_user "2024-01-01 00:00:00")).
Proof.
  intros a1.
  assert (H : fst (AuthContext.register "Dewi" "Dewi@Kampus.ID" "rahasia"
                     AuthContext.sample_app)
              = Ok (AuthContext.mkAuthResult true None)) by reflexivity.
  split; [exact H|].
  exact (registered_user_logs_in sample_stringify "Dewi" "Dewi@Kampus.ID"
           "dewi@kampus.id" "rahasia" AuthContext.sample_app 7
           eq_refl eq_refl eq_refl eq_refl eq_refl eq_refl H).
Defined.

(** X21. [logout] always clears [user]. When SecureStore lets the call
    through the session item is deleted as well; when SecureStore rejects,
    the error is only logged and the stored session stays. *)
Theorem logout_outcome (stringify : Row -> string) (a : AuthContext.App) :
  let a' := snd (AuthContext.logout stringify a) in
  AuthContext.user a' = None
  /\ store (AuthContext.world a') = store (AuthContext.world a)
  /\ match hd None (AuthContext.secure a) with
     | None =>
         AuthContext.get_item AuthContext.SESSION_KEY (AuthContext.items a')
         = None
     | Some e =>
         AuthContext.items a' = AuthContext.items a
         /\ In (ConsoleError "Error during logout:" e)
               (console (AuthContext.world a'))
     end.
Proof.
  cbv zeta. open_auth.
  destruct (hd None (AuthContext.secure a)) as [e|]; cbn.
  - repeat split. apply List.in_app_iff. right. by left.
  - repeat split. unfold AuthContext.get_item, AuthContext.remove_item.
    destruct (List.find _ _) as [[k v]|] eqn:Hf; [|done].
    apply List.find_some in Hf as [Hin Hk].
    apply List.filter_In in Hin as [_ Hne]. cbn in *.
    by rewrite Hk in Hne.
Qed.

Lemma loadSession_cases (parse : string -> Res (option AuthContext.UserValue))
  (a : AuthContext.App) :
  let a' := snd (AuthContext.loadSession parse a) in
  AuthContext.initializing a' = false
  /\ (forall e w',
        initDatabase (AuthContext.world a) = (Throw e, w') ->
        AuthContext.user a' = AuthContext.user a
        /\ AuthContext.secure a' = AuthContext.secure a)
  /\ (forall h w',
        initDatabase (AuthContext.world a) = (Ok h, w') ->
        hd None (AuthContext.secure a) = None ->
        match AuthContext.get_item AuthContext.SESSION_KEY
                (AuthContext.items a) with
        | Some text =>
            if (text =? "")%string
            then AuthContext.user a' = AuthContext.user a
            else match parse text with
                 | Ok u => AuthContext.user a' = u
                 | Throw _ => AuthContext.user a' = AuthContext.user a
                 end
        | None => AuthContext.user a' = AuthContext.user a
        end).
Proof.
  cbv zeta. open_auth.
  destruct (initDatabase (AuthContext.world a)) as [[h|e] w'] eqn:Hi; cbn.
  - destruct (hd None (AuthContext.secure a)) as [e|] eqn:Hs; cbn.
    { split; [done|]. split; [done|]. intros ? ? _ [=]. }
    destruct (AuthContext.get_item _ _) as [text|] eqn:Hitem; cbn;
      [destruct (text =? "")%string eqn:Ht; cbn;
         [|destruct (parse text) as [u|e] eqn:Hp; cbn]|];
      by repeat split.
  - split; [done|]. split; [|done]. by intros ? ? [= <- <-].
Qed.

(** X22. The session restore always ends with [initializing] false.
    When [initDatabase] throws, SecureStore is not consulted and [user] is
    unchanged. When the database initializes and SecureStore answers,
    [user] becomes what [JSON.parse] makes of the stored text if there is
    a non-empty one and it parses; it is unchanged when there is no stored
    text, when the text is empty, or when [JSON.parse] throws. *)
Theorem session_restore (parse : string -> Res (option AuthContext.UserValue))
  (a : AuthContext.App) :
  let a' := snd (AuthContext.loadSession parse a) in
  AuthContext.initializing a' = false
  /\ (forall e w',
        initDatabase (AuthContext.world a) = (Throw e, w') ->
        AuthContext.user a' = AuthContext.user a
        /\ AuthContext.secure a' = AuthContext.secure a)
  /\ (forall h w',
        initDatabase (AuthContext.world a) = (Ok h, w') ->
        hd None (AuthContext.secure a) = None ->
        match AuthContext.get_item AuthContext.SESSION_KEY
                (AuthContext.items a) with
        | Some text =>
            if (text =? "")%string
            then AuthContext.user a' = AuthContext.user a
            else match parse text with
                 | Ok u => AuthContext.user a' = u
                 | Throw _ => AuthContext.user a' = AuthContext.user a
                 end
        | None => AuthContext.user a' = AuthContext.user a
        end).
Proof. exact (loadSession_cases parse a). Qed.

Lemma session_restore_witness :
  let a := AuthContext.mkApp sample_world None true
             [(AuthContext.SESSION_KEY, "{}")] [] in
  let parse := fun _ : string => Ok (Some (AuthContext.OtherValue "{}")) in
  AuthContext.initializing (snd (AuthContext.loadSession parse a)) = false
  /\ AuthContext.user (snd (AuthContext.loadSession parse a))
     = Some (AuthContext.OtherValue "{}").
Proof.
  intros a parse.
  destruct (session_restore parse a) as (H1 & _ & H3).
  split; [exact H1|].
  exact (H3 7 (snd (initDatabase sample_world)) eq_refl eq_refl).
Defined.

(** X23. A session outlives the process: when [login] has succeeded for
    the user row [u] and the application later starts again on the items
    SecureStore then held, the session restore sets [user] to [u] again,
    provided the database initializes, SecureStore answers, and
    [JSON.parse] gives back the row from its [JSON.stringify] text. *)
Theorem session_survives_restart {rt : Runtime} (stringify : Row -> string)
  (parse : string -> Res (option AuthContext.UserValue)) (email password : string)
  (a a2 : AuthContext.App) (h h2 : Handle) (w2 : World) (u : Row) :
  db (guard (AuthContext.world a)) = Some h ->
  rejects (answer_at 0 (script (AuthContext.world a))) = None ->
  hd None (AuthContext.secure a) = None ->
  matching_user email password (store (AuthContext.world a)) = Some u ->
  AuthContext.items a2
  = AuthContext.items (snd (AuthContext.login stringify email password a)) ->
  initDatabase (AuthContext.world a2) = (Ok h2, w2) ->
  hd None (AuthContext.secure a2) = None ->
  stringify u <> "" ->
  parse (stringify u) = Ok (Some (AuthContext.UserRow u)) ->
  AuthContext.user (snd (AuthContext.loadSession parse a2))
  = Some (AuthContext.UserRow u).
Proof.
  intros Hdb Ha Hs Hm Hitems Hi Hs2 Hne Hp.
  pose proof (login_cases stringify email password a h Hdb Ha) as Hl.
  cbv zeta in Hl. rewrite Hm, Hs in Hl. destruct Hl as (_ & _ & Hitem).
  destruct (loadSession_cases parse a2) as (_ & _ & H3).
  specialize (H3 h2 w2 Hi Hs2). rewrite Hitems, Hitem in H3.
  apply String.eqb_neq in Hne. by rewrite Hne, Hp in H3.
Qed.

Lemma session_survives_restart_witness :
  let u := [ ("id", SInt 1); ("name", SText "A");
             ("email", SText "a@x.com"); ("password", SText "p");
             ("created_at", sample_time) ] in
  let a1 := snd (AuthContext.login sample_stringify "A@X.com" "p"
                   AuthContext.sample_app) in
  let a2 := AuthContext.mkApp (boot []) None true (AuthContext.items a1) [] in
  matching_user "A@X.com" "p" (store (AuthContext.world AuthContext.sample_app))
  = Some u
  /\ sample_parse (sample_stringify u) = Ok (Some (AuthContext.UserRow u))
  /\ AuthContext.user (snd (AuthContext.loadSession sample_parse a2))
     = Some (AuthContext.UserRow u).
Proof.
  intros u a1 a2.
  assert (Hm : matching_user "A@X.com" "p"
                 (store (AuthContext.world AuthContext.sample_app)) = Some u)
    by (vm_compute; reflexivity).
  assert (Hp : sample_parse (sample_stringify u) = Ok (Some (AuthContext.UserRow u)))
    by (vm_compute; reflexivity).
  assert (Hi : initDatabase (AuthContext.world a2)
               = (Ok 0, snd (initDatabase (boot []))))
    by (vm_compute; reflexivity).
  assert (Hne : sample_stringify u <> "") by (vm_compute; discriminate).
  assert (Hdb : db (guard (AuthContext.world AuthContext.sample_app)) = Some 7)
    by reflexivity.
  assert (Ha : rejects (answer_at 0
                          (script (AuthContext.world AuthContext.sample_app)))
               = None) by reflexivity.
  assert (Hs : hd None (AuthContext.secure AuthContext.sample_app) = None)
    by reflexivity.
  assert (Hs2 : hd None (AuthContext.secure a2) = None) by reflexivity.
  split; [exact Hm|]. split; [exact Hp|].
  exact (session_survives_restart sample_stringify sample_parse "A@X.com" "p"
           AuthContext.sample_app a2 7 0 _ u Hdb Ha Hs Hm eq_refl Hi Hs2
           Hne Hp).
Defined.
